(** * gittensor-db: a shallow embedding of the data-access layer

    The development follows the layout of the Python package:

    - [PyStr]: the few [str] methods the package calls ([split], [strip],
      [lower], [in]);
    - the entities of [models/domain_models.py];
    - the statement templates of [queries/queries.py] that the modelled
      repositories use;
    - the connection handle: a transactional store behind an [Engine]
      interface, reached through a [Driver] whose [cursor], [close] and
      [rollback] calls may raise, with a recorded call trace as a [Mock]
      would keep it;
    - [repositories/base_repository.py], the entity repositories and
      [migrations/migrator.py] as computations in a state-and-exception
      monad;
    - engines: a canned one in the style of [tests/conftest.py], a
      relational one that interprets the catalog statements over tables,
      and one that interprets the bulk statements with their conflict
      targets and pages; and a driver whose connection is lost.

    Definitions come first, the theorems about them follow. *)

From Stdlib Require Import ZArith Ascii String List Bool Lia.
From Stdlib Require Import Floats.PrimFloat.
From Stdlib Require Import DecimalString.
From stdpp Require Import base option list gmap strings.

Local Open Scope Z_scope.
Local Open Scope string_scope.

(* ===================================================================== *)
(** ** Python [str] methods *)
(* ===================================================================== *)

(** Strings are byte strings; the case mapping and the whitespace class are
    the ASCII ones, which is where this model and Python's Unicode [str]
    agree. *)
Module PyStr.

(** [c in s] for a one-character [c]. *)
Fixpoint contains (c : ascii) (s : string) : bool :=
  match s with
  | EmptyString => false
  | String d s' => if Ascii.eqb d c then true else contains c s'
  end.

(** [s.split(sep)] for a one-character separator: never empty, and
    the empty string splits into one empty part. *)
Fixpoint split (sep : ascii) (s : string) : list string :=
  match s with
  | EmptyString => [EmptyString]
  | String d s' =>
      if Ascii.eqb d sep then EmptyString :: split sep s'
      else match split sep s' with
           | [] => [String d EmptyString]
           | p :: ps => String d p :: ps
           end
  end.

Definition lower_char (c : ascii) : ascii :=
  let n := nat_of_ascii c in
  if (Nat.leb 65 n && Nat.leb n 90)%bool then ascii_of_nat (n + 32) else c.

(** [s.lower()] *)
Fixpoint lower (s : string) : string :=
  match s with
  | EmptyString => EmptyString
  | String c s' => String (lower_char c) (lower s')
  end.

(** [str.isspace] on one character: TAB..CR, FS..US and the space. *)
Definition isspace (c : ascii) : bool :=
  let n := nat_of_ascii c in
  ((Nat.leb 9 n && Nat.leb n 13) || (Nat.leb 28 n && Nat.leb n 32))%bool.

Fixpoint lstrip (s : string) : string :=
  match s with
  | EmptyString => EmptyString
  | String c s' => if isspace c then lstrip s' else s
  end.

Fixpoint rstrip (s : string) : string :=
  match s with
  | EmptyString => EmptyString
  | String c s' =>
      match rstrip s' with
      | EmptyString => if isspace c then EmptyString else String c EmptyString
      | t => String c t
      end
  end.

(** [s.strip()] *)
Definition strip (s : string) : string := rstrip (lstrip s).

(** Truthiness of a [str]: non-empty. *)
Definition truthy (s : string) : bool :=
  match s with EmptyString => false | String _ _ => true end.

(** [l[-1]] on a list of strings (the lists here are never empty). *)
Definition last (l : list string) : string := List.last l EmptyString.

End PyStr.

(* ===================================================================== *)
(** ** Entities: models/domain_models.py *)
(* ===================================================================== *)

(** [datetime] values are only carried from rows to entities and back. *)
Definition datetime := Z.

(** References to [PullRequest] objects held by the caller. *)
Definition loc := positive.

(** An [int]-annotated field whose value may be a numpy fixed-width integer
    ([np.integer]) instead of a Python [int]. *)
Inductive np_dtype := int8 | int16 | int32 | int64 | uint8 | uint16 | uint32 | uint64.

Inductive py_int :=
| PyInt (z : Z)
| NpInt (d : np_dtype) (z : Z).

(** [isinstance(v, np.integer)] *)
Definition is_np_integer (v : py_int) : bool :=
  match v with PyInt _ => false | NpInt _ _ => true end.

(** [v.item()] on a numpy integer: the Python [int] of the same value. *)
Definition item (v : py_int) : py_int :=
  match v with PyInt z => PyInt z | NpInt _ z => PyInt z end.

Definition int_value (v : py_int) : Z :=
  match v with PyInt z => z | NpInt _ z => z end.

Record Miner := {
  miner_uid : Z;
  miner_hotkey : string;
  miner_github_id : string
}.

Record Repository := {
  repo_name : string;
  repo_owner : string
}.

(** [Repository.full_name] *)
Definition full_name (r : Repository) : string :=
  repo_owner r +:+ "/" +:+ repo_name r.

Record FileChange := {
  fc_pr_number : Z;
  fc_repository_full_name : string;
  fc_filename : string;
  fc_changes : Z;
  fc_additions : Z;
  fc_deletions : Z;
  fc_status : string;
  fc_patch : option string;
  fc_file_extension : option string;
  fc_id : option Z
}.

(** [FileChange._calculate_file_extension] *)
Definition _calculate_file_extension (filename : string) : string :=
  if PyStr.contains "." filename
  then PyStr.lower (PyStr.last (PyStr.split "." filename))
  else EmptyString.

(** The dataclass constructor followed by [__post_init__]. *)
Definition FileChange_init (pr_number : Z) (repository_full_name filename : string)
    (changes additions deletions : Z) (status : string)
    (patch file_extension : option string) (id : option Z) : FileChange :=
  {| fc_pr_number := pr_number;
     fc_repository_full_name := repository_full_name;
     fc_filename := filename;
     fc_changes := changes;
     fc_additions := additions;
     fc_deletions := deletions;
     fc_status := status;
     fc_patch := patch;
     fc_file_extension :=
       match file_extension with
       | None => Some (_calculate_file_extension filename)
       | Some e => Some e
       end;
     fc_id := id |}.

Record Issue := {
  issue_number : Z;
  issue_pr_number : Z;
  issue_repository_full_name : string;
  issue_title : string;
  issue_created_at : option datetime;
  issue_closed_at : option datetime
}.

Record PullRequest := {
  number : Z;
  repository_full_name : string;
  uid : py_int;
  hotkey : string;
  github_id : string;
  title : string;
  author_login : string;
  merged_at : datetime;
  created_at : datetime;
  earned_score : float;
  additions : Z;
  deletions : Z;
  commits : Z;
  merged_by_login : option string;
  file_changes : option (list FileChange);
  issues : option (list Issue)
}.

(** [pull_request.uid = v] *)
Definition set_uid (v : py_int) (pr : PullRequest) : PullRequest :=
  {| number := number pr;
     repository_full_name := repository_full_name pr;
     uid := v;
     hotkey := hotkey pr;
     github_id := github_id pr;
     title := title pr;
     author_login := author_login pr;
     merged_at := merged_at pr;
     created_at := created_at pr;
     earned_score := earned_score pr;
     additions := additions pr;
     deletions := deletions pr;
     commits := commits pr;
     merged_by_login := merged_by_login pr;
     file_changes := file_changes pr;
     issues := issues pr |}.

(** [pull_request.file_changes = fcs] *)
Definition set_file_changes (fcs : list FileChange) (pr : PullRequest) : PullRequest :=
  {| number := number pr;
     repository_full_name := repository_full_name pr;
     uid := uid pr;
     hotkey := hotkey pr;
     github_id := github_id pr;
     title := title pr;
     author_login := author_login pr;
     merged_at := merged_at pr;
     created_at := created_at pr;
     earned_score := earned_score pr;
     additions := additions pr;
     deletions := deletions pr;
     commits := commits pr;
     merged_by_login := merged_by_login pr;
     file_changes := Some fcs;
     issues := issues pr |}.

(** [MinerEvaluation.github_id] is annotated [Optional[str]] and defaults to
    the integer [0]. *)
Inductive optional_github_id :=
| GithubIdZero
| GithubIdNone
| GithubIdStr (s : string).

Record MinerEvaluation := {
  eval_uid : Z;
  eval_hotkey : string;
  eval_github_id : optional_github_id;
  eval_github_pat : option string;
  eval_id : option Z;
  total_score : float;
  total_lines_changed : Z;
  total_open_prs : Z;
  unique_repos_count : Z;
  failed_reason : option string;
  evaluation_timestamp : option datetime;
  pull_requests : list loc;
  unique_repos_contributed_to : gset string;
  stored_total_prs : option Z
}.

(** [MinerEvaluation.total_prs] *)
Definition total_prs (e : MinerEvaluation) : Z :=
  match stored_total_prs e with
  | Some n => n
  | None => Z.of_nat (length (pull_requests e))
  end.

(* ===================================================================== *)
(** ** More of [str]: [replace] *)
(* ===================================================================== *)

Module PyStrReplace.

(** [s.replace(old, new)] for a non-empty [old]: occurrences are replaced
    from the left and do not overlap. [skip] counts the characters of a
    matched occurrence that are still to be dropped. *)
Fixpoint replace_from (old new : string) (skip : nat) (s : string) : string :=
  match s with
  | EmptyString => EmptyString
  | String c s' =>
      match skip with
      | S k => replace_from old new k s'
      | O =>
          if String.prefix old s
          then new +:+ replace_from old new (String.length old - 1) s'
          else String c (replace_from old new O s')
      end
  end.

Definition replace (old new s : string) : string := replace_from old new O s.

End PyStrReplace.

(* ===================================================================== *)
(** ** Statement templates: queries/queries.py *)
(* ===================================================================== *)

Definition SET_PULL_REQUEST : string :=
  "
INSERT INTO pull_requests (
    number, repository_full_name, uid, hotkey, github_id, earned_score,
    title, merged_at, pr_created_at, additions, deletions, commits,
    author_login, merged_by_login
) VALUES (%s, %s, %s, %s, %s, %s, %s, %s, %s, %s, %s, %s, %s, %s)
ON CONFLICT (number, repository_full_name)
DO NOTHING
".

Definition GET_PULL_REQUEST_WITH_FILE_CHANGES : string :=
  "
SELECT pr.number, pr.repository_full_name, pr.uid, pr.hotkey, pr.github_id,
       pr.earned_score, pr.title, pr.merged_at, pr.pr_created_at,
       pr.additions, pr.deletions, pr.commits, pr.author_login,
       pr.merged_by_login, r.name, r.owner,
       fc.filename, fc.changes, fc.additions as file_additions,
       fc.deletions as file_deletions, fc.status, fc.patch, fc.file_extension
FROM pull_requests pr
JOIN repositories r ON pr.repository_full_name = r.full_name
LEFT JOIN file_changes fc ON pr.number = fc.pr_number AND pr.repository_full_name = fc.repository_full_name
WHERE pr.number = %s AND pr.repository_full_name = %s
".

Definition BULK_UPSERT_MINERS : string :=
  "
INSERT INTO miners (uid, hotkey, github_id)
VALUES %s
ON CONFLICT (uid, hotkey, github_id)
DO UPDATE SET
    updated_at = CURRENT_TIMESTAMP AT TIME ZONE 'America/Chicago'
".

Definition BULK_UPSERT_REPOSITORIES : string :=
  "
INSERT INTO repositories (full_name, name, owner)
VALUES %s
ON CONFLICT (full_name)
DO NOTHING
".

Definition BULK_UPSERT_PULL_REQUESTS : string :=
  "
INSERT INTO pull_requests (
    number, repository_full_name, uid, hotkey, github_id, earned_score,
    title, merged_at, pr_created_at, additions, deletions, commits,
    author_login, merged_by_login
) VALUES %s
ON CONFLICT (number, repository_full_name)
DO NOTHING
".

Definition BULK_UPSERT_ISSUES : string :=
  "
INSERT INTO issues (
    number, pr_number, repository_full_name, title, created_at, closed_at
) VALUES %s
ON CONFLICT (number, repository_full_name)
DO NOTHING
".

Definition BULK_UPSERT_FILE_CHANGES : string :=
  "
INSERT INTO file_changes (
    pr_number, repository_full_name, filename, changes, additions, deletions, status, patch, file_extension
) VALUES %s
ON CONFLICT (pr_number, repository_full_name, filename)
DO NOTHING
".

(** The statement [get_pull_requests_by_repository_with_file_changes]
    derives from the single-PR template. *)
Definition GET_PULL_REQUESTS_BY_REPOSITORY_WITH_FILE_CHANGES : string :=
  PyStrReplace.replace
    "WHERE pr.number = %s AND pr.repository_full_name = %s"
    "WHERE pr.repository_full_name = %s ORDER BY pr.merged_at DESC"
    GET_PULL_REQUEST_WITH_FILE_CHANGES.

(* ===================================================================== *)
(** ** Values crossing the connection handle *)
(* ===================================================================== *)

(** A positional statement parameter. [PNumpy] is a numpy integer handed to
    the driver as it is. *)
Inductive sql_param :=
| PNone
| PInt (z : Z)
| PNumpy (d : np_dtype) (z : Z)
| PFloat (f : float)
| PStr (s : string)
| PDatetime (t : datetime).

Definition param_of_int (v : py_int) : sql_param :=
  match v with PyInt z => PInt z | NpInt d z => PNumpy d z end.

Definition param_of_opt_str (o : option string) : sql_param :=
  match o with Some s => PStr s | None => PNone end.

Definition param_of_opt_datetime (o : option datetime) : sql_param :=
  match o with Some t => PDatetime t | None => PNone end.

(** The file-change columns of a joined row: all NULL together when the
    LEFT JOIN found no file change. *)
Record file_change_columns := {
  col_filename : string;
  col_changes : Z;
  col_file_additions : Z;
  col_file_deletions : Z;
  col_status : string;
  col_patch : option string;
  col_file_extension : option string
}.

(** A row of [GET_PULL_REQUEST_WITH_FILE_CHANGES] (a dict keyed by column
    name in the source; the record fields are the keys). *)
Record Row := {
  row_number : Z;
  row_repository_full_name : string;
  row_uid : py_int;
  row_hotkey : string;
  row_github_id : string;
  row_earned_score : float;
  row_title : string;
  row_merged_at : datetime;
  row_pr_created_at : datetime;
  row_additions : option Z;
  row_deletions : option Z;
  row_commits : Z;
  row_author_login : string;
  row_merged_by_login : option string;
  row_name : string;
  row_owner : string;
  row_file_change : option file_change_columns
}.

(** [row.get('filename')] / [row['filename']] *)
Definition row_filename (r : Row) : option string :=
  col_filename <$> row_file_change r.

(** Truthiness of an optional string: neither [None] nor empty. *)
Definition truthy_opt_str (o : option string) : bool :=
  match o with Some s => PyStr.truthy s | None => false end.

(** [v or 0] on a nullable integer column. *)
Definition or_zero (o : option Z) : Z :=
  match o with
  | Some z => if Z.eqb z 0 then 0 else z
  | None => 0
  end.

Inductive exn :=
| DatabaseError (msg : string)
| InterfaceError (msg : string)
| OSError (msg : string)
| ReferenceError (msg : string).

(** [str(e)] *)
Definition exn_message (e : exn) : string :=
  match e with DatabaseError m | InterfaceError m | OSError m | ReferenceError m => m end.

Inductive outcome (A : Type) :=
| Returned (a : A)
| Raised (e : exn).
Arguments Returned {A} a.
Arguments Raised {A} e.

(** The calls a connection handle and its cursors receive, in the order
    they are made. *)
Inductive call :=
| call_cursor
| call_execute (statement : string) (params : list sql_param)
| call_execute_values (statement : string) (rows : list (list sql_param))
| call_fetchall
| call_close
| call_commit
| call_rollback.

Inductive log_level := INFO | ERROR.

Record log_record := {
  levelname : log_level;
  message : string
}.

(** What stands behind the connection handle. [run_execute] is
    [cursor.execute(statement, params)]: the working state after the
    statement together with the rows left to fetch, or the exception raised.
    [run_execute_values] is [psycopg2.extras.execute_values]. [run_commit]
    says whether committing the working state raises. *)
Record Engine := {
  store : Type;
  run_execute : store -> string -> list sql_param -> outcome (store * list Row);
  run_execute_values : store -> string -> list (list sql_param) -> outcome store;
  run_commit : store -> option exn
}.

(** The connection handle with everything that can go wrong on it. Beyond
    the statements and the commit of the engine, [self.db.cursor()],
    [cursor.close()] and [self.db.rollback()] are calls on the driver, and
    each may raise: [run_cursor], [run_close] and [run_rollback] say so,
    given the working state they are called in. A statement that raises
    leaves the transaction in a state of its own (with autocommit off,
    PostgreSQL leaves it aborted until a rollback): [failed_execute] and
    [failed_execute_values] give that state. *)
Record Driver := {
  driver_engine :> Engine;
  run_cursor : store driver_engine -> option exn;
  run_close : store driver_engine -> option exn;
  run_rollback : store driver_engine -> option exn;
  failed_execute : store driver_engine -> string -> list sql_param -> store driver_engine;
  failed_execute_values :
    store driver_engine -> string -> list (list sql_param) -> store driver_engine
}.

(** An engine behind a connection that is open and stays usable: cursors
    open and close, a rollback goes through, and a statement that raises
    leaves the working state alone. Where a [Driver] is expected and an
    [Engine] is given, this is the driver meant: a statement about an
    [Engine] is a statement about the package on such a connection. *)
Definition healthy (E : Engine) : Driver :=
  {| driver_engine := E;
     run_cursor _ := None;
     run_close _ := None;
     run_rollback _ := None;
     failed_execute st _ _ := st;
     failed_execute_values st _ _ := st |}.

#[warning="-ambiguous-paths"]
Coercion healthy : Engine >-> Driver.

(* ===================================================================== *)
(** ** The world the package runs in *)
(* ===================================================================== *)

Section Layer.

Context {E : Driver}.

(** The connection handle: autocommit is off, so statements act on a
    working state that [commit] publishes and [rollback] discards. *)
Record Connection := {
  committed : store E;
  working : store E;
  calls : list call
}.

Record World := {
  db : Connection;
  objects : gmap loc PullRequest;
  log : list log_record;
  package_resources : gmap string string;
  sql_directory : gmap string string
}.

Definition with_db (c : Connection) (w : World) : World :=
  {| db := c; objects := objects w; log := log w;
     package_resources := package_resources w; sql_directory := sql_directory w |}.

Definition with_objects (h : gmap loc PullRequest) (w : World) : World :=
  {| db := db w; objects := h; log := log w;
     package_resources := package_resources w; sql_directory := sql_directory w |}.

Definition with_log (l : list log_record) (w : World) : World :=
  {| db := db w; objects := objects w; log := l;
     package_resources := package_resources w; sql_directory := sql_directory w |}.

(** *** Computations: state passing with exceptions *)

Definition M (A : Type) : Type := World -> outcome A * World.

Definition ret {A} (a : A) : M A := fun w => (Returned a, w).

Definition raise {A} (e : exn) : M A := fun w => (Raised e, w).

Definition bind {A B} (m : M A) (k : A -> M B) : M B :=
  fun w =>
    match m w with
    | (Returned a, w') => k a w'
    | (Raised e, w') => (Raised e, w')
    end.

(** [try: body / except Exception as e: handler(e)] *)
Definition try_except {A} (body : M A) (handler : exn -> M A) : M A :=
  fun w =>
    match body w with
    | (Returned a, w') => (Returned a, w')
    | (Raised e, w') => handler e w'
    end.

(** [try: body / finally: cleanup] *)
Definition try_finally {A} (body : M A) (cleanup : M unit) : M A :=
  fun w =>
    match body w with
    | (r, w') =>
        match cleanup w' with
        | (Returned _, w'') => (r, w'')
        | (Raised e, w'') => (Raised e, w'')
        end
    end.

Notation "'let*' x := m 'in' k" := (bind m (fun x => k))
  (at level 10, x name, m at level 100, k at level 200, only parsing).
Notation "m >> k" := (bind m (fun _ => k))
  (at level 90, right associativity, only parsing).

(** [[f(x) for x in l]] with effects, left to right. *)
Fixpoint for_each {A B} (f : A -> M B) (l : list A) : M (list B) :=
  match l with
  | [] => ret []
  | x :: l' => let* y := f x in let* ys := for_each f l' in ret (y :: ys)
  end.

(** *** The connection handle's methods *)

Definition record_call (c : call) : M unit :=
  fun w =>
    (Returned tt,
     with_db {| committed := committed (db w); working := working (db w);
                calls := (calls (db w) ++ [c])%list |} w).

(** A call on the driver that either goes through or raises, and changes
    nothing else. *)
Definition driver_call (c : call) (fault : store E -> option exn) : M unit :=
  record_call c >>
  fun w =>
    match fault (working (db w)) with
    | None => (Returned tt, w)
    | Some e => (Raised e, w)
    end.

(** [self.db.cursor()] *)
Definition db_cursor : M unit := driver_call call_cursor (run_cursor E).

(** [cursor.close()] *)
Definition cursor_close : M unit := driver_call call_close (run_close E).

Definition cursor_execute (statement : string) (params : list sql_param) : M (list Row) :=
  record_call (call_execute statement params) >>
  fun w =>
    match run_execute E (working (db w)) statement params with
    | Returned (st, rows) =>
        (Returned rows,
         with_db {| committed := committed (db w); working := st; calls := calls (db w) |} w)
    | Raised e =>
        (Raised e,
         with_db {| committed := committed (db w);
                    working := failed_execute E (working (db w)) statement params;
                    calls := calls (db w) |} w)
    end.

Definition cursor_fetchall (rows : list Row) : M (list Row) :=
  record_call call_fetchall >> ret rows.

Definition execute_values (statement : string) (rows : list (list sql_param)) : M unit :=
  record_call (call_execute_values statement rows) >>
  fun w =>
    match run_execute_values E (working (db w)) statement rows with
    | Returned st =>
        (Returned tt,
         with_db {| committed := committed (db w); working := st; calls := calls (db w) |} w)
    | Raised e =>
        (Raised e,
         with_db {| committed := committed (db w);
                    working := failed_execute_values E (working (db w)) statement rows;
                    calls := calls (db w) |} w)
    end.

Definition db_commit : M unit :=
  record_call call_commit >>
  fun w =>
    match run_commit E (working (db w)) with
    | None =>
        (Returned tt,
         with_db {| committed := working (db w); working := working (db w);
                    calls := calls (db w) |} w)
    | Some e => (Raised e, w)
    end.

(** [self.db.rollback()]: the working state goes back to the committed
    one, unless the driver raises. *)
Definition db_rollback : M unit :=
  record_call call_rollback >>
  fun w =>
    match run_rollback E (working (db w)) with
    | None =>
        (Returned tt,
         with_db {| committed := committed (db w); working := committed (db w);
                    calls := calls (db w) |} w)
    | Some e => (Raised e, w)
    end.

Definition logger_error (msg : string) : M unit :=
  fun w => (Returned tt, with_log ((log w ++ [{| levelname := ERROR; message := msg |}])%list) w).

Definition logger_info (msg : string) : M unit :=
  fun w => (Returned tt, with_log ((log w ++ [{| levelname := INFO; message := msg |}])%list) w).

(** *** The caller's [PullRequest] objects *)

(** Reading through a reference. Python references always resolve; the
    exception stands for a reference the model's heap does not hold. *)
Definition deref (l : loc) : M PullRequest :=
  fun w =>
    match objects w !! l with
    | Some pr => (Returned pr, w)
    | None => (Raised (ReferenceError "no such object"), w)
    end.

Definition assign (l : loc) (pr : PullRequest) : M unit :=
  fun w => (Returned tt, with_objects (<[l := pr]> (objects w)) w).

(* ===================================================================== *)
(** ** repositories/base_repository.py *)
(* ===================================================================== *)

(** [BaseRepository.get_cursor], used as [with self.get_cursor() as cursor]. *)
Definition get_cursor {A} (body : M A) : M A :=
  db_cursor >> try_finally body cursor_close.

(** [BaseRepository.execute_query] *)
Definition execute_query (query : string) (params : list sql_param) : M (list Row) :=
  get_cursor (let* rows := cursor_execute query params in cursor_fetchall rows).

(** [BaseRepository.execute_command] *)
Definition execute_command (query : string) (params : list sql_param) : M bool :=
  try_except
    (get_cursor (cursor_execute query params >> db_commit >> ret true))
    (fun e =>
       db_rollback >>
       logger_error ("Error executing command: " +:+ exn_message e) >>
       ret false).

(** [BaseRepository.set_entity] *)
Definition set_entity (query : string) (params : list sql_param) : M bool :=
  execute_command query params.

(** The body shared, word for word, by the five [store_*_bulk] methods once
    [values] is built: [what] is the noun of the error message. *)
Definition store_values (statement what : string) (values : list (list sql_param)) : M Z :=
  try_except
    (get_cursor
       (execute_values (PyStrReplace.replace "VALUES %s" "VALUES %s" statement) values >>
        db_commit >>
        ret (Z.of_nat (length values))))
    (fun e =>
       db_rollback >>
       logger_error ("Error in bulk " +:+ what +:+ " storage: " +:+ exn_message e) >>
       ret 0).

(* ===================================================================== *)
(** ** repositories/pull_requests_repository.py *)
(* ===================================================================== *)

(** [PullRequestsRepository._map_to_pull_request] *)
Definition _map_to_pull_request (row : Row) : PullRequest :=
  {| number := row_number row;
     repository_full_name := row_repository_full_name row;
     uid := row_uid row;
     hotkey := row_hotkey row;
     github_id := row_github_id row;
     title := row_title row;
     author_login := row_author_login row;
     merged_at := row_merged_at row;
     created_at := row_pr_created_at row;
     earned_score := row_earned_score row;
     additions := or_zero (row_additions row);
     deletions := or_zero (row_deletions row);
     commits := row_commits row;
     merged_by_login := row_merged_by_login row;
     file_changes := None;
     issues := None |}.

(** The file changes the loop over [rows] collects: rows without a file
    name are skipped. *)
Definition file_changes_of_rows (rows : list Row) : list FileChange :=
  flat_map
    (fun row =>
       match row_file_change row with
       | Some c =>
           if PyStr.truthy (col_filename c)
           then [FileChange_init (row_number row) (row_repository_full_name row)
                   (col_filename c) (col_changes c) (col_file_additions c)
                   (col_file_deletions c) (col_status c) (col_patch c)
                   (col_file_extension c) None]
           else []
       | None => []
       end)
    rows.

(** [PullRequestsRepository._map_to_pull_request_with_file_changes] *)
Definition _map_to_pull_request_with_file_changes (rows : list Row) : option PullRequest :=
  match rows with
  | [] => None
  | first_row :: _ =>
      let pull_request := _map_to_pull_request first_row in
      if truthy_opt_str (row_filename first_row)
      then Some (set_file_changes (file_changes_of_rows rows) pull_request)
      else Some pull_request
  end.

(** The parameter tuple both [set_pull_request] and
    [store_pull_requests_bulk] build from a pull request. *)
Definition pull_request_params (pr : PullRequest) : list sql_param :=
  [ PInt (number pr);
    PStr (repository_full_name pr);
    param_of_int (uid pr);
    PStr (hotkey pr);
    PStr (github_id pr);
    PFloat (earned_score pr);
    PStr (title pr);
    PDatetime (merged_at pr);
    PDatetime (created_at pr);
    PInt (additions pr);
    PInt (deletions pr);
    PInt (commits pr);
    PStr (author_login pr);
    param_of_opt_str (merged_by_login pr) ].

(** [if isinstance(pr.uid, np.integer): pr.uid = pr.uid.item()] on the
    object behind [l]. *)
Definition normalize_uid (l : loc) : M unit :=
  let* pr := deref l in
  if is_np_integer (uid pr) then assign l (set_uid (item (uid pr)) pr) else ret tt.

(** [PullRequestsRepository.set_pull_request] *)
Definition set_pull_request (pull_request : loc) : M bool :=
  normalize_uid pull_request >>
  let* pr := deref pull_request in
  set_entity SET_PULL_REQUEST (pull_request_params pr).

(** [PullRequestsRepository.get_pull_request_with_file_changes] *)
Definition get_pull_request_with_file_changes (pr_number : Z) (repository_full_name : string)
  : M (option PullRequest) :=
  let* results :=
    execute_query GET_PULL_REQUEST_WITH_FILE_CHANGES [PInt pr_number; PStr repository_full_name] in
  ret (_map_to_pull_request_with_file_changes results).

(** [pr_groups[pr_key].append(result)], creating the entry when the key is
    new. A Python dict iterates in insertion order, so a new key goes last. *)
Fixpoint group_append (pr_key : Z) (result : Row) (pr_groups : list (Z * list Row))
  : list (Z * list Row) :=
  match pr_groups with
  | [] => [(pr_key, [result])]
  | (k, rs) :: rest =>
      if Z.eqb k pr_key then (k, (rs ++ [result])%list) :: rest
      else (k, rs) :: group_append pr_key result rest
  end.

Definition group_by_number (results : list Row) : list (Z * list Row) :=
  fold_left (fun pr_groups result => group_append (row_number result) result pr_groups)
    results [].

(** The second loop: a [PullRequest] object is always truthy, so only a
    [None] is left out. *)
Definition map_groups (pr_groups : list (Z * list Row)) : list PullRequest :=
  flat_map
    (fun g =>
       match _map_to_pull_request_with_file_changes (snd g) with
       | Some pr => [pr]
       | None => []
       end)
    pr_groups.

(** [PullRequestsRepository.get_pull_requests_by_repository_with_file_changes] *)
Definition get_pull_requests_by_repository_with_file_changes (repository_full_name : string)
  : M (list PullRequest) :=
  let* results :=
    execute_query GET_PULL_REQUESTS_BY_REPOSITORY_WITH_FILE_CHANGES
      [PStr repository_full_name] in
  ret (map_groups (group_by_number results)).

(** [PullRequestsRepository.store_pull_requests_bulk] *)
Definition store_pull_requests_bulk (pull_requests : list loc) : M Z :=
  match pull_requests with
  | [] => ret 0
  | _ =>
      let* values :=
        for_each
          (fun l => normalize_uid l >> let* pr := deref l in ret (pull_request_params pr))
          pull_requests in
      store_values BULK_UPSERT_PULL_REQUESTS "pull request" values
  end.

(* ===================================================================== *)
(** ** The other repositories' bulk operations *)
(* ===================================================================== *)

(** [[(miner.uid, miner.hotkey, miner.github_id) for miner in miners]] *)
Definition miner_rows (miners : list Miner) : list (list sql_param) :=
  map (fun miner =>
         [PInt (miner_uid miner); PStr (miner_hotkey miner); PStr (miner_github_id miner)])
    miners.

(** [MinersRepository.store_miners_bulk] *)
Definition store_miners_bulk (miners : list Miner) : M Z :=
  match miners with
  | [] => ret 0
  | _ =>
      let values := miner_rows miners in
      store_values BULK_UPSERT_MINERS "miner" values
  end.

(** The loop building [values] in [store_issues_bulk]. *)
Definition issue_rows (issues : list Issue) : list (list sql_param) :=
  map (fun issue =>
         [PInt (issue_number issue); PInt (issue_pr_number issue);
          PStr (issue_repository_full_name issue); PStr (issue_title issue);
          param_of_opt_datetime (issue_created_at issue);
          param_of_opt_datetime (issue_closed_at issue)])
    issues.

(** [IssuesRepository.store_issues_bulk] *)
Definition store_issues_bulk (issues : list Issue) : M Z :=
  match issues with
  | [] => ret 0
  | _ =>
      let values := issue_rows issues in
      store_values BULK_UPSERT_ISSUES "issue" values
  end.

(** [file_change.file_extension or file_change._calculate_file_extension()] *)
Definition extension_or_calculated (fc : FileChange) : string :=
  match fc_file_extension fc with
  | Some e => if PyStr.truthy e then e else _calculate_file_extension (fc_filename fc)
  | None => _calculate_file_extension (fc_filename fc)
  end.

(** The loop building [values] in [store_file_changes_bulk]. *)
Definition file_change_rows (file_changes : list FileChange) : list (list sql_param) :=
  map (fun fc =>
         [PInt (fc_pr_number fc); PStr (fc_repository_full_name fc);
          PStr (fc_filename fc); PInt (fc_changes fc); PInt (fc_additions fc);
          PInt (fc_deletions fc); PStr (fc_status fc); param_of_opt_str (fc_patch fc);
          PStr (extension_or_calculated fc)])
    file_changes.

(** [FileChangesRepository.store_file_changes_bulk] *)
Definition store_file_changes_bulk (file_changes : list FileChange) : M Z :=
  match file_changes with
  | [] => ret 0
  | _ =>
      let values := file_change_rows file_changes in
      store_values BULK_UPSERT_FILE_CHANGES "file change" values
  end.

(** The row [store_repositories_bulk] builds from one name, when the name
    splits on the slash into exactly two parts. *)
Definition repository_row (full_name : string) : option (list sql_param) :=
  match PyStr.split "/" full_name with
  | [owner; name] => Some [PStr full_name; PStr name; PStr owner]
  | _ => None
  end.

(** The loop building [values]. The set is iterated in the order
    [elements] lists it. *)
Definition repository_rows (repository_full_names : gset string) : list (list sql_param) :=
  omap repository_row (elements repository_full_names).

(** [RepositoriesRepository.store_repositories_bulk] *)
Definition store_repositories_bulk (repository_full_names : gset string) : M Z :=
  if decide (repository_full_names = ∅) then ret 0
  else
    let values := repository_rows repository_full_names in
    match values with
    | [] => ret 0
    | _ => store_values BULK_UPSERT_REPOSITORIES "repository" values
    end.

(* ===================================================================== *)
(** ** migrations/migrator.py *)
(* ===================================================================== *)

(** [DatabaseMigrator.get_migration_files] *)
Definition get_migration_files : list string :=
  [ "repositories.sql"; "miners.sql"; "miner_evaluations.sql";
    "pull_requests.sql"; "issues.sql"; "file_changes.sql" ].

(** [DatabaseMigrator.read_migration_file]: the packaged resource, and the
    file next to the module when that lookup raises. *)
Definition read_migration_file (filename : string) : M string :=
  fun w =>
    match package_resources w !! filename with
    | Some sql_content => (Returned sql_content, w)
    | None =>
        match sql_directory w !! filename with
        | Some sql_content => (Returned sql_content, w)
        | None => (Raised (OSError ("No such file or directory: " +:+ filename)), w)
        end
    end.

(** [[stmt.strip() for stmt in sql_content.split(';') if stmt.strip()]] *)
Definition statements_of (sql_content : string) : list string :=
  map PyStr.strip (filter (fun stmt => PyStr.truthy (PyStr.strip stmt) = true)
                     (PyStr.split ";" sql_content)).

(** [DatabaseMigrator.run_migration]. The cursor is used as a context
    manager, which closes it on exit. *)
Definition run_migration (filename : string) : M bool :=
  try_except
    (let* sql_content := read_migration_file filename in
     get_cursor
       (for_each
          (fun statement =>
             if PyStr.truthy statement then cursor_execute statement [] >> ret tt else ret tt)
          (statements_of sql_content) >>
        db_commit >>
        logger_info ("Successfully ran migration: " +:+ filename) >>
        ret true))
    (fun e =>
       db_rollback >>
       logger_error ("Failed to run migration " +:+ filename +:+ ": " +:+ exn_message e) >>
       ret false).

(** The loop of [migrate] over the remaining files. *)
Fixpoint migrate_from (migration_files : list string) : M bool :=
  match migration_files with
  | [] => logger_info "All migrations completed successfully" >> ret true
  | filename :: rest =>
      let* ok := run_migration filename in
      if ok : bool then migrate_from rest
      else logger_error ("Migration failed at " +:+ filename) >> ret false
  end.

(** [DatabaseMigrator.migrate] *)
Definition migrate : M bool := migrate_from get_migration_files.

End Layer.

Arguments World E : clear implicits.
Arguments Connection E : clear implicits.
Arguments M E A : clear implicits.

(* ===================================================================== *)
(** ** A canned engine, in the style of the mock of tests/conftest.py *)
(* ===================================================================== *)

Module Canned.

(** The store is the list of statements applied so far. Every query
    answers with the rows [canned]; the statements [failing] accepts raise;
    commit never raises. *)
Definition engine (canned : list Row) (failing : string -> bool) : Engine :=
  {| store := list string;
     run_execute st statement _ :=
       if failing statement
       then Raised (DatabaseError ("cannot execute: " +:+ statement))
       else Returned ((st ++ [statement])%list, canned);
     run_execute_values st statement _ :=
       if failing statement
       then Raised (DatabaseError ("cannot execute: " +:+ statement))
       else Returned ((st ++ [statement])%list);
     run_commit _ := None |}.

Definition fresh (canned : list Row) (failing : string -> bool)
    (objects : gmap loc PullRequest) (resources : gmap string string)
  : World (engine canned failing) :=
  {| db := @Build_Connection (engine canned failing) [] [] [];
     objects := objects;
     log := [];
     package_resources := resources;
     sql_directory := ∅ |}.

End Canned.

(* ===================================================================== *)
(** ** A relational engine for the pull-request statements *)
(* ===================================================================== *)

Module Pg.

(** The tables, read off the statements of queries/queries.py: the columns
    are the ones the INSERT statements name, and the uniqueness constraints
    are the conflict targets those statements declare. *)
Record repository_record := {
  r_full_name : string;
  r_name : string;
  r_owner : string
}.

Record pull_request_record := {
  p_number : Z;
  p_repository_full_name : string;
  p_uid : Z;
  p_hotkey : string;
  p_github_id : string;
  p_earned_score : float;
  p_title : string;
  p_merged_at : datetime;
  p_pr_created_at : datetime;
  p_additions : option Z;
  p_deletions : option Z;
  p_commits : Z;
  p_author_login : string;
  p_merged_by_login : option string
}.

Record file_change_record := {
  f_pr_number : Z;
  f_repository_full_name : string;
  f_filename : string;
  f_changes : Z;
  f_additions : Z;
  f_deletions : Z;
  f_status : string;
  f_patch : option string;
  f_file_extension : option string
}.

Record Tables := {
  repositories : list repository_record;
  pull_requests : list pull_request_record;
  file_changes_table : list file_change_record
}.

Definition empty : Tables :=
  {| repositories := []; pull_requests := []; file_changes_table := [] |}.

(** *** GET_PULL_REQUEST_WITH_FILE_CHANGES *)

Definition is_pull_request (n : Z) (r : string) (p : pull_request_record) : bool :=
  Z.eqb (p_number p) n && String.eqb (p_repository_full_name p) r.

Definition is_file_change_of (p : pull_request_record) (f : file_change_record) : bool :=
  Z.eqb (p_number p) (f_pr_number f)
  && String.eqb (p_repository_full_name p) (f_repository_full_name f).

Definition is_repository_of (p : pull_request_record) (r : repository_record) : bool :=
  String.eqb (p_repository_full_name p) (r_full_name r).

Definition columns_of (f : file_change_record) : file_change_columns :=
  {| col_filename := f_filename f;
     col_changes := f_changes f;
     col_file_additions := f_additions f;
     col_file_deletions := f_deletions f;
     col_status := f_status f;
     col_patch := f_patch f;
     col_file_extension := f_file_extension f |}.

Definition joined (p : pull_request_record) (r : repository_record)
    (f : option file_change_record) : Row :=
  {| row_number := p_number p;
     row_repository_full_name := p_repository_full_name p;
     row_uid := PyInt (p_uid p);
     row_hotkey := p_hotkey p;
     row_github_id := p_github_id p;
     row_earned_score := p_earned_score p;
     row_title := p_title p;
     row_merged_at := p_merged_at p;
     row_pr_created_at := p_pr_created_at p;
     row_additions := p_additions p;
     row_deletions := p_deletions p;
     row_commits := p_commits p;
     row_author_login := p_author_login p;
     row_merged_by_login := p_merged_by_login p;
     row_name := r_name r;
     row_owner := r_owner r;
     row_file_change := columns_of <$> f |}.

(** [... LEFT JOIN file_changes fc ON ...]: one row per matching file
    change, and one row of NULLs when there is none. *)
Definition left_join_file_changes (t : Tables) (p : pull_request_record)
  : list (option file_change_record) :=
  match List.filter (is_file_change_of p) (file_changes_table t) with
  | [] => [None]
  | fs => map Some fs
  end.

(** [FROM pull_requests pr JOIN repositories r ON ... LEFT JOIN ... WHERE
    pr.number = %s AND pr.repository_full_name = %s] *)
Definition select_pull_request_with_file_changes (t : Tables) (n : Z) (r : string)
  : list Row :=
  flat_map
    (fun p =>
       flat_map
         (fun repo => map (joined p repo) (left_join_file_changes t p))
         (List.filter (is_repository_of p) (repositories t)))
    (List.filter (is_pull_request n r) (pull_requests t)).

(** *** INSERT ... ON CONFLICT ... DO NOTHING *)

(** Adapting a bound tuple to the columns of [pull_requests]; the driver
    cannot adapt a numpy integer. *)
Definition adapt_pull_request (params : list sql_param) : option pull_request_record :=
  match params with
  | [PInt n; PStr r; PInt u; PStr h; PStr g; PFloat s; PStr t;
     PDatetime m; PDatetime c; PInt a; PInt d; PInt k; PStr al; mb] =>
      match mb with
      | PNone | PStr _ =>
          Some {| p_number := n; p_repository_full_name := r; p_uid := u;
                  p_hotkey := h; p_github_id := g; p_earned_score := s; p_title := t;
                  p_merged_at := m; p_pr_created_at := c;
                  p_additions := Some a; p_deletions := Some d; p_commits := k;
                  p_author_login := al;
                  p_merged_by_login := match mb with PStr x => Some x | _ => None end |}
      | _ => None
      end
  | _ => None
  end.

Definition adapt_repository (params : list sql_param) : option repository_record :=
  match params with
  | [PStr f; PStr n; PStr o] => Some {| r_full_name := f; r_name := n; r_owner := o |}
  | _ => None
  end.

(** [ON CONFLICT (number, repository_full_name) DO NOTHING] *)
Definition insert_pull_request (p : pull_request_record) (t : Tables) : Tables :=
  if existsb (is_pull_request (p_number p) (p_repository_full_name p)) (pull_requests t)
  then t
  else {| repositories := repositories t;
          pull_requests := (pull_requests t ++ [p])%list;
          file_changes_table := file_changes_table t |}.

(** [ON CONFLICT (full_name) DO NOTHING] *)
Definition insert_repository (r : repository_record) (t : Tables) : Tables :=
  if existsb (fun r' => String.eqb (r_full_name r') (r_full_name r)) (repositories t)
  then t
  else {| repositories := (repositories t ++ [r])%list;
          pull_requests := pull_requests t;
          file_changes_table := file_changes_table t |}.

Definition insert_all {A} (insert : A -> Tables -> Tables) (rows : list A) (t : Tables)
  : Tables :=
  fold_left (fun t row => insert row t) rows t.

Definition cannot_adapt : exn := DatabaseError "can't adapt type".
Definition syntax_error : exn := DatabaseError "syntax error".

Definition execute (t : Tables) (statement : string) (params : list sql_param)
  : outcome (Tables * list Row) :=
  if String.eqb statement GET_PULL_REQUEST_WITH_FILE_CHANGES then
    match params with
    | [PInt n; PStr r] => Returned (t, select_pull_request_with_file_changes t n r)
    | _ => Raised cannot_adapt
    end
  else if String.eqb statement SET_PULL_REQUEST then
    match adapt_pull_request params with
    | Some p => Returned (insert_pull_request p t, [])
    | None => Raised cannot_adapt
    end
  else Raised syntax_error.

(** [mapM] on [option]: every tuple must adapt. *)
Fixpoint adapt_all {A} (adapt : list sql_param -> option A) (rows : list (list sql_param))
  : option (list A) :=
  match rows with
  | [] => Some []
  | row :: rest =>
      match adapt row, adapt_all adapt rest with
      | Some a, Some l => Some (a :: l)
      | _, _ => None
      end
  end.

Definition execute_values (t : Tables) (statement : string) (rows : list (list sql_param))
  : outcome Tables :=
  if String.eqb statement BULK_UPSERT_PULL_REQUESTS then
    match adapt_all adapt_pull_request rows with
    | Some ps => Returned (insert_all insert_pull_request ps t)
    | None => Raised cannot_adapt
    end
  else if String.eqb statement BULK_UPSERT_REPOSITORIES then
    match adapt_all adapt_repository rows with
    | Some rs => Returned (insert_all insert_repository rs t)
    | None => Raised cannot_adapt
    end
  else Raised syntax_error.

Definition engine : Engine :=
  {| store := Tables;
     run_execute := execute;
     run_execute_values := execute_values;
     run_commit _ := None |}.

Definition world (t : Tables) (objects : gmap loc PullRequest) : World engine :=
  {| db := @Build_Connection engine t t [];
     objects := objects;
     log := [];
     package_resources := ∅;
     sql_directory := ∅ |}.

End Pg.

(* ===================================================================== *)
(** ** Reference definitions the statements are compared with *)
(* ===================================================================== *)

(** The part of [s] after its last dot, when it has one. *)
Fixpoint after_last_dot (s : string) : option string :=
  match s with
  | EmptyString => None
  | String c s' =>
      match after_last_dot s' with
      | Some t => Some t
      | None => if Ascii.eqb c "." then Some s' else None
      end
  end.

(** Lowercase, said letter by letter and not through [PyStr.lower]. *)
Definition lowercase_letter (c : ascii) : ascii :=
  match c with
  | "A" => "a" | "B" => "b" | "C" => "c" | "D" => "d" | "E" => "e" | "F" => "f"
  | "G" => "g" | "H" => "h" | "I" => "i" | "J" => "j" | "K" => "k" | "L" => "l"
  | "M" => "m" | "N" => "n" | "O" => "o" | "P" => "p" | "Q" => "q" | "R" => "r"
  | "S" => "s" | "T" => "t" | "U" => "u" | "V" => "v" | "W" => "w" | "X" => "x"
  | "Y" => "y" | "Z" => "z"
  | _ => c
  end%char.

Fixpoint lowercase (s : string) : string :=
  match s with
  | EmptyString => EmptyString
  | String c s' => String (lowercase_letter c) (lowercase s')
  end.

Definition is_uppercase_letter (c : ascii) : bool :=
  match c with
  | "A" | "B" | "C" | "D" | "E" | "F" | "G" | "H" | "I"
  | "J" | "K" | "L" | "M" | "N" | "O" | "P" | "Q" | "R"
  | "S" | "T" | "U" | "V" | "W" | "X" | "Y" | "Z" => true
  | _ => false
  end%char.

(** Whether [s] holds an uppercase letter. *)
Fixpoint has_uppercase (s : string) : bool :=
  match s with
  | EmptyString => false
  | String c s' => is_uppercase_letter c || has_uppercase s'
  end.

(** ASCII text: every character is below 128. On such text the model's
    [lower] and [strip] are Python's; beyond it [str.lower] and [str.strip]
    know letters and spaces that a byte string does not show. *)
Fixpoint is_ascii (s : string) : bool :=
  match s with
  | EmptyString => true
  | String c s' => Nat.ltb (nat_of_ascii c) 128 && is_ascii s'
  end.

(** The lowercase suffix after the last dot, empty when there is no dot. *)
Definition lowercase_suffix_after_last_dot (s : string) : string :=
  match after_last_dot s with
  | Some t => lowercase t
  | None => EmptyString
  end.

(** The distinct elements of [l], each at the place of its first
    occurrence. *)
Fixpoint first_seen (l : list Z) : list Z :=
  match l with
  | [] => []
  | x :: l' => x :: List.filter (fun y => negb (Z.eqb y x)) (first_seen l')
  end.

(** The rows handed to storage by the calls of a trace. *)
Definition rows_submitted (trace : list call) : list (list sql_param) :=
  flat_map (fun c => match c with call_execute_values _ rows => rows | _ => [] end) trace.

(** A name [store_repositories_bulk] keeps: it splits on the slash into
    exactly two parts. *)
Definition well_formed_name (full_name : string) : bool :=
  Nat.eqb (length (PyStr.split "/" full_name)) 2.

(** [all_succeed files w w']: running the scripts [files] in order from
    [w], each one reports success, and the run ends in [w']. *)
Inductive all_succeed {E : Driver} : list string -> World E -> World E -> Prop :=
| all_succeed_nil w : all_succeed [] w w
| all_succeed_cons filename rest w w1 w2 :
    run_migration filename w = (Returned true, w1) ->
    all_succeed rest w1 w2 ->
    all_succeed (filename :: rest) w w2.

(** *** A run of the migrator whose first script breaks half way *)

Module BrokenMigration.

Definition failing (statement : string) : bool :=
  String.eqb statement "CREATE TABLE miners (uid INTEGER".

Definition resources : gmap string string :=
  <["repositories.sql" :=
      "CREATE TABLE IF NOT EXISTS repositories (full_name VARCHAR PRIMARY KEY);
CREATE INDEX IF NOT EXISTS idx_owner ON repositories (full_name);
"]>
  (<["miners.sql" :=
      "CREATE TABLE IF NOT EXISTS miners (uid INTEGER);
CREATE TABLE miners (uid INTEGER;
"]>
  (<["miner_evaluations.sql" := "CREATE TABLE IF NOT EXISTS miner_evaluations (id SERIAL);"]> ∅)).

Definition engine : Engine := Canned.engine [] failing.

Definition start : World engine := Canned.fresh [] failing ∅ resources.



End BrokenMigration.


(** A pull request as [normalize_uid] leaves it. *)
Definition normalized (pr : PullRequest) : PullRequest :=
  if is_np_integer (uid pr) then set_uid (item (uid pr)) pr else pr.

(** What one of the [store_*_bulk] methods does once it has built the
    non-empty list [rows] for [statement]: it returns an integer and raises
    nothing, exactly [rows] are handed to storage, nothing is left pending,
    and either storage took the rows, the commit went through and the
    integer is the number of rows, or storage or the commit raised, the
    committed state is as before, one error is logged and the integer is 0. *)
Definition bulk_outcome {E : Engine} (statement : string) (rows : list (list sql_param))
    (w : World E) (result : outcome Z * World E) : Prop :=
  exists (n : Z) (w' : World E),
    result = (Returned n, w')
    /\ rows_submitted (calls (db w')) = (rows_submitted (calls (db w)) ++ rows)%list
    /\ working (db w') = committed (db w')
    /\ ((n = Z.of_nat (length rows)
         /\ run_execute_values E (working (db w)) statement rows
            = Returned (committed (db w'))
         /\ run_commit E (committed (db w')) = None
         /\ log w' = log w)
        \/ (n = 0
            /\ committed (db w') = committed (db w)
            /\ (exists e,
                  run_execute_values E (working (db w)) statement rows = Raised e
                  \/ exists st,
                       run_execute_values E (working (db w)) statement rows = Returned st
                       /\ run_commit E st = Some e)
            /\ exists msg,
                 log w' = (log w ++ [{| levelname := ERROR; message := msg |}])%list)).

(** *** Concrete entities and worlds used to exercise the statements *)

Module Sample.

Definition pr42 : PullRequest :=
  {| number := 42;
     repository_full_name := "entrius/gittensor-db";
     uid := NpInt int64 7;
     hotkey := "5F3sa2TJAWMqDhXG6jhV4N8ko9SxwGy8TpaNS1repo5EYjQX";
     github_id := "1234567";
     title := "Add bulk upserts";
     author_login := "octocat";
     merged_at := 1717236000;
     created_at := 1717149600;
     earned_score := 0%float;
     additions := 150;
     deletions := 20;
     commits := 5;
     merged_by_login := None;
     file_changes := None;
     issues := None |}.

Definition pr43 : PullRequest :=
  {| number := 43;
     repository_full_name := "entrius/gittensor-db";
     uid := PyInt 9;
     hotkey := "5DAAnrj7VHTznn2AWBemMuyBwZWs6FNFjdyVXUeYum3PTXFy";
     github_id := "7654321";
     title := "Fix migration order";
     author_login := "hubot";
     merged_at := 1717322400;
     created_at := 1717236000;
     earned_score := 0%float;
     additions := 3;
     deletions := 1;
     commits := 1;
     merged_by_login := Some "octocat";
     file_changes := None;
     issues := None |}.

(** The caller's objects: [pr42] behind reference 1, [pr43] behind 2. *)
Definition heap : gmap loc PullRequest :=
  <[1%positive := pr42]> (<[2%positive := pr43]> ∅).

Definition alice : Miner :=
  {| miner_uid := 7;
     miner_hotkey := "5F3sa2TJAWMqDhXG6jhV4N8ko9SxwGy8TpaNS1repo5EYjQX";
     miner_github_id := "1234567" |}.

(** A connection on which every statement goes through. *)
Definition accepting : Engine := Canned.engine [] (fun _ => false).

Definition accepting_world : World accepting :=
  Canned.fresh [] (fun _ => false) heap ∅.

(** A connection whose storage refuses the bulk statement for miners. *)
Definition refusing : Engine := Canned.engine [] (String.eqb BULK_UPSERT_MINERS).

Definition refusing_world : World refusing :=
  Canned.fresh [] (String.eqb BULK_UPSERT_MINERS) heap ∅.

(** Tables holding one repository and one pull request of it, with no
    file change. *)
Definition tables : Pg.Tables :=
  {| Pg.repositories :=
       [ {| Pg.r_full_name := "entrius/gittensor-db";
            Pg.r_name := "gittensor-db";
            Pg.r_owner := "entrius" |} ];
     Pg.pull_requests :=
       [ {| Pg.p_number := 42;
            Pg.p_repository_full_name := "entrius/gittensor-db";
            Pg.p_uid := 7;
            Pg.p_hotkey := "5F3sa2TJAWMqDhXG6jhV4N8ko9SxwGy8TpaNS1repo5EYjQX";
            Pg.p_github_id := "1234567";
            Pg.p_earned_score := 0%float;
            Pg.p_title := "Add bulk upserts";
            Pg.p_merged_at := 1717236000;
            Pg.p_pr_created_at := 1717149600;
            Pg.p_additions := Some 150;
            Pg.p_deletions := Some 20;
            Pg.p_commits := 5;
            Pg.p_author_login := "octocat";
            Pg.p_merged_by_login := None |} ];
     Pg.file_changes_table := [] |}.

Definition pg_world : World Pg.engine := Pg.world tables heap.

(** Joined rows of two pull requests of one repository, interleaved: two
    file changes of number 42 around the one row of number 43, which has
    none. *)
Definition joined_row (n : Z) (f : option file_change_columns) : Row :=
  {| row_number := n;
     row_repository_full_name := "entrius/gittensor-db";
     row_uid := PyInt 7;
     row_hotkey := "5F3sa2TJAWMqDhXG6jhV4N8ko9SxwGy8TpaNS1repo5EYjQX";
     row_github_id := "1234567";
     row_earned_score := 0%float;
     row_title := "Add bulk upserts";
     row_merged_at := 1717236000;
     row_pr_created_at := 1717149600;
     row_additions := Some 150;
     row_deletions := None;
     row_commits := 5;
     row_author_login := "octocat";
     row_merged_by_login := None;
     row_name := "gittensor-db";
     row_owner := "entrius";
     row_file_change := f |}.

Definition file_columns (filename : string) : file_change_columns :=
  {| col_filename := filename;
     col_changes := 10;
     col_file_additions := 8;
     col_file_deletions := 2;
     col_status := "modified";
     col_patch := None;
     col_file_extension := None |}.

Definition listing : list Row :=
  [ joined_row 42 (Some (file_columns "src/main.py"));
    joined_row 43 None;
    joined_row 42 (Some (file_columns "README.MD")) ].

(** Names as [store_repositories_bulk] may receive them. *)
Definition names : gset string :=
  {[ "entrius/gittensor-db"; "gittensor"; "a/b/c"; "opentensor/bittensor" ]}.

Definition listing_engine : Engine := Canned.engine listing (fun _ => false).

Definition listing_world : World listing_engine :=
  Canned.fresh listing (fun _ => false) heap ∅.

End Sample.

(* ===================================================================== *)
(** ** More of the package: the remaining readers and writers *)
(* ===================================================================== *)

(** [str(n)] for an [int]. *)
Definition str_of_int (n : Z) : string := NilZero.string_of_int (Z.to_int n).

Definition SET_FILE_CHANGES_FOR_PR : string :=
  "
INSERT INTO file_changes (
    pr_number, repository_full_name, filename, changes, additions, deletions, status, patch, file_extension
) VALUES (%s, %s, %s, %s, %s, %s, %s, %s, %s)
ON CONFLICT (pr_number, repository_full_name, filename)
DO NOTHING
".

Definition GET_PULL_REQUESTS_BY_REPOSITORY : string :=
  "
SELECT pr.number, pr.repository_full_name, pr.uid, pr.hotkey, pr.github_id,
       pr.earned_score, pr.title, pr.merged_at, pr.pr_created_at,
       pr.additions, pr.deletions, pr.commits, pr.author_login,
       pr.merged_by_login, r.name, r.owner
FROM pull_requests pr
JOIN repositories r ON pr.repository_full_name = r.full_name
WHERE pr.repository_full_name = %s
ORDER BY pr.merged_at DESC
".

Definition GET_PULL_REQUESTS_BY_MINER : string :=
  "
SELECT pr.number, pr.repository_full_name, pr.uid, pr.hotkey, pr.github_id,
       pr.earned_score, pr.title, pr.merged_at, pr.pr_created_at,
       pr.additions, pr.deletions, pr.commits, pr.author_login,
       pr.merged_by_login, r.name, r.owner
FROM pull_requests pr
JOIN repositories r ON pr.repository_full_name = r.full_name
WHERE pr.uid = %s AND pr.hotkey = %s AND pr.github_id = %s
ORDER BY pr.earned_score DESC, pr.merged_at DESC
".

(** [PullRequest.total_changes] *)
Definition total_changes (pr : PullRequest) : Z := additions pr + deletions pr.

Section Readers.

Context {E : Driver}.

Notation "'let*' x := m 'in' k" := (bind m (fun x => k))
  (at level 10, x name, m at level 100, k at level 200, only parsing).
Notation "m >> k" := (bind m (fun _ => k))
  (at level 90, right associativity, only parsing).

(** [BaseRepository.query_multiple] *)
Definition query_multiple {T} (query : string) (params : list sql_param) (mapper : Row -> T)
  : M E (list T) :=
  let* results := execute_query query params in
  ret (map mapper results).

(** [PullRequestsRepository.get_pull_requests_by_repository] *)
Definition get_pull_requests_by_repository (repository_full_name : string)
  : M E (list PullRequest) :=
  query_multiple GET_PULL_REQUESTS_BY_REPOSITORY [PStr repository_full_name]
    _map_to_pull_request.

(** [PullRequestsRepository.get_pull_requests_by_miner] *)
Definition get_pull_requests_by_miner (uid : Z) (hotkey github_id : string)
  : M E (list PullRequest) :=
  query_multiple GET_PULL_REQUESTS_BY_MINER [PInt uid; PStr hotkey; PStr github_id]
    _map_to_pull_request.

(** The tuple [set_file_changes_for_pr] binds for one file change: the
    pull request is the one passed to the method. *)
Definition file_change_params (pr_number : Z) (repository_full_name : string)
    (file_change : FileChange) : list sql_param :=
  [ PInt pr_number;
    PStr repository_full_name;
    PStr (fc_filename file_change);
    PInt (fc_changes file_change);
    PInt (fc_additions file_change);
    PInt (fc_deletions file_change);
    PStr (fc_status file_change);
    param_of_opt_str (fc_patch file_change);
    PStr (extension_or_calculated file_change) ].

(** [FileChangesRepository.set_file_changes_for_pr] *)
Definition set_file_changes_for_pr (pr_number : Z) (repository_full_name : string)
    (file_changes : list FileChange) : M E bool :=
  match file_changes with
  | [] => ret true
  | _ =>
      try_except
        (get_cursor
           (for_each
              (fun file_change =>
                 cursor_execute SET_FILE_CHANGES_FOR_PR
                   (file_change_params pr_number repository_full_name file_change))
              file_changes >>
            db_commit >>
            ret true))
        (fun e =>
           db_rollback >>
           logger_error
             ("Error storing file changes for PR " +:+ str_of_int pr_number +:+ " in "
              +:+ repository_full_name +:+ ": " +:+ exn_message e) >>
           ret false)
  end.

(** [FileChangesRepository.set_file_change] *)
Definition set_file_change (pr_number : Z) (repository_full_name : string)
    (file_change : FileChange) : M E bool :=
  set_file_changes_for_pr pr_number repository_full_name [file_change].

(** [DatabaseMigrator.create_tables] *)
Definition create_tables : M E bool := migrate.

End Readers.

(** [MinerEvaluation.calculate_metric_totals]. The evaluation lists its pull
    requests by reference; [h] holds the objects. The result is absent only
    when a reference is not in [h], which Python excludes. *)
Definition calculate_metric_totals (h : gmap loc PullRequest) (e : MinerEvaluation)
  : option MinerEvaluation :=
  match pull_requests e with
  | [] => Some e
  | ls =>
      match mapM (fun l => h !! l) ls with
      | None => None
      | Some prs =>
          let repos : gset string := list_to_set (map repository_full_name prs) in
          Some
            {| eval_uid := eval_uid e;
               eval_hotkey := eval_hotkey e;
               eval_github_id := eval_github_id e;
               eval_github_pat := eval_github_pat e;
               eval_id := eval_id e;
               total_score := total_score e;
               total_lines_changed := foldr Z.add 0 (map total_changes prs);
               total_open_prs := total_open_prs e;
               unique_repos_count := Z.of_nat (size repos);
               failed_reason := failed_reason e;
               evaluation_timestamp := evaluation_timestamp e;
               pull_requests := pull_requests e;
               unique_repos_contributed_to := repos;
               stored_total_prs := stored_total_prs e |}
      end
  end.

(** *** Reference definitions for transactions of several statements *)

(** Running statements one after the other from the state [st]: the
    exception of the first one that raises, if any; the state reached (the
    one the raising statement leaves, on failure); and how many statements
    were attempted. *)
Fixpoint run_statements (E : Driver) (st : store E)
    (l : list (string * list sql_param)) : option exn * store E * nat :=
  match l with
  | [] => (None, st, 0%nat)
  | (q, p) :: l' =>
      match run_execute E st q p with
      | Returned (st', _) =>
          let '(r, st'', n) := run_statements E st' l' in (r, st'', S n)
      | Raised e => (Some e, failed_execute E st q p, 1%nat)
      end
  end.

(** The [cursor.execute] calls of a list of statements. *)
Definition executes (l : list (string * list sql_param)) : list call :=
  map (fun qp => call_execute (fst qp) (snd qp)) l.

(** The world after more calls on the connection that left the working
    state [st]. *)
Definition with_calls {E : Driver} (st : store E) (trace : list call) (w : World E)
  : World E :=
  with_db {| committed := committed (db w); working := st;
             calls := (calls (db w) ++ trace)%list |} w.

(** The same on a [healthy] connection. *)
Definition after_calls {E : Engine} (st : store E) (trace : list call) (w : World E)
  : World E :=
  with_calls (E := E) st trace w.

(** How many cursors a trace opens, and how many it closes. *)
Definition opened (trace : list call) : nat :=
  length (List.filter (fun c => match c with call_cursor => true | _ => false end) trace).

Definition closed (trace : list call) : nat :=
  length (List.filter (fun c => match c with call_close => true | _ => false end) trace).

(** Whether a trace holds a commit or a rollback. *)
Definition ends_transaction (c : call) : bool :=
  match c with call_commit | call_rollback => true | _ => false end.

(** [f x] is one [cursor.execute] of the statement [q] with [p]. *)
Definition executes_one {E : Driver} {A B} (f : A -> M E B) (x : A)
    (q : string) (p : list sql_param) : Prop :=
  forall w : World E,
    match run_execute E (working (db w)) q p with
    | Returned (st, _) => exists y, f x w = (Returned y, with_calls st [call_execute q p] w)
    | Raised e =>
        f x w = (Raised e,
                 with_calls (failed_execute E (working (db w)) q p) [call_execute q p] w)
    end.

(** The statements [set_file_changes_for_pr] executes, in order. *)
Definition file_change_statements (pr_number : Z) (repository_full_name : string)
    (file_changes : list FileChange) : list (string * list sql_param) :=
  map (fun fc => (SET_FILE_CHANGES_FOR_PR, file_change_params pr_number repository_full_name fc))
    file_changes.

(** A computation only adds calls to the trace of the connection, and
    closes as many cursors as it opens, whether it returns or raises. *)
Definition releases_cursors {E : Driver} {A} (m : M E A) : Prop :=
  forall w : World E,
    exists trace,
      calls (db (snd (m w))) = (calls (db w) ++ trace)%list
      /\ opened trace = closed trace.

(** *** Reference definitions for migration scripts *)

Definition starts_with_space (s : string) : bool :=
  match s with
  | EmptyString => false
  | String c _ => PyStr.isspace c
  end.

Fixpoint ends_with_space (s : string) : bool :=
  match s with
  | EmptyString => false
  | String c EmptyString => PyStr.isspace c
  | String _ t => ends_with_space t
  end.

(** Every character of [s] is whitespace or a semicolon. *)
Fixpoint blank_script (s : string) : bool :=
  match s with
  | EmptyString => true
  | String c t => (PyStr.isspace c || Ascii.eqb c ";") && blank_script t
  end.

(** The statements of a script as [run_migration] executes them: without
    parameters. *)
Definition script_statements (sql_content : string) : list (string * list sql_param) :=
  map (fun statement => (statement, [])) (statements_of sql_content).

(** *** Reference definitions for round trips through the relational engine *)

(** The row of [pull_requests] that the tuple of a normalised pull request
    adapts to. *)
Definition record_of (pr : PullRequest) : Pg.pull_request_record :=
  {| Pg.p_number := number pr;
     Pg.p_repository_full_name := repository_full_name pr;
     Pg.p_uid := int_value (uid pr);
     Pg.p_hotkey := hotkey pr;
     Pg.p_github_id := github_id pr;
     Pg.p_earned_score := earned_score pr;
     Pg.p_title := title pr;
     Pg.p_merged_at := merged_at pr;
     Pg.p_pr_created_at := created_at pr;
     Pg.p_additions := Some (additions pr);
     Pg.p_deletions := Some (deletions pr);
     Pg.p_commits := commits pr;
     Pg.p_author_login := author_login pr;
     Pg.p_merged_by_login := merged_by_login pr |}.

(** A pull request with the same columns, a plain uid and no children
    attached. *)
Definition unloaded (pr : PullRequest) : PullRequest :=
  {| number := number pr;
     repository_full_name := repository_full_name pr;
     uid := PyInt (int_value (uid pr));
     hotkey := hotkey pr;
     github_id := github_id pr;
     title := title pr;
     author_login := author_login pr;
     merged_at := merged_at pr;
     created_at := created_at pr;
     earned_score := earned_score pr;
     additions := additions pr;
     deletions := deletions pr;
     commits := commits pr;
     merged_by_login := merged_by_login pr;
     file_changes := None;
     issues := None |}.

(** ** The relational engine with the table of file changes written *)

(** The engine of [Pg], which also interprets [SET_FILE_CHANGES_FOR_PR]
    on the same tables. *)
Module PgFiles.

Definition adapt_file_change (params : list sql_param) : option Pg.file_change_record :=
  match params with
  | [PInt n; PStr r; PStr f; PInt c; PInt a; PInt d; PStr s; p; PStr e] =>
      match p with
      | PNone | PStr _ =>
          Some {| Pg.f_pr_number := n; Pg.f_repository_full_name := r;
                  Pg.f_filename := f; Pg.f_changes := c; Pg.f_additions := a;
                  Pg.f_deletions := d; Pg.f_status := s;
                  Pg.f_patch := match p with PStr x => Some x | _ => None end;
                  Pg.f_file_extension := Some e |}
      | _ => None
      end
  | _ => None
  end.

Definition is_same_file (f f' : Pg.file_change_record) : bool :=
  Z.eqb (Pg.f_pr_number f') (Pg.f_pr_number f)
  && String.eqb (Pg.f_repository_full_name f') (Pg.f_repository_full_name f)
  && String.eqb (Pg.f_filename f') (Pg.f_filename f).

(** [ON CONFLICT (pr_number, repository_full_name, filename) DO NOTHING] *)
Definition insert_file_change (f : Pg.file_change_record) (t : Pg.Tables) : Pg.Tables :=
  if existsb (is_same_file f) (Pg.file_changes_table t)
  then t
  else {| Pg.repositories := Pg.repositories t;
          Pg.pull_requests := Pg.pull_requests t;
          Pg.file_changes_table := (Pg.file_changes_table t ++ [f])%list |}.

Definition execute (t : Pg.Tables) (statement : string) (params : list sql_param)
  : outcome (Pg.Tables * list Row) :=
  if String.eqb statement SET_FILE_CHANGES_FOR_PR then
    match adapt_file_change params with
    | Some f => Returned (insert_file_change f t, [])
    | None => Raised Pg.cannot_adapt
    end
  else Pg.execute t statement params.

Definition engine : Engine :=
  {| store := Pg.Tables;
     run_execute := execute;
     run_execute_values := Pg.execute_values;
     run_commit _ := None |}.

Definition world (t : Pg.Tables) (objects : gmap loc PullRequest) : World engine :=
  {| db := @Build_Connection engine t t [];
     objects := objects;
     log := [];
     package_resources := ∅;
     sql_directory := ∅ |}.

End PgFiles.

(** The row of [file_changes] that [set_file_changes_for_pr] writes for a
    file change of the pull request [pr_number] of [repository_full_name]. *)
Definition file_change_record_of (pr_number : Z) (repository_full_name : string)
    (fc : FileChange) : Pg.file_change_record :=
  {| Pg.f_pr_number := pr_number;
     Pg.f_repository_full_name := repository_full_name;
     Pg.f_filename := fc_filename fc;
     Pg.f_changes := fc_changes fc;
     Pg.f_additions := fc_additions fc;
     Pg.f_deletions := fc_deletions fc;
     Pg.f_status := fc_status fc;
     Pg.f_patch := fc_patch fc;
     Pg.f_file_extension := Some (extension_or_calculated fc) |}.

(** The file change as it reads back: under the pull request it was stored
    for, with its extension filled in and no id. *)
Definition stored_file_change (pr_number : Z) (repository_full_name : string)
    (fc : FileChange) : FileChange :=
  {| fc_pr_number := pr_number;
     fc_repository_full_name := repository_full_name;
     fc_filename := fc_filename fc;
     fc_changes := fc_changes fc;
     fc_additions := fc_additions fc;
     fc_deletions := fc_deletions fc;
     fc_status := fc_status fc;
     fc_patch := fc_patch fc;
     fc_file_extension := Some (extension_or_calculated fc);
     fc_id := None |}.

(** Two file changes for pull request 42 of [Sample.tables]: the first was
    built for another pull request and carries no extension yet. *)
Module SampleFiles.

Definition migrator_py : FileChange :=
  {| fc_pr_number := 7;
     fc_repository_full_name := "entrius/gittensor";
     fc_filename := "src/gittensor_db/migrations/migrator.py";
     fc_changes := 12;
     fc_additions := 10;
     fc_deletions := 2;
     fc_status := "modified";
     fc_patch := None;
     fc_file_extension := None;
     fc_id := Some 3 |}.

Definition readme : FileChange :=
  FileChange_init 42 "entrius/gittensor-db" "README.md" 4 4 0 "added"
    (Some "@@ -0,0 +1,4 @@") None None.

Definition changes : list FileChange := [migrator_py; readme].

Definition world : World PgFiles.engine := PgFiles.world Sample.tables Sample.heap.

End SampleFiles.

(** An evaluation of the miner of [Sample.heap], listing both pull
    requests, with totals not yet calculated; and a connection on which
    every statement is refused. *)
Module SampleEvaluation.

Definition evaluation : MinerEvaluation :=
  {| eval_uid := 7;
     eval_hotkey := "5F3sa2TJAWMqDhXG6jhV4N8ko9SxwGy8TpaNS1repo5EYjQX";
     eval_github_id := GithubIdStr "1234567";
     eval_github_pat := None;
     eval_id := None;
     total_score := 0%float;
     total_lines_changed := 0;
     total_open_prs := 0;
     unique_repos_count := 0;
     failed_reason := None;
     evaluation_timestamp := None;
     pull_requests := [1%positive; 2%positive];
     unique_repos_contributed_to := ∅;
     stored_total_prs := None |}.

Definition down : Engine := Canned.engine [] (fun _ => true).

Definition down_world : World down := Canned.fresh [] (fun _ => true) Sample.heap ∅.

End SampleEvaluation.

(* ===================================================================== *)
(** ** Reference definitions for writes on a connection that may fail *)
(* ===================================================================== *)

(** How a guarded write ends: with the value of success; with the value of
    failure, after [e] was caught and the rollback went through; or with the
    exception [e] of the rollback itself, which nothing catches. *)
Inductive verdict :=
| Done
| Failed (e : exn)
| Escaped (e : exn).

Definition verdict_result {A} (done failed : A) (v : verdict) : outcome A :=
  match v with
  | Done => Returned done
  | Failed _ => Returned failed
  | Escaped e => Raised e
  end.

Definition error_record (msg : string) : log_record :=
  {| levelname := ERROR; message := msg |}.

(** The write methods share one shape: open a cursor, run statements,
    commit, say something, return [done]; and in the handler roll back, log
    [msg e] and return [failed]. Here [err] is the exception the statements
    raise from the working state of [w], if one of them does, [st] the
    working state they leave, [trace] the calls they make when none raises,
    and [said] what is logged after the commit.

    [guarded_write] says how [result] relates to them. The value of success
    is returned exactly when the cursor opens, no statement raises, the
    commit goes through and the cursor closes. Otherwise rollback is called,
    once and last, in the state [reached]; when it goes through the error
    caught is logged, nothing is left pending and the value of failure is
    returned; when it raises, its exception reaches the caller. The
    committed state changes only when the commit went through. *)
Definition guarded_write {E : Driver} {A} (w : World E)
    (err : option exn) (st : store E) (trace : list call)
    (done failed : A) (said : list log_record) (msg : exn -> string)
    (result : outcome A * World E) : Prop :=
  let went_through :=
    run_cursor E (working (db w)) = None /\ err = None /\ run_commit E st = None in
  let reached :=
    match run_cursor E (working (db w)) with
    | None => st
    | Some _ => working (db w)
    end in
  exists (v : verdict) (w' : World E),
    result = (verdict_result done failed v, w')
    /\ objects w' = objects w
    /\ (v = Done <-> went_through /\ run_close E st = None)
    /\ (v = Done ->
        committed (db w') = st
        /\ working (db w') = st
        /\ log w' = (log w ++ said)%list
        /\ calls (db w')
           = (calls (db w) ++ call_cursor :: trace ++ [call_commit; call_close])%list)
    /\ (v <> Done ->
        (exists before,
           calls (db w') = (calls (db w) ++ call_cursor :: before ++ [call_rollback])%list
           /\ ~ In call_rollback before)
        /\ ((~ went_through /\ committed (db w') = committed (db w))
            \/ (went_through /\ committed (db w') = st)))
    /\ (forall e,
          v = Failed e ->
          run_rollback E reached = None
          /\ (run_cursor E (working (db w)) = Some e \/ err = Some e
              \/ run_commit E st = Some e \/ run_close E st = Some e)
          /\ working (db w') = committed (db w')
          /\ ((~ went_through /\ log w' = (log w ++ [error_record (msg e)])%list)
              \/ (went_through
                  /\ log w' = (log w ++ said ++ [error_record (msg e)])%list)))
    /\ (forall e,
          v = Escaped e ->
          run_rollback E reached = Some e
          /\ working (db w') = reached
          /\ ((~ went_through /\ log w' = log w)
              \/ (went_through /\ log w' = (log w ++ said)%list))).

(** The statements handed to [cursor.execute] by the calls of a trace. *)
Definition statements_executed (trace : list call) : list (string * list sql_param) :=
  flat_map (fun c => match c with call_execute q p => [(q, p)] | _ => [] end) trace.

(** *** A connection lost while a statement runs *)

(** The statement raises, and so does the rollback that the handler
    attempts on the connection, which by then is closed. *)
Module LostConnection.

Definition connection_closed : exn := InterfaceError "connection already closed".

Definition driver : Driver :=
  {| driver_engine := Canned.engine [] (fun _ => true);
     run_cursor _ := None;
     run_close _ := None;
     run_rollback _ := Some connection_closed;
     failed_execute st _ _ := st;
     failed_execute_values st _ _ := st |}.

Definition world : World driver :=
  {| db := @Build_Connection driver [] [] [];
     objects := Sample.heap;
     log := [];
     package_resources := BrokenMigration.resources;
     sql_directory := ∅ |}.

End LostConnection.

(** What one of the [store_*_bulk] methods does with the non-empty list
    [rows] it has built for [statement]: a guarded write whose one step is
    [execute_values], whose value of success is the number of rows and whose
    value of failure is 0. The rows are handed to storage once, unless the
    cursor does not open. *)
Definition bulk_write {E : Driver} (statement what : string)
    (rows : list (list sql_param)) (w : World E) (result : outcome Z * World E) : Prop :=
  let msg := fun e => "Error in bulk " +:+ what +:+ " storage: " +:+ exn_message e in
  match run_execute_values E (working (db w)) statement rows with
  | Returned st =>
      guarded_write w None st [call_execute_values statement rows]
        (Z.of_nat (length rows)) 0 [] msg result
  | Raised e =>
      guarded_write w (Some e)
        (failed_execute_values E (working (db w)) statement rows)
        [call_execute_values statement rows]
        (Z.of_nat (length rows)) 0 [] msg result
  end
  /\ rows_submitted (calls (db (snd result)))
     = (rows_submitted (calls (db w))
          ++ match run_cursor E (working (db w)) with
             | None => rows
             | Some _ => []
             end)%list.

(* ===================================================================== *)
(** ** A relational engine for the bulk statements *)
(* ===================================================================== *)

(** The five bulk statements interpreted over tables of tuples, each with
    the conflict target and the policy its [ON CONFLICT] clause declares.
    [affected] counts the rows inserted or updated so far, as the row counts
    of the statements add up. *)
Module Upsert.

Record Tables := {
  rows : list (string * list sql_param);
  affected : nat
}.

Inductive policy := DoNothing | DoUpdate.

Record target := {
  into : string;
  conflict_on : list nat;
  on_conflict : policy
}.

(** [INSERT INTO <table> (...) VALUES %s ON CONFLICT (<columns>) DO ...],
    the columns of the conflict target by their place in the tuple. *)
Definition target_of (statement : string) : option target :=
  if String.eqb statement BULK_UPSERT_MINERS then
    Some {| into := "miners"; conflict_on := [0; 1; 2]%nat; on_conflict := DoUpdate |}
  else if String.eqb statement BULK_UPSERT_REPOSITORIES then
    Some {| into := "repositories"; conflict_on := [0]%nat; on_conflict := DoNothing |}
  else if String.eqb statement BULK_UPSERT_PULL_REQUESTS then
    Some {| into := "pull_requests"; conflict_on := [0; 1]%nat; on_conflict := DoNothing |}
  else if String.eqb statement BULK_UPSERT_ISSUES then
    Some {| into := "issues"; conflict_on := [0; 2]%nat; on_conflict := DoNothing |}
  else if String.eqb statement BULK_UPSERT_FILE_CHANGES then
    Some {| into := "file_changes"; conflict_on := [0; 1; 2]%nat;
            on_conflict := DoNothing |}
  else None.

(** Equality of two values of a key column: integers and strings compare,
    and a NULL equals nothing. *)
Definition same_part (a b : option sql_param) : bool :=
  match a, b with
  | Some (PInt x), Some (PInt y) => Z.eqb x y
  | Some (PStr x), Some (PStr y) => String.eqb x y
  | _, _ => false
  end.

Definition key (tg : target) (row : list sql_param) : list (option sql_param) :=
  map (fun i => row !! i) (conflict_on tg).

Fixpoint same_key (k1 k2 : list (option sql_param)) : bool :=
  match k1, k2 with
  | [], [] => true
  | a :: k1', b :: k2' => same_part a b && same_key k1' k2'
  | _, _ => false
  end.

Definition conflicts (tg : target) (row : list sql_param)
    (stored : string * list sql_param) : bool :=
  String.eqb (fst stored) (into tg) && same_key (key tg (snd stored)) (key tg row).

(** One proposed row: inserted when no stored row has its key; otherwise
    skipped under [DO NOTHING], and under [DO UPDATE] the stored row is
    touched (its timestamp, which is no column of the tuples). *)
Definition insert_row (tg : target) (row : list sql_param) (t : Tables) : Tables :=
  if existsb (conflicts tg row) (rows t)
  then match on_conflict tg with
       | DoNothing => t
       | DoUpdate => {| rows := rows t; affected := S (affected t) |}
       end
  else {| rows := (rows t ++ [(into tg, row)])%list; affected := S (affected t) |}.

Fixpoint has_duplicate_keys (tg : target) (page : list (list sql_param)) : bool :=
  match page with
  | [] => false
  | row :: rest =>
      existsb (fun row' => same_key (key tg row') (key tg row)) rest
      || has_duplicate_keys tg rest
  end.

Definition cardinality_violation : exn :=
  DatabaseError "ON CONFLICT DO UPDATE command cannot affect row a second time".

(** One [INSERT] statement with the rows of a page. Under [DO UPDATE] two
    proposed rows with one key make the statement fail. *)
Definition insert_page (tg : target) (page : list (list sql_param)) (t : Tables)
  : outcome Tables :=
  match on_conflict tg with
  | DoUpdate =>
      if has_duplicate_keys tg page then Raised cardinality_violation
      else Returned (fold_left (fun t row => insert_row tg row t) page t)
  | DoNothing => Returned (fold_left (fun t row => insert_row tg row t) page t)
  end.

Fixpoint insert_pages (tg : target) (pages : list (list (list sql_param))) (t : Tables)
  : outcome Tables :=
  match pages with
  | [] => Returned t
  | page :: rest =>
      match insert_page tg page t with
      | Returned t' => insert_pages tg rest t'
      | Raised e => Raised e
      end
  end.

(** [execute_values] sends the rows in pages of [page_size]. *)
Fixpoint pages_from {A} (page_size : nat) (current : list A) (room : nat) (l : list A)
  : list (list A) :=
  match l with
  | [] => match current with [] => [] | _ => [current] end
  | x :: l' =>
      match room with
      | O => current :: pages_from page_size [x] (page_size - 1) l'
      | S room' => pages_from page_size (current ++ [x])%list room' l'
      end
  end.

Definition pages {A} (page_size : nat) (l : list A) : list (list A) :=
  pages_from page_size [] page_size l.

(** The driver cannot adapt a numpy integer. *)
Definition adaptable (p : sql_param) : bool :=
  match p with PNumpy _ _ => false | _ => true end.

Definition execute_values (t : Tables) (statement : string) (rows : list (list sql_param))
  : outcome Tables :=
  match target_of statement with
  | Some tg =>
      if forallb (forallb adaptable) rows
      then insert_pages tg (pages 100 rows) t
      else Raised Pg.cannot_adapt
  | None => Raised Pg.syntax_error
  end.

(** The engine knows the bulk statements only. *)
Definition engine : Engine :=
  {| store := Tables;
     run_execute _ _ _ := Raised Pg.syntax_error;
     run_execute_values := execute_values;
     run_commit _ := None |}.

Definition world (t : Tables) (objects : gmap loc PullRequest) : World engine :=
  {| db := @Build_Connection engine t t [];
     objects := objects;
     log := [];
     package_resources := ∅;
     sql_directory := ∅ |}.

(** From [t] to [t'] rows were only added, after the rows there were; no
    more rows were added than were affected, and at most [k] were
    affected. *)
Definition grows (t t' : Tables) (k : nat) : Prop :=
  exists added,
    rows t' = (rows t ++ added)%list
    /\ (length added + affected t <= affected t')%nat
    /\ (affected t' <= affected t + k)%nat.

End Upsert.

(* ===================================================================== *)
(** * Theorems *)
(* ===================================================================== *)

(** A theorem stated for every [Driver] assumes nothing about the calls on
    the connection: opening a cursor, closing it and rolling back may each
    raise, and a statement that raises leaves the working state the driver
    says. A theorem stated for an [Engine] is about the package on a
    [healthy] connection, where those three calls go through; it says
    nothing about a connection that is lost. Strings are sequences of
    bytes, and [PyStr] follows Python on ASCII text: the letters and the
    whitespace of the theorems are the ASCII ones, and a theorem about the
    text of a caller says so with [is_ascii]. *)

(** ** Strings *)

Lemma split_not_nil sep s : PyStr.split sep s <> [].
Proof.
  destruct s as [|c s]; simpl; [discriminate|].
  destruct (Ascii.eqb c sep); [discriminate|].
  destruct (PyStr.split sep s); discriminate.
Qed.

Lemma contains_after_last_dot s :
  PyStr.contains "." s = match after_last_dot s with Some _ => true | None => false end.
Proof.
  induction s as [|c s IH]; simpl; [reflexivity|].
  rewrite IH. destruct (after_last_dot s); destruct (Ascii.eqb c "."); reflexivity.
Qed.

Lemma split_without_separator sep s :
  PyStr.contains sep s = false -> PyStr.split sep s = [s].
Proof.
  induction s as [|c s IH]; simpl; [reflexivity|].
  destruct (Ascii.eqb c sep); [discriminate|].
  intros H. rewrite (IH H). reflexivity.
Qed.

Lemma last_cons_cons (a b : string) l :
  PyStr.last (a :: b :: l) = PyStr.last (b :: l).
Proof. reflexivity. Qed.

Lemma last_split_dot s :
  PyStr.last (PyStr.split "." s) =
  match after_last_dot s with Some t => t | None => s end.
Proof.
  induction s as [|c s IH]; simpl; [reflexivity|].
  destruct (Ascii.eqb c ".") eqn:Hc.
  - destruct (PyStr.split "." s) as [|p ps] eqn:Hs.
    + exfalso. exact (split_not_nil _ _ Hs).
    + rewrite last_cons_cons, IH. destruct (after_last_dot s); reflexivity.
  - destruct (after_last_dot s) as [t|] eqn:Ha.
    + destruct (PyStr.split "." s) as [|p [|q qs]] eqn:Hs.
      * exfalso. exact (split_not_nil _ _ Hs).
      * pose proof (contains_after_last_dot s) as Hd. rewrite Ha in Hd.
        exfalso. clear IH.
        assert (Hn : forall u, PyStr.contains "." u = true ->
                       forall x, PyStr.split "." u <> [x]).
        { clear. induction u as [|d u IHu]; simpl; [discriminate|].
          destruct (Ascii.eqb d ".").
          - intros _ x. destruct (PyStr.split "." u) eqn:Hu; [|discriminate].
            exfalso. exact (split_not_nil _ _ Hu).
          - intros Hu x. specialize (IHu Hu).
            destruct (PyStr.split "." u) as [|y [|z zs]] eqn:Hu'.
            + exfalso. exact (split_not_nil _ _ Hu').
            + exfalso. exact (IHu y eq_refl).
            + discriminate. }
        exact (Hn s Hd p Hs).
      * rewrite last_cons_cons. rewrite last_cons_cons in IH. exact IH.
    + pose proof (contains_after_last_dot s) as Hd. rewrite Ha in Hd.
      rewrite (split_without_separator _ _ Hd) in *. simpl. reflexivity.
Qed.

(** [PyStr.lower] lowers the twenty-six capital letters and nothing
    else. *)
Lemma lower_char_lowercase_letter c : PyStr.lower_char c = lowercase_letter c.
Proof. destruct c as [[] [] [] [] [] [] [] []]; vm_compute; reflexivity. Qed.

Lemma lower_lowercase s : PyStr.lower s = lowercase s.
Proof.
  induction s as [|c s IH]; cbn [PyStr.lower lowercase]; [reflexivity|].
  rewrite lower_char_lowercase_letter, IH. reflexivity.
Qed.

Lemma lowercase_letter_not_uppercase c :
  is_uppercase_letter (lowercase_letter c) = false.
Proof. destruct c as [[] [] [] [] [] [] [] []]; vm_compute; reflexivity. Qed.

Lemma lowercase_has_no_uppercase s : has_uppercase (lowercase s) = false.
Proof.
  induction s as [|c s IH]; cbn [lowercase has_uppercase]; [reflexivity|].
  rewrite lowercase_letter_not_uppercase, IH. reflexivity.
Qed.

Lemma lowercase_letter_ascii c :
  Nat.ltb (nat_of_ascii (lowercase_letter c)) 128 = Nat.ltb (nat_of_ascii c) 128.
Proof. destruct c as [[] [] [] [] [] [] [] []]; vm_compute; reflexivity. Qed.

Lemma lowercase_is_ascii s : is_ascii (lowercase s) = is_ascii s.
Proof.
  induction s as [|c s IH]; cbn [lowercase is_ascii]; [reflexivity|].
  rewrite lowercase_letter_ascii, IH. reflexivity.
Qed.

Lemma after_last_dot_is_ascii s t :
  after_last_dot s = Some t -> is_ascii s = true -> is_ascii t = true.
Proof.
  revert t. induction s as [|c s IH]; intros t; cbn [after_last_dot is_ascii];
    [discriminate|].
  intros H Hs. apply andb_prop in Hs as [_ Hs].
  destruct (after_last_dot s) as [u|].
  - inversion H; subst. apply IH; [reflexivity|exact Hs].
  - destruct (Ascii.eqb c "."); [|discriminate]. inversion H; subst. exact Hs.
Qed.

Lemma calculate_file_extension_spec filename :
  _calculate_file_extension filename = lowercase_suffix_after_last_dot filename.
Proof.
  unfold _calculate_file_extension, lowercase_suffix_after_last_dot.
  rewrite contains_after_last_dot, last_split_dot.
  destruct (after_last_dot filename); [apply lower_lowercase|reflexivity].
Qed.

Lemma after_last_dot_app pre suf :
  PyStr.contains "." suf = false ->
  after_last_dot (pre +:+ String "." suf) = Some suf.
Proof.
  intros Hsuf.
  assert (Hnone : after_last_dot suf = None).
  { pose proof (contains_after_last_dot suf) as H. rewrite Hsuf in H.
    destruct (after_last_dot suf); [discriminate|reflexivity]. }
  induction pre as [|c pre IH]; simpl.
  - rewrite Hnone. reflexivity.
  - rewrite IH. reflexivity.
Qed.

(** ** Entities *)



(** C8. [total_prs] is the stored count whenever one is present, and the
    length of the in-memory list of pull requests otherwise. *)
Theorem total_prs_stored_else_length :
  forall e : MinerEvaluation,
    (forall n, stored_total_prs e = Some n -> total_prs e = n)
    /\ (stored_total_prs e = None -> total_prs e = Z.of_nat (length (pull_requests e))).
Proof.
  intros e. unfold total_prs. split.
  - intros n ->. reflexivity.
  - intros ->. reflexivity.
Qed.

(** ** The base repository *)

(** On a [healthy] connection opening and closing a cursor only leave their
    mark in the call trace. *)
Ltac usable :=
  repeat match goal with
  | |- context [@db_cursor (healthy ?E)] =>
      change (@db_cursor (healthy E)) with (@record_call (healthy E) call_cursor)
  | |- context [@cursor_close (healthy ?E)] =>
      change (@cursor_close (healthy E)) with (@record_call (healthy E) call_close)
  end.

Ltac unfold_layer :=
  unfold set_entity, execute_command, execute_query, store_values, get_cursor;
  unfold db_cursor, cursor_close, cursor_execute, cursor_fetchall, execute_values,
    db_commit, db_rollback, logger_error, logger_info;
  unfold driver_call;
  unfold record_call;
  unfold try_except, try_finally, bind, ret, raise;
  unfold with_db, with_log, with_objects.

(** The handler shared by the write methods. *)
Lemma handler_run {E : Driver} {A} (failed : A) (msg : string) (w : World E) :
  bind db_rollback (fun _ => bind (logger_error msg) (fun _ => ret failed)) w
  = match run_rollback E (working (db w)) with
    | None =>
        (Returned failed,
         with_log (log w ++ [error_record msg])
           (with_db {| committed := committed (db w); working := committed (db w);
                       calls := (calls (db w) ++ [call_rollback])%list |} w))
    | Some e => (Raised e, with_calls (working (db w)) [call_rollback] w)
    end.
Proof.
  unfold_layer. cbn. destruct (run_rollback E (working (db w))); reflexivity.
Qed.

(** Leaving the [with] block: the cursor is closed, and an exception of
    [close] replaces the result of the block. *)
Lemma get_cursor_run {E : Driver} {A} (body : M E A) (w : World E) :
  get_cursor body w
  = match run_cursor E (working (db w)) with
    | Some e => (Raised e, with_calls (working (db w)) [call_cursor] w)
    | None =>
        let '(r, w1) := body (with_calls (working (db w)) [call_cursor] w) in
        match run_close E (working (db w1)) with
        | None => (r, with_calls (working (db w1)) [call_close] w1)
        | Some e => (Raised e, with_calls (working (db w1)) [call_close] w1)
        end
    end.
Proof.
  unfold get_cursor, db_cursor, cursor_close, driver_call, try_finally.
  unfold bind, record_call, with_calls. cbn.
  destruct (run_cursor E (working (db w))); [reflexivity|].
  match goal with |- context [body ?w0] => destruct (body w0) as [r w1] end.
  cbn. destruct (run_close E (working (db w1))); reflexivity.
Qed.

Ltac not_through :=
  let H := fresh in intros H; destruct H as (? & ? & ?); congruence.

(** The handler, entered with [e] in the world [w1] that the attempt left. *)
Lemma guarded_write_caught {E : Driver} {A} (w w1 : World E)
    (err : option exn) (st : store E) (trace : list call)
    (done failed : A) (said : list log_record) (msg : exn -> string)
    (e : exn) (before : list call) :
  let went_through :=
    run_cursor E (working (db w)) = None /\ err = None /\ run_commit E st = None in
  ~ (went_through /\ run_close E st = None) ->
  (run_cursor E (working (db w)) = Some e \/ err = Some e
   \/ run_commit E st = Some e \/ run_close E st = Some e) ->
  objects w1 = objects w ->
  calls (db w1) = (calls (db w) ++ call_cursor :: before)%list ->
  ~ In call_rollback before ->
  working (db w1)
  = match run_cursor E (working (db w)) with
    | None => st
    | Some _ => working (db w)
    end ->
  ((~ went_through /\ committed (db w1) = committed (db w) /\ log w1 = log w)
   \/ (went_through /\ committed (db w1) = st /\ log w1 = (log w ++ said)%list)) ->
  guarded_write w err st trace done failed said msg
    (bind db_rollback (fun _ => bind (logger_error (msg e)) (fun _ => ret failed)) w1).
Proof.
  intros went_through Hnot Hcaught Hobj Hcalls Hbefore Hreached Hstate.
  unfold guarded_write. fold went_through. rewrite handler_run, Hreached.
  set (reached := match run_cursor E (working (db w)) with
                  | None => st
                  | Some _ => working (db w)
                  end) in *.
  destruct (run_rollback E reached) as [e1|] eqn:Hroll.
  - exists (Escaped e1). eexists. split; [reflexivity|].
    cbn [with_calls with_db with_log db working committed calls objects log].
    split; [exact Hobj|]. split; [split; [discriminate|intros H; contradiction]|].
    split; [discriminate|]. split.
    { intros _. split.
      - exists before. split; [|exact Hbefore].
        rewrite Hcalls, <- app_assoc. reflexivity.
      - destruct Hstate as [(Hn & Hc & _)|(Hy & Hc & _)]; [left|right]; split; assumption. }
    split; [discriminate|]. intros e' H. inversion H; subst e'.
    split; [reflexivity|]. split; [reflexivity|].
    destruct Hstate as [(Hn & _ & Hl)|(Hy & _ & Hl)]; [left|right]; split; assumption.
  - exists (Failed e). eexists. split; [reflexivity|].
    cbn [with_calls with_db with_log db working committed calls objects log].
    split; [exact Hobj|]. split; [split; [discriminate|intros H; contradiction]|].
    split; [discriminate|]. split.
    { intros _. split.
      - exists before. split; [|exact Hbefore].
        rewrite Hcalls, <- app_assoc. reflexivity.
      - destruct Hstate as [(Hn & Hc & _)|(Hy & Hc & _)]; [left|right]; split; assumption. }
    split; [|discriminate]. intros e' H. inversion H; subst e'.
    split; [reflexivity|]. split; [exact Hcaught|]. split; [reflexivity|].
    destruct Hstate as [(Hn & _ & Hl)|(Hy & _ & Hl)]; [left|right]; split;
      try assumption; rewrite Hl; rewrite <- ?app_assoc; reflexivity.
Qed.

Lemma guarded_write_run {E : Driver} {A B} (body : M E B) (tail : M E A)
    (done failed : A) (said : list log_record) (msg : exn -> string)
    (w : World E) (err : option exn) (st : store E) (trace : list call) :
  match err with
  | None =>
      exists y, body (with_calls (working (db w)) [call_cursor] w)
                = (Returned y, with_calls st (call_cursor :: trace) w)
  | Some e =>
      exists tr, body (with_calls (working (db w)) [call_cursor] w)
                 = (Raised e, with_calls st (call_cursor :: tr) w)
                 /\ ~ In call_rollback tr
  end ->
  ~ In call_rollback trace ->
  (forall w0, tail w0 = (Returned done, with_log (log w0 ++ said) w0)) ->
  guarded_write w err st trace done failed said msg
    (try_except
       (get_cursor (bind body (fun _ => bind db_commit (fun _ => tail))))
       (fun e =>
          bind db_rollback
            (fun _ => bind (logger_error (msg e)) (fun _ => ret failed)))
       w).
Proof.
  intros Hbody Htrace Htail. unfold try_except.
  rewrite get_cursor_run.
  destruct (run_cursor E (working (db w))) as [e0|] eqn:Hcursor.
  - apply guarded_write_caught with (before := []); rewrite ?Hcursor; cbn;
      try reflexivity; try tauto; try (intros [(? & _) _]; congruence).
    left. split; [not_through|]. split; reflexivity.
  - unfold bind at 1. destruct err as [e|].
    + destruct Hbody as (tr & Hbody & Htr). rewrite Hbody.
      cbn [with_calls with_db db working committed calls].
      assert (Hin : ~ In call_rollback (tr ++ [call_close])).
      { rewrite in_app_iff. intros [H|[H|[]]]; [exact (Htr H)|discriminate H]. }
      destruct (run_close E st) as [e2|] eqn:Hclose;
        (apply guarded_write_caught with (before := (tr ++ [call_close])%list);
         rewrite ?Hcursor; cbn; try reflexivity; try tauto;
         try (intros [(_ & ? & _) _]; congruence);
         [rewrite <- app_assoc; reflexivity
         |left; split; [not_through|]; split; reflexivity]).
    + destruct Hbody as (y & Hbody). rewrite Hbody.
      unfold bind at 1. unfold db_commit. unfold bind at 1. unfold record_call at 1.
      cbn [with_calls with_db db working committed calls].
      assert (Hin : ~ In call_rollback (trace ++ [call_commit; call_close])).
      { rewrite in_app_iff. intros [H|[H|[H|[]]]]; [exact (Htrace H)|discriminate H..]. }
      destruct (run_commit E st) as [e1|] eqn:Hcommit;
        cbn [with_calls with_db db working committed calls].
      * destruct (run_close E st) as [e2|] eqn:Hclose;
          (apply guarded_write_caught
             with (before := (trace ++ [call_commit; call_close])%list);
           rewrite ?Hcursor; cbn; try reflexivity; try tauto;
           try (intros [(_ & _ & ?) _]; congruence);
           [rewrite <- !app_assoc; reflexivity
           |left; split; [not_through|]; split; reflexivity]).
      * rewrite Htail.
        cbn [with_calls with_db with_log db working committed calls objects log].
        destruct (run_close E st) as [e2|] eqn:Hclose.
        -- apply guarded_write_caught
             with (before := (trace ++ [call_commit; call_close])%list);
             rewrite ?Hcursor; cbn; try reflexivity; try tauto;
             try (intros [_ ?]; congruence).
           rewrite <- !app_assoc. reflexivity.
        -- unfold guarded_write. exists Done. eexists. split; [reflexivity|].
           cbn [with_calls with_db with_log db working committed calls objects log].
           split; [reflexivity|]. split; [split; [intros _|reflexivity]; repeat split; auto|].
           split.
           { intros _. repeat split. rewrite <- !app_assoc. reflexivity. }
           split; [intros H; contradiction|]. split; discriminate.
Qed.

(** What the caller of a guarded write can rely on, read off
    [guarded_write]. *)
Lemma guarded_write_plain {E : Driver} {A} (w : World E)
    (err : option exn) (st : store E) (trace : list call)
    (done failed : A) (said : list log_record) (msg : exn -> string)
    (result : outcome A * World E) :
  done <> failed ->
  guarded_write w err st trace done failed said msg result ->
  exists (r : outcome A) (w' : World E),
    result = (r, w')
    /\ objects w' = objects w
    /\ (r = Returned done <->
        run_cursor E (working (db w)) = None /\ err = None
        /\ run_commit E st = None /\ run_close E st = None)
    /\ (r = Returned done ->
        committed (db w') = st /\ working (db w') = st
        /\ log w' = (log w ++ said)%list
        /\ calls (db w')
           = (calls (db w) ++ call_cursor :: trace ++ [call_commit; call_close])%list)
    /\ (r = Returned failed ->
        working (db w') = committed (db w')
        /\ exists e, log w' = (log w ++ [error_record (msg e)])%list
                     \/ log w' = (log w ++ said ++ [error_record (msg e)])%list)
    /\ (r <> Returned done ->
        exists before,
          calls (db w') = (calls (db w) ++ call_cursor :: before ++ [call_rollback])%list
          /\ ~ In call_rollback before)
    /\ ((forall s, run_close E s = None) ->
        r <> Returned done -> committed (db w') = committed (db w))
    /\ (forall e, r = Raised e -> exists s, run_rollback E s = Some e)
    /\ ((forall s, run_rollback E s = None) -> r = Returned done \/ r = Returned failed).
Proof.
  intros Hne (v & w' & -> & Hobj & Hdone & Hd & Hn & Hf & He).
  exists (verdict_result done failed v), w'. split; [reflexivity|]. split; [exact Hobj|].
  assert (Hv : verdict_result done failed v = Returned done <-> v = Done).
  { destruct v; cbn; split; try discriminate; try reflexivity.
    intros H. inversion H. congruence. }
  split; [rewrite Hv, Hdone; tauto|].
  split; [intros H; apply Hd, Hv, H|].
  split.
  { destruct v as [|e|e]; cbn; intros H.
    - inversion H. congruence.
    - destruct (Hf e eq_refl) as (_ & _ & Hp & [(_ & Hl)|(_ & Hl)]);
        (split; [exact Hp|exists e; auto]).
    - discriminate H. }
  split; [intros H; apply Hn; rewrite <- Hv; exact H|].
  split.
  { intros Hclose H. rewrite Hv in H.
    destruct (Hn H) as (_ & [(_ & Hc)|(Hy & _)]); [exact Hc|].
    exfalso. apply H, Hdone. split; [exact Hy|apply Hclose]. }
  split.
  { intros e H. destruct v as [|e'|e']; cbn in H; try discriminate H.
    inversion H; subst e'. destruct (He e eq_refl) as (Hr & _). eauto. }
  intros Hroll. destruct v as [|e|e]; cbn; auto.
  destruct (He e eq_refl) as (Hr & _). rewrite Hroll in Hr. discriminate Hr.
Qed.

Lemma with_log_nil {E : Driver} (w : World E) : with_log (log w ++ []) w = w.
Proof. unfold with_log. rewrite app_nil_r. destruct w; reflexivity. Qed.

Lemma cursor_execute_run {E : Driver} (q : string) (p : list sql_param) (w : World E) :
  cursor_execute q p w
  = match run_execute E (working (db w)) q p with
    | Returned (st, rows) => (Returned rows, with_calls st [call_execute q p] w)
    | Raised e =>
        (Raised e, with_calls (failed_execute E (working (db w)) q p) [call_execute q p] w)
    end.
Proof.
  unfold_layer. unfold with_calls, with_db. cbn.
  destruct (run_execute E (working (db w)) q p) as [[st rows]|e]; reflexivity.
Qed.




(** ** The migration runner *)












(** ** Bulk storage *)

Lemma rows_submitted_app (t1 t2 : list call) :
  rows_submitted (t1 ++ t2) = (rows_submitted t1 ++ rows_submitted t2)%list.
Proof. unfold rows_submitted. apply flat_map_app. Qed.

Lemma values_template_unchanged :
  PyStrReplace.replace "VALUES %s" "VALUES %s" BULK_UPSERT_MINERS = BULK_UPSERT_MINERS
  /\ PyStrReplace.replace "VALUES %s" "VALUES %s" BULK_UPSERT_REPOSITORIES
     = BULK_UPSERT_REPOSITORIES
  /\ PyStrReplace.replace "VALUES %s" "VALUES %s" BULK_UPSERT_PULL_REQUESTS
     = BULK_UPSERT_PULL_REQUESTS
  /\ PyStrReplace.replace "VALUES %s" "VALUES %s" BULK_UPSERT_ISSUES = BULK_UPSERT_ISSUES
  /\ PyStrReplace.replace "VALUES %s" "VALUES %s" BULK_UPSERT_FILE_CHANGES
     = BULK_UPSERT_FILE_CHANGES.
Proof. repeat split; vm_compute; reflexivity. Qed.

Ltac solve_submitted :=
  rewrite <- ?app_assoc, ?rows_submitted_app; cbn; rewrite ?app_nil_r; reflexivity.

(** The shared try block, for any rows. *)
Lemma store_values_outcome {E : Engine} (statement what : string)
    (values : list (list sql_param)) (w : World E) :
  PyStrReplace.replace "VALUES %s" "VALUES %s" statement = statement ->
  bulk_outcome statement values w (store_values statement what values w)
  /\ objects (snd (store_values statement what values w)) = objects w
  /\ exists tail,
       calls (db (snd (store_values statement what values w)))
       = (calls (db w) ++ call_cursor :: call_execute_values statement values :: tail)%list.
Proof.
  intros Hsame. unfold bulk_outcome, store_values. rewrite Hsame.
  unfold_layer. cbn.
  destruct (run_execute_values E (working (db w)) statement values) as [st|e] eqn:Hx; cbn.
  - destruct (run_commit E st) as [e|] eqn:Hc; cbn.
    + split; [|split; [reflexivity|]].
      * eexists 0, _. split; [reflexivity|]. cbn.
        split; [solve_submitted|]. split; [reflexivity|].
        right. repeat split; eauto.
      * eexists. rewrite <- !app_assoc. reflexivity.
    + split; [|split; [reflexivity|]].
      * eexists _, _. split; [reflexivity|]. cbn.
        split; [solve_submitted|]. split; [reflexivity|].
        left. repeat split; eauto.
      * eexists. rewrite <- !app_assoc. reflexivity.
  - split; [|split; [reflexivity|]].
    + eexists 0, _. split; [reflexivity|]. cbn.
      split; [solve_submitted|]. split; [reflexivity|].
      right. repeat split; eauto.
    + eexists. rewrite <- !app_assoc. reflexivity.
Qed.

(** ** Normalising the uid of the caller's pull requests *)

Lemma normalized_idem pr : normalized (normalized pr) = normalized pr.
Proof.
  unfold normalized. destruct pr as [? ? u ? ? ? ? ? ? ? ? ? ? ? ? ?]. cbn.
  destruct u; reflexivity.
Qed.

Lemma normalized_uid pr : uid (normalized pr) = PyInt (int_value (uid pr)).
Proof.
  unfold normalized. destruct pr as [? ? u ? ? ? ? ? ? ? ? ? ? ? ? ?]. cbn.
  destruct u; reflexivity.
Qed.

Lemma with_objects_same {E : Driver} (w : World E) : with_objects (objects w) w = w.
Proof. destruct w; reflexivity. Qed.

Lemma normalize_uid_run {E : Driver} (l : loc) (w : World E) (pr : PullRequest) :
  objects w !! l = Some pr ->
  normalize_uid l w
  = (Returned tt, with_objects (<[l := normalized pr]> (objects w)) w).
Proof.
  intros Hl. unfold normalize_uid, bind, deref, normalized. rewrite Hl.
  destruct (is_np_integer (uid pr)); [reflexivity|].
  unfold ret. rewrite (insert_id _ _ _ Hl), with_objects_same. reflexivity.
Qed.

(** The loop of [store_pull_requests_bulk] over the caller's objects: it
    raises nothing, touches only the objects, leaves each listed object
    normalised, and yields the parameter tuple of each normalised object. *)
Lemma bulk_loop_run {E : Driver} (prs : list loc) :
  forall w : World E,
    Forall (fun l => is_Some (objects w !! l)) prs ->
    exists (values : list (list sql_param)) (h' : gmap loc PullRequest),
      for_each
        (fun l => bind (normalize_uid l)
                    (fun _ => bind (deref l) (fun pr => ret (pull_request_params pr))))
        prs w
      = (Returned values, with_objects h' w)
      /\ (forall l,
            h' !! l =
            if decide (l ∈ prs) then normalized <$> objects w !! l else objects w !! l)
      /\ Forall2
           (fun l v =>
              exists pr, objects w !! l = Some pr /\ v = pull_request_params (normalized pr))
           prs values.
Proof.
  induction prs as [|l ls IH]; intros w Hall.
  - exists [], (objects w). cbn. unfold ret. rewrite with_objects_same.
    split; [reflexivity|]. split; [|constructor].
    intros l. destruct (decide (l ∈ [])) as [Hin|_]; [|reflexivity].
    inversion Hin.
  - inversion Hall as [|? ? [pr Hl] Hrest]; subst.
    set (w2 := with_objects (<[l := normalized pr]> (objects w)) w).
    assert (Hall2 : Forall (fun l' => is_Some (objects w2 !! l')) ls).
    { eapply Forall_impl; [exact Hrest|]. intros l' [pr' Hl']. cbn.
      destruct (decide (l = l')) as [->|Hne].
      - rewrite lookup_insert_eq. eauto.
      - rewrite lookup_insert_ne by exact Hne. eauto. }
    destruct (IH w2 Hall2) as (values & h' & Hrun & Hobj & Hvals).
    exists (pull_request_params (normalized pr) :: values), h'.
    split; [|split].
    + cbn [for_each]. unfold bind at 1. unfold bind at 1.
      rewrite (normalize_uid_run l w pr Hl). fold w2.
      unfold bind at 1. unfold deref at 1. cbn [objects w2 with_objects].
      replace (objects w2 !! l) with (Some (normalized pr))
        by (symmetry; apply lookup_insert_eq).
      unfold ret at 1. unfold bind at 1. rewrite Hrun. reflexivity.
    + intros l'. rewrite (Hobj l'). cbn [objects w2 with_objects].
      destruct (decide (l' = l)) as [->|Hne].
      * rewrite lookup_insert_eq, Hl. cbn.
        destruct (decide (l ∈ l :: ls)) as [_|Hn];
          [|exfalso; apply Hn, list_elem_of_here].
        destruct (decide (l ∈ ls)); cbn; rewrite ?normalized_idem; reflexivity.
      * rewrite lookup_insert_ne by congruence.
        destruct (decide (l' ∈ ls)) as [Hin|Hnin];
          destruct (decide (l' ∈ l :: ls)) as [Hin'|Hnin']; try reflexivity.
        -- exfalso. apply Hnin', list_elem_of_further, Hin.
        -- exfalso. apply elem_of_cons in Hin' as [->|Hin']; contradiction.
    + constructor.
      * exists pr. split; [exact Hl|reflexivity].
      * eapply Forall2_impl; [exact Hvals|].
        intros l' v (pr2 & Hl2 & ->). cbn in Hl2.
        destruct (decide (l = l')) as [->|Hne].
        -- rewrite lookup_insert_eq in Hl2. inversion Hl2; subst.
           exists pr. split; [exact Hl|]. rewrite normalized_idem. reflexivity.
        -- rewrite lookup_insert_ne in Hl2 by exact Hne. eauto.
Qed.

Lemma execute_command_frame {E : Engine} query params (w : World E) :
  objects (snd (execute_command query params w)) = objects w
  /\ exists tail,
       calls (db (snd (execute_command query params w)))
       = (calls (db w) ++ call_cursor :: call_execute query params :: tail)%list.
Proof.
  unfold_layer. cbn.
  destruct (run_execute E (working (db w)) query params) as [[st rows]|e]; cbn.
  - destruct (run_commit E st); cbn; (split; [reflexivity|]);
      eexists; rewrite <- !app_assoc; reflexivity.
  - split; [reflexivity|]. eexists. rewrite <- !app_assoc. reflexivity.
Qed.

Lemma set_pull_request_run {E : Engine} (l : loc) (pr : PullRequest) (w : World E) :
  objects w !! l = Some pr ->
  set_pull_request l w
  = execute_command SET_PULL_REQUEST (pull_request_params (normalized pr))
      (with_objects (<[l := normalized pr]> (objects w)) w).
Proof.
  intros Hl. unfold set_pull_request. unfold bind at 1.
  rewrite (normalize_uid_run l w pr Hl). unfold bind at 1. unfold deref. cbn [objects with_objects].
  replace (<[l:=normalized pr]> (objects w) !! l) with (Some (normalized pr))
    by (symmetry; apply lookup_insert_eq).
  reflexivity.
Qed.

Lemma store_pull_requests_bulk_run {E : Driver} (prs : list loc) (w : World E) :
  prs <> [] ->
  Forall (fun l => is_Some (objects w !! l)) prs ->
  exists (values : list (list sql_param)) (h' : gmap loc PullRequest),
    store_pull_requests_bulk prs w
    = store_values BULK_UPSERT_PULL_REQUESTS "pull request" values (with_objects h' w)
    /\ (forall l,
          h' !! l =
          if decide (l ∈ prs) then normalized <$> objects w !! l else objects w !! l)
    /\ Forall2
         (fun l v =>
            exists pr, objects w !! l = Some pr /\ v = pull_request_params (normalized pr))
         prs values.
Proof.
  intros Hne Hall.
  destruct (bulk_loop_run prs w Hall) as (values & h' & Hrun & Hobj & Hvals).
  exists values, h'. split; [|split; assumption].
  unfold store_pull_requests_bulk. destruct prs as [|l ls]; [contradiction|].
  unfold bind at 1. rewrite Hrun. reflexivity.
Qed.

(** ** The integer of a bulk store *)

(** The integer returned is not always the number of rows submitted: when
    storage raises, one row has been handed to it and the integer is 0. *)
Lemma bulk_store_returns_zero_when_storage_raises :
  fst (store_miners_bulk [Sample.alice] Sample.refusing_world) = Returned 0
  /\ length (rows_submitted
               (calls (db (snd (store_miners_bulk [Sample.alice] Sample.refusing_world)))))
     = 1%nat
  /\ fst (store_miners_bulk [Sample.alice] Sample.refusing_world)
     <> Returned
          (Z.of_nat
             (length (rows_submitted
                        (calls (db (snd (store_miners_bulk [Sample.alice]
                                           Sample.refusing_world))))))).
Proof.
  split; [vm_compute; reflexivity|]. split; [vm_compute; reflexivity|].
  vm_compute. discriminate.
Qed.

(** ** What is bound, and what happens to the caller's objects *)

Lemma normalized_as_set_uid pr :
  normalized pr = set_uid (PyInt (int_value (uid pr))) pr.
Proof.
  unfold normalized. destruct pr as [? ? u ? ? ? ? ? ? ? ? ? ? ? ? ?]. cbn.
  destruct u; reflexivity.
Qed.

Lemma adapt_normalized pr :
  is_Some (Pg.adapt_pull_request (pull_request_params (normalized pr))).
Proof.
  rewrite normalized_as_set_uid.
  destruct pr as [? ? u ? ? ? ? ? ? ? ? ? ? m ? ?]. cbn.
  destruct m; cbn; eauto.
Qed.

(** C5. When the uid of a pull request is a numpy integer, the tuple
    [set_pull_request] binds to its statement, and the row
    [store_pull_requests_bulk] submits for it, carry the Python int of the
    same value in the uid position, and the relational engine adapts that
    tuple while it cannot adapt the one holding the numpy value. The
    conversion is made by the repository methods: the row-to-entity mappers
    hand on whatever uid value the row holds. *)
Theorem numpy_uid_bound_as_plain_int :
  forall (E : Engine) (w : World E) (l : loc) (pr : PullRequest) (d : np_dtype) (v : Z)
         (prs : list loc),
    objects w !! l = Some pr ->
    uid pr = NpInt d v ->
    Forall (fun l' => is_Some (objects w !! l')) prs ->
    l ∈ prs ->
    (exists tail,
       calls (db (snd (set_pull_request l w)))
       = (calls (db w)
            ++ call_cursor
               :: call_execute SET_PULL_REQUEST (pull_request_params (set_uid (PyInt v) pr))
               :: tail)%list)
    /\ (exists values tail,
          calls (db (snd (store_pull_requests_bulk prs w)))
          = (calls (db w)
               ++ call_cursor :: call_execute_values BULK_UPSERT_PULL_REQUESTS values
                  :: tail)%list
          /\ pull_request_params (set_uid (PyInt v) pr) ∈ values
          /\ Forall (fun row => exists z, row !! 2%nat = Some (PInt z)) values)
    /\ pull_request_params (set_uid (PyInt v) pr) !! 2%nat = Some (PInt v)
    /\ is_Some (Pg.adapt_pull_request (pull_request_params (set_uid (PyInt v) pr)))
    /\ Pg.adapt_pull_request (pull_request_params pr) = None
    /\ (forall row : Row,
          uid (_map_to_pull_request row) = row_uid row
          /\ forall rows p,
               _map_to_pull_request_with_file_changes (row :: rows) = Some p ->
               uid p = row_uid row).
Proof.
  intros E w l pr d v prs Hl Huid Hall Hin.
  assert (Hnorm : normalized pr = set_uid (PyInt v) pr).
  { rewrite normalized_as_set_uid, Huid. reflexivity. }
  split; [|split; [|split; [|split; [|split]]]].
  - rewrite (set_pull_request_run l pr w Hl), Hnorm.
    destruct (execute_command_frame SET_PULL_REQUEST
                (pull_request_params (set_uid (PyInt v) pr))
                (with_objects (<[l:=set_uid (PyInt v) pr]> (objects w)) w))
      as (_ & tail & Hcalls).
    exists tail. exact Hcalls.
  - assert (Hne : prs <> []) by (intros ->; inversion Hin).
    destruct (store_pull_requests_bulk_run prs w Hne Hall)
      as (values & h' & -> & _ & Hvals).
    destruct values_template_unchanged as (_ & _ & Hp & _).
    destruct (store_values_outcome BULK_UPSERT_PULL_REQUESTS "pull request" values
                (with_objects h' w) Hp) as (_ & _ & tail & Hcalls).
    exists values, tail. split; [exact Hcalls|]. split.
    + apply list_elem_of_lookup in Hin as [i Hi].
      destruct (Forall2_lookup_l _ _ _ _ _ Hvals Hi) as (row & Hrow & pr' & Hl' & ->).
      rewrite Hl in Hl'. inversion Hl'; subst pr'. rewrite <- Hnorm.
      apply list_elem_of_lookup. eauto.
    + clear -Hvals. induction Hvals as [|l' row ls rows (pr' & _ & ->) _ IH];
        constructor; [|exact IH].
      rewrite normalized_as_set_uid. eexists. reflexivity.
  - reflexivity.
  - rewrite <- Hnorm. apply adapt_normalized.
  - destruct pr as [? ? u ? ? ? ? ? ? ? ? ? ? m ? ?]. cbn in Huid. subst u. reflexivity.
  - intros row. split; [reflexivity|].
    intros rows p. cbn. destruct (truthy_opt_str (row_filename row));
      intros H; inversion H; reflexivity.
Qed.

Lemma numpy_uid_bound_as_plain_int_witness :
  pull_request_params (set_uid (PyInt 7) Sample.pr42) !! 2%nat = Some (PInt 7)
  /\ Pg.adapt_pull_request (pull_request_params Sample.pr42) = None.
Proof.
  assert (Hall : Forall (fun l' => is_Some (objects Sample.accepting_world !! l'))
                   [2%positive; 1%positive]).
  { repeat constructor; vm_compute; eauto. }
  assert (Hin : 1%positive ∈ [2%positive; 1%positive]).
  { apply list_elem_of_further, list_elem_of_here. }
  destruct (numpy_uid_bound_as_plain_int Sample.accepting Sample.accepting_world
              1%positive Sample.pr42 int64 7 [2%positive; 1%positive]
              eq_refl eq_refl Hall Hin)
    as (_ & _ & Hpos & _ & Hnone & _).
  split; [exact Hpos|exact Hnone].
Defined.

(** C9. [set_pull_request] and [store_pull_requests_bulk] change the
    caller's objects in place: behind every reference passed, the object is
    afterwards the normalised one, whose uid is the Python int of the same
    value and whose other fields are the same; a uid that was a numpy
    integer has been overwritten. Objects not passed are untouched. *)
Theorem uid_overwritten_in_place :
  forall (E : Engine) (w : World E) (l : loc) (prs : list loc),
    Forall (fun l' => is_Some (objects w !! l')) (l :: prs) ->
    (forall l',
       objects (snd (set_pull_request l w)) !! l' =
       if decide (l' = l) then normalized <$> objects w !! l' else objects w !! l')
    /\ (forall l',
          objects (snd (store_pull_requests_bulk prs w)) !! l' =
          if decide (l' ∈ prs) then normalized <$> objects w !! l' else objects w !! l')
    /\ (forall pr : PullRequest,
          uid (normalized pr) = PyInt (int_value (uid pr))
          /\ (forall d v, uid pr = NpInt d v -> uid (normalized pr) = PyInt v)
          /\ number (normalized pr) = number pr
          /\ repository_full_name (normalized pr) = repository_full_name pr
          /\ hotkey (normalized pr) = hotkey pr
          /\ github_id (normalized pr) = github_id pr
          /\ title (normalized pr) = title pr
          /\ author_login (normalized pr) = author_login pr
          /\ merged_at (normalized pr) = merged_at pr
          /\ created_at (normalized pr) = created_at pr
          /\ earned_score (normalized pr) = earned_score pr
          /\ additions (normalized pr) = additions pr
          /\ deletions (normalized pr) = deletions pr
          /\ commits (normalized pr) = commits pr
          /\ merged_by_login (normalized pr) = merged_by_login pr
          /\ file_changes (normalized pr) = file_changes pr
          /\ issues (normalized pr) = issues pr).
Proof.
  intros E w l prs Hall. inversion Hall as [|? ? [pr Hl] Hprs]; subst.
  split; [|split].
  - intros l'. rewrite (set_pull_request_run l pr w Hl).
    destruct (execute_command_frame SET_PULL_REQUEST (pull_request_params (normalized pr))
                (with_objects (<[l:=normalized pr]> (objects w)) w)) as (-> & _).
    cbn. destruct (decide (l' = l)) as [->|Hne].
    + rewrite lookup_insert_eq, Hl. reflexivity.
    + rewrite lookup_insert_ne by congruence. reflexivity.
  - intros l'. destruct prs as [|l0 ls].
    + cbn. destruct (decide (l' ∈ [])) as [Hin|_]; [inversion Hin|reflexivity].
    + assert (Hne : l0 :: ls <> []) by discriminate.
      destruct (store_pull_requests_bulk_run (l0 :: ls) w Hne Hprs)
        as (values & h' & -> & Hobj & _).
      destruct values_template_unchanged as (_ & _ & Hp & _).
      destruct (store_values_outcome BULK_UPSERT_PULL_REQUESTS "pull request" values
                  (with_objects h' w) Hp) as (_ & -> & _).
      cbn. apply Hobj.
  - intros p. rewrite normalized_as_set_uid. repeat split.
    intros d v ->. reflexivity.
Qed.

Lemma uid_overwritten_in_place_witness :
  objects (snd (set_pull_request 1%positive Sample.accepting_world)) !! 1%positive
  = Some (set_uid (PyInt 7) Sample.pr42)
  /\ objects (snd (set_pull_request 1%positive Sample.accepting_world)) !! 2%positive
     = Some Sample.pr43.
Proof.
  assert (Hall : Forall (fun l' => is_Some (objects Sample.accepting_world !! l'))
                   [1%positive; 2%positive; 1%positive]).
  { repeat constructor; vm_compute; eauto. }
  destruct (uid_overwritten_in_place Sample.accepting Sample.accepting_world
              1%positive [2%positive; 1%positive] Hall)
    as (Hset & _ & _).
  split.
  - etrans; [apply (Hset 1%positive)|]. vm_compute. reflexivity.
  - etrans; [apply (Hset 2%positive)|]. vm_compute. reflexivity.
Defined.

(** ** Reading a pull request with its file changes *)

Lemma filter_all_false {A} (f : A -> bool) (l : list A) :
  (forall x, In x l -> f x = false) -> List.filter f l = [].
Proof.
  induction l as [|a l IH]; intros H; cbn; [reflexivity|].
  rewrite (H a (or_introl eq_refl)). apply IH. intros x Hx. apply H. right. exact Hx.
Qed.

Lemma filter_some_true {A} (f : A -> bool) (l : list A) (x : A) :
  In x l -> f x = true ->
  exists y ys, List.filter f l = y :: ys /\ f y = true.
Proof.
  intros Hin Hx.
  destruct (List.filter f l) as [|y ys] eqn:Hf.
  - exfalso. assert (Hx' : In x (List.filter f l)) by (apply filter_In; auto).
    rewrite Hf in Hx'. exact Hx'.
  - exists y, ys. split; [reflexivity|].
    assert (Hy : In y (List.filter f l)) by (rewrite Hf; left; reflexivity).
    apply filter_In in Hy. apply Hy.
Qed.

Lemma get_pull_request_with_file_changes_run (w : World Pg.engine) (n : Z) (r : string) :
  get_pull_request_with_file_changes n r w
  = (Returned
       (_map_to_pull_request_with_file_changes
          (Pg.select_pull_request_with_file_changes (working (db w)) n r)),
     with_db
       {| committed := committed (db w);
          working := working (db w);
          calls := (calls (db w)
                      ++ [call_cursor;
                          call_execute GET_PULL_REQUEST_WITH_FILE_CHANGES [PInt n; PStr r];
                          call_fetchall; call_close])%list |} w).
Proof.
  unfold get_pull_request_with_file_changes. unfold_layer.
  cbn [healthy driver_engine run_cursor run_close run_rollback failed_execute
       failed_execute_values db working committed calls objects log package_resources
       sql_directory
       run_execute Pg.engine fst snd].
  unfold Pg.execute. rewrite String.eqb_refl.
  cbn [healthy driver_engine run_cursor run_close run_rollback failed_execute
       failed_execute_values db working committed calls objects log package_resources
       sql_directory fst snd].
  rewrite <- !app_assoc. reflexivity.
Qed.

(** C1, as the code has it. Reading never raises on the relational
    engine. When no pull request with the given number and repository is
    stored the result is absent. When one is stored, with its repository,
    and has no file change, the result is that pull request with its
    file-change list left unset (absent, not an empty list). The two
    results differ. *)
Theorem pull_request_without_file_changes_is_returned_unloaded :
  forall (w : World Pg.engine) (n : Z) (r : string),
    exists (result : option PullRequest) (w' : World Pg.engine),
      get_pull_request_with_file_changes n r w = (Returned result, w')
      /\ ((forall p, In p (Pg.pull_requests (working (db w))) ->
                     Pg.is_pull_request n r p = false) ->
          result = None)
      /\ (forall p repo,
            In p (Pg.pull_requests (working (db w))) ->
            Pg.is_pull_request n r p = true ->
            In repo (Pg.repositories (working (db w))) ->
            Pg.r_full_name repo = r ->
            (forall f, In f (Pg.file_changes_table (working (db w))) ->
                       Pg.is_file_change_of p f = false) ->
            exists pr,
              result = Some pr
              /\ number pr = n
              /\ repository_full_name pr = r
              /\ file_changes pr = None).
Proof.
  intros w n r. rewrite get_pull_request_with_file_changes_run.
  eexists _, _. split; [reflexivity|]. split.
  - intros Hnone. unfold Pg.select_pull_request_with_file_changes.
    rewrite (filter_all_false _ _ Hnone). reflexivity.
  - intros p repo Hp Hkey Hrepo Hname Hnofc.
    unfold Pg.select_pull_request_with_file_changes.
    destruct (filter_some_true _ _ p Hp Hkey) as (p0 & ps & -> & Hkey0).
    unfold Pg.is_pull_request in Hkey, Hkey0.
    apply andb_true_iff in Hkey as [Hn Hr], Hkey0 as [Hn0 Hr0].
    apply Z.eqb_eq in Hn, Hn0. apply String.eqb_eq in Hr, Hr0.
    assert (Hrepo0 : Pg.is_repository_of p0 repo = true).
    { unfold Pg.is_repository_of. rewrite Hr0, Hname. apply String.eqb_refl. }
    destruct (filter_some_true _ _ repo Hrepo Hrepo0) as (repo0 & repos & Hrepos & _).
    assert (Hfc : List.filter (Pg.is_file_change_of p0)
                    (Pg.file_changes_table (working (db w))) = []).
    { apply filter_all_false. intros f Hf. specialize (Hnofc f Hf).
      unfold Pg.is_file_change_of in *. rewrite Hn0, Hr0. rewrite Hn, Hr in Hnofc.
      exact Hnofc. }
    cbn [flat_map]. rewrite Hrepos. cbn [flat_map].
    unfold Pg.left_join_file_changes at 1. rewrite Hfc. cbn [map app].
    eexists. split; [reflexivity|]. cbn. auto.
Qed.

(** A stored pull request without file changes comes back with no list at
    all, not with an empty one. *)
Lemma stored_pull_request_without_file_changes_has_no_list :
  exists pr,
    fst (get_pull_request_with_file_changes 42 "entrius/gittensor-db" Sample.pg_world)
    = Returned (Some pr)
    /\ file_changes pr = None
    /\ file_changes pr <> Some [].
Proof.
  eexists. split; [vm_compute; reflexivity|]. split; [reflexivity|discriminate].
Qed.

(** ** Grouping joined rows by pull request *)

Lemma first_seen_In x l : In x (first_seen l) <-> In x l.
Proof.
  induction l as [|a l IH]; cbn; [reflexivity|].
  rewrite filter_In, IH. destruct (Z.eq_dec a x) as [->|Hne].
  - split; auto.
  - split.
    + intros [H|[H _]]; auto.
    + intros [H|H]; [contradiction|]. right. split; [exact H|].
      apply negb_true_iff, Z.eqb_neq. congruence.
Qed.

Lemma first_seen_NoDup l : List.NoDup (first_seen l).
Proof.
  induction l as [|a l IH]; cbn; [constructor|].
  apply List.NoDup_cons.
  - rewrite filter_In. intros [_ H]. apply negb_true_iff, Z.eqb_neq in H. congruence.
  - apply List.NoDup_filter, IH.
Qed.

Lemma first_seen_snoc l x :
  first_seen (l ++ [x]) =
  if existsb (Z.eqb x) l then first_seen l else (first_seen l ++ [x])%list.
Proof.
  induction l as [|a l IH]; cbn; [reflexivity|].
  rewrite IH. destruct (Z.eqb x a) eqn:Hxa; cbn.
  - apply Z.eqb_eq in Hxa. subst a.
    destruct (existsb (Z.eqb x) l); [reflexivity|].
    rewrite List.filter_app. cbn. rewrite Z.eqb_refl. cbn. rewrite app_nil_r. reflexivity.
  - destruct (existsb (Z.eqb x) l); [reflexivity|].
    rewrite List.filter_app. cbn. rewrite Hxa. reflexivity.
Qed.

Lemma group_append_new k r (groups : list (Z * list Row)) :
  ~ In k (map fst groups) ->
  group_append k r groups = (groups ++ [(k, [r])])%list.
Proof.
  induction groups as [|[k0 rs] rest IH]; cbn; [reflexivity|].
  intros Hnin. destruct (Z.eqb k0 k) eqn:Hk.
  - apply Z.eqb_eq in Hk. exfalso. apply Hnin. left. exact Hk.
  - rewrite IH; [reflexivity|]. intros H. apply Hnin. right. exact H.
Qed.

Lemma group_append_old k r (groups : list (Z * list Row)) :
  In k (map fst groups) ->
  List.NoDup (map fst groups) ->
  group_append k r groups =
  map (fun g => if Z.eqb (fst g) k then (fst g, (snd g ++ [r])%list) else g) groups.
Proof.
  induction groups as [|[k0 rs] rest IH]; cbn; [contradiction|].
  intros Hin Hnd. apply List.NoDup_cons_iff in Hnd as [Hk0 Hnd].
  destruct (Z.eqb k0 k) eqn:Hk.
  - apply Z.eqb_eq in Hk. subst k0. f_equal.
    clear IH Hin Hnd. induction rest as [|[k1 rs1] rest IH]; cbn; [reflexivity|].
    cbn in Hk0. destruct (Z.eqb k1 k) eqn:Hk1.
    + apply Z.eqb_eq in Hk1. exfalso. apply Hk0. left. exact Hk1.
    + f_equal. apply IH. intros H. apply Hk0. right. exact H.
  - f_equal. apply IH; [|exact Hnd].
    destruct Hin as [Heq|Hin]; [|exact Hin].
    apply Z.eqb_neq in Hk. contradiction.
Qed.

Lemma group_by_number_snoc (rs : list Row) (r : Row) :
  group_by_number (rs ++ [r]) = group_append (row_number r) r (group_by_number rs).
Proof. unfold group_by_number. rewrite fold_left_app. reflexivity. Qed.

(** The groups after the first loop: their keys are the distinct numbers in
    first-seen order, and each group holds, in order, the rows with its
    number. *)
Lemma group_by_number_spec (rs : list Row) :
  map fst (group_by_number rs) = first_seen (map row_number rs)
  /\ Forall
       (fun g => snd g = List.filter (fun row => Z.eqb (row_number row) (fst g)) rs)
       (group_by_number rs).
Proof.
  induction rs as [|r rs [IHk IHg]] using rev_ind; [split; [reflexivity|constructor]|].
  rewrite group_by_number_snoc, map_app. cbn [map]. rewrite first_seen_snoc.
  destruct (existsb (Z.eqb (row_number r)) (map row_number rs)) eqn:Hex.
  - assert (Hin : In (row_number r) (map fst (group_by_number rs))).
    { rewrite IHk, first_seen_In. apply existsb_exists in Hex as (x & Hx & Heq).
      apply Z.eqb_eq in Heq. subst x. exact Hx. }
    rewrite group_append_old; [|exact Hin|rewrite IHk; apply first_seen_NoDup].
    split.
    + rewrite <- IHk, map_map. apply map_ext. intros [k g]. cbn.
      destruct (Z.eqb k (row_number r)); reflexivity.
    + apply Forall_map. eapply Forall_impl; [exact IHg|].
      intros [k g] Hg. cbn in Hg. cbn.
      destruct (Z.eqb k (row_number r)) eqn:Hk; cbn; rewrite List.filter_app; cbn;
        rewrite (Z.eqb_sym (row_number r) k), Hk, <- Hg, ?app_nil_r; reflexivity.
  - assert (Hnin : ~ In (row_number r) (map row_number rs)).
    { intros Hin. apply not_true_iff_false in Hex. apply Hex.
      apply existsb_exists. exists (row_number r). split; [exact Hin|apply Z.eqb_refl]. }
    rewrite group_append_new; [|rewrite IHk, first_seen_In; exact Hnin].
    split.
    + rewrite map_app, IHk. reflexivity.
    + apply Forall_app. split.
      * assert (Hkeys : Forall (fun g => In (fst g) (map row_number rs))
                          (group_by_number rs)).
        { apply Forall_forall. intros g Hg. apply first_seen_In. rewrite <- IHk.
          apply in_map. apply list_elem_of_In. exact Hg. }
        apply Forall_forall. intros [k g] Hg_in.
        pose proof (proj1 (Forall_forall _ _) IHg _ Hg_in) as Hg.
        pose proof (proj1 (Forall_forall _ _) Hkeys _ Hg_in) as Hk.
        cbn in Hg, Hk. cbn. rewrite List.filter_app. cbn.
        destruct (Z.eqb (row_number r) k) eqn:Heq.
        -- apply Z.eqb_eq in Heq. subst k. contradiction.
        -- rewrite app_nil_r. exact Hg.
      * constructor; [|constructor]. cbn. rewrite List.filter_app. cbn.
        rewrite Z.eqb_refl. rewrite filter_all_false; [reflexivity|].
        intros x Hx. apply Z.eqb_neq. intros Heq. apply Hnin.
        rewrite <- Heq. apply in_map. exact Hx.
Qed.

Lemma map_groups_spec (rs : list Row) (groups : list (Z * list Row)) :
  Forall (fun g => snd g = List.filter (fun row => Z.eqb (row_number row) (fst g)) rs)
    groups ->
  Forall (fun g => In (fst g) (map row_number rs)) groups ->
  map number (map_groups groups) = map fst groups
  /\ Forall2
       (fun pr k =>
          _map_to_pull_request_with_file_changes
            (List.filter (fun row => Z.eqb (row_number row) k) rs) = Some pr)
       (map_groups groups) (map fst groups)
  /\ Forall
       (fun pr =>
          exists row, In row rs /\ repository_full_name pr = row_repository_full_name row)
       (map_groups groups).
Proof.
  induction groups as [|[k g] groups IH]; intros Hg Hk.
  - cbn. repeat split; constructor.
  - apply Forall_cons in Hg as [Hg Hgs]. apply Forall_cons in Hk as [Hk Hks].
    destruct (IH Hgs Hks) as (IHn & IHf & IHr). cbn in Hg, Hk.
    apply in_map_iff in Hk as (row & Hrow & Hin).
    assert (Hmatch : Z.eqb (row_number row) k = true) by (apply Z.eqb_eq; exact Hrow).
    destruct (filter_some_true (fun row => Z.eqb (row_number row) k) rs row Hin Hmatch)
      as (row0 & rest & Hfilter & Hrow0).
    assert (Hin0 : In row0 rs).
    { assert (H : In row0 (List.filter (fun row => Z.eqb (row_number row) k) rs))
        by (rewrite Hfilter; left; reflexivity).
      apply filter_In in H. apply H. }
    apply Z.eqb_eq in Hrow0.
    unfold map_groups. cbn [flat_map snd]. fold (map_groups groups).
    rewrite Hg, Hfilter. cbn [_map_to_pull_request_with_file_changes].
    destruct (truthy_opt_str (row_filename row0)) eqn:Ht; cbn [app map fst].
    + split; [|split].
      * cbn. rewrite Hrow0, IHn. reflexivity.
      * constructor; [|exact IHf].
        rewrite Hfilter. cbn [_map_to_pull_request_with_file_changes]. rewrite Ht.
        reflexivity.
      * constructor; [|exact IHr]. exists row0. split; [exact Hin0|reflexivity].
    + split; [|split].
      * cbn. rewrite Hrow0, IHn. reflexivity.
      * constructor; [|exact IHf].
        rewrite Hfilter. cbn [_map_to_pull_request_with_file_changes]. rewrite Ht.
        reflexivity.
      * constructor; [|exact IHr]. exists row0. split; [exact Hin0|reflexivity].
Qed.

(** C6. When storage answers the repository-wide statement with [results],
    the method returns one pull request per distinct number among the rows,
    in the order in which the numbers are first seen, each reconstructed
    from the rows bearing its number; when all rows belong to the repository
    asked for, as the statement's WHERE clause requires, so do the pull
    requests, and the number is their identity. *)
Theorem grouped_pull_requests_in_first_seen_order :
  forall (E : Engine) (w : World E) (repo : string) (st : store E) (results : list Row),
    run_execute E (working (db w)) GET_PULL_REQUESTS_BY_REPOSITORY_WITH_FILE_CHANGES
      [PStr repo] = Returned (st, results) ->
    exists (prs : list PullRequest) (w' : World E),
      get_pull_requests_by_repository_with_file_changes repo w = (Returned prs, w')
      /\ map number prs = first_seen (map row_number results)
      /\ Forall2
           (fun pr k =>
              _map_to_pull_request_with_file_changes
                (List.filter (fun row => Z.eqb (row_number row) k) results) = Some pr)
           prs (first_seen (map row_number results))
      /\ (Forall (fun row => row_repository_full_name row = repo) results ->
          Forall (fun pr => repository_full_name pr = repo) prs).
Proof.
  intros E w repo st results Hrun.
  destruct (group_by_number_spec results) as (Hkeys & Hgroups).
  assert (Hin : Forall (fun g => In (fst g) (map row_number results))
                  (group_by_number results)).
  { apply Forall_forall. intros g Hg. apply first_seen_In. rewrite <- Hkeys.
    apply in_map. apply list_elem_of_In. exact Hg. }
  destruct (map_groups_spec results (group_by_number results) Hgroups Hin)
    as (Hn & Hf & Hr).
  exists (map_groups (group_by_number results)). eexists. split; [|split; [|split]].
  - unfold get_pull_requests_by_repository_with_file_changes. unfold_layer.
    cbn [healthy driver_engine run_cursor run_close run_rollback failed_execute
       failed_execute_values db working committed calls objects log package_resources
       sql_directory fst snd].
    rewrite Hrun. reflexivity.
  - rewrite Hn. exact Hkeys.
  - rewrite <- Hkeys. exact Hf.
  - intros Hrepo. eapply Forall_impl; [exact Hr|].
    intros pr (row & Hrow & ->). cbn.
    apply (proj1 (Forall_forall _ _) Hrepo). apply list_elem_of_In. exact Hrow.
Qed.

Lemma grouped_pull_requests_in_first_seen_order_witness :
  exists prs,
    fst (get_pull_requests_by_repository_with_file_changes "entrius/gittensor-db"
           Sample.listing_world) = Returned prs
    /\ map number prs = [42; 43].
Proof.
  destruct (grouped_pull_requests_in_first_seen_order Sample.listing_engine
              Sample.listing_world "entrius/gittensor-db"
              [GET_PULL_REQUESTS_BY_REPOSITORY_WITH_FILE_CHANGES] Sample.listing
              eq_refl)
    as (prs & w' & Hrun & Hnumbers & _).
  exists prs. rewrite Hrun. split; [reflexivity|exact Hnumbers].
Defined.

(** ** Bulk storage of repository names *)

Lemma repository_row_well_formed name :
  is_Some (repository_row name) <-> well_formed_name name = true.
Proof.
  unfold repository_row, well_formed_name.
  destruct (PyStr.split "/" name) as [|a [|b [|c l]]]; cbn; split;
    try discriminate; try (intros [? ?]; discriminate); eauto.
Qed.

Lemma repository_row_first name row :
  repository_row name = Some row -> row !! 0%nat = Some (PStr name).
Proof.
  unfold repository_row.
  destruct (PyStr.split "/" name) as [|a [|b [|c l]]]; try discriminate.
  intros H. inversion H. reflexivity.
Qed.

Lemma length_omap_repository_row (l : list string) :
  length (omap repository_row l) = length (List.filter well_formed_name l).
Proof.
  induction l as [|name l IH]; [reflexivity|]. cbn.
  destruct (repository_row name) as [row|] eqn:Hrow.
  - rewrite (proj1 (repository_row_well_formed name)) by (rewrite Hrow; eauto).
    cbn. rewrite IH. reflexivity.
  - destruct (well_formed_name name) eqn:Hwf; [|exact IH].
    apply repository_row_well_formed in Hwf. rewrite Hrow in Hwf.
    destruct Hwf as [? ?]. discriminate.
Qed.

(** C10. [store_repositories_bulk] never raises. The rows it hands to
    storage are exactly the rows of the names of the set that split on the
    slash into two parts, so a name that does not is not submitted, and it
    is not counted: the integer returned is 0 or the number of well-formed
    names. When rows exist the method behaves as every bulk store does, and
    logs nothing unless storage fails. When no name is well formed, the
    empty set included, it returns 0 and leaves the world, the call trace
    of the connection included, as it was. *)
Theorem malformed_repository_names_are_left_out :
  forall (E : Engine) (w : World E) (names : gset string),
    (forall row,
       row ∈ repository_rows names <->
       exists name, name ∈ names /\ repository_row name = Some row)
    /\ (forall name row,
          repository_row name = Some row ->
          well_formed_name name = true /\ row !! 0%nat = Some (PStr name))
    /\ (forall name,
          well_formed_name name = false ->
          forall row, row ∈ repository_rows names -> row !! 0%nat <> Some (PStr name))
    /\ length (repository_rows names)
       = length (List.filter well_formed_name (elements names))
    /\ (exists (n : Z) (w' : World E),
          store_repositories_bulk names w = (Returned n, w')
          /\ rows_submitted (calls (db w'))
             = (rows_submitted (calls (db w)) ++ repository_rows names)%list
          /\ (n = 0 \/ n = Z.of_nat (length (repository_rows names))))
    /\ (repository_rows names <> [] ->
        bulk_outcome BULK_UPSERT_REPOSITORIES (repository_rows names) w
          (store_repositories_bulk names w))
    /\ ((forall name, name ∈ names -> well_formed_name name = false) ->
        store_repositories_bulk names w = (Returned 0, w)).
Proof.
  intros E w names.
  assert (Hmem : forall row,
             row ∈ repository_rows names <->
             exists name, name ∈ names /\ repository_row name = Some row).
  { intros row. unfold repository_rows. rewrite list_elem_of_omap.
    split; intros (name & Hin & Hrow); exists name; split; try exact Hrow;
      apply elem_of_elements; exact Hin. }
  assert (Hrun : repository_rows names <> [] ->
                 store_repositories_bulk names w
                 = store_values BULK_UPSERT_REPOSITORIES "repository"
                     (repository_rows names) w).
  { intros Hne. unfold store_repositories_bulk.
    destruct (decide (names = ∅)) as [->|_].
    - exfalso. apply Hne. unfold repository_rows. rewrite elements_empty. reflexivity.
    - cbn zeta. destruct (repository_rows names); [contradiction|reflexivity]. }
  assert (Hnone : repository_rows names = [] ->
                  store_repositories_bulk names w = (Returned 0, w)).
  { intros Hnil. unfold store_repositories_bulk.
    destruct (decide (names = ∅)); [reflexivity|]. cbn zeta. rewrite Hnil. reflexivity. }
  destruct values_template_unchanged as (_ & Hr & _).
  pose proof (store_values_outcome BULK_UPSERT_REPOSITORIES "repository"
                (repository_rows names) w Hr) as (Hout & _).
  split; [exact Hmem|]. split; [|split; [|split; [|split; [|split]]]].
  - intros name row Hrow. split; [|exact (repository_row_first _ _ Hrow)].
    apply repository_row_well_formed. rewrite Hrow. eauto.
  - intros name Hwf row Hin Hfirst. apply Hmem in Hin as (name' & _ & Hrow).
    pose proof (repository_row_first _ _ Hrow) as Hfirst'.
    rewrite Hfirst in Hfirst'. inversion Hfirst'; subst name'.
    assert (Hwf' : well_formed_name name = true)
      by (apply repository_row_well_formed; rewrite Hrow; eauto).
    congruence.
  - apply length_omap_repository_row.
  - destruct (repository_rows names) as [|row rows] eqn:Hrows.
    + exists 0, w. rewrite (Hnone eq_refl). rewrite app_nil_r. auto.
    + rewrite Hrun by discriminate.
      destruct Hout as (n & w' & Heq & Hsub & _ & Hcases).
      exists n, w'. split; [exact Heq|]. split; [exact Hsub|].
      destruct Hcases as [(Hn & _)|(Hn & _)]; auto.
  - intros Hne. rewrite (Hrun Hne). exact Hout.
  - intros Hall. apply Hnone.
    destruct (repository_rows names) as [|row rows] eqn:Hrows; [reflexivity|].
    exfalso. assert (Hin : row ∈ row :: rows) by apply list_elem_of_here.
    apply Hmem in Hin as (name & Hname & Hrow).
    assert (Hwf : well_formed_name name = true)
      by (apply repository_row_well_formed; rewrite Hrow; eauto).
    rewrite (Hall name Hname) in Hwf. discriminate.
Qed.

(** Of the four sample names, the two well-formed ones are submitted, as
    (full_name, name, owner), and counted. *)
Example store_repositories_bulk_sample :
  fst (store_repositories_bulk Sample.names Sample.accepting_world) = Returned 2
  /\ forall row,
       row ∈ rows_submitted
               (calls (db (snd (store_repositories_bulk Sample.names
                                  Sample.accepting_world)))) <->
       row = [PStr "entrius/gittensor-db"; PStr "gittensor-db"; PStr "entrius"]
       \/ row = [PStr "opentensor/bittensor"; PStr "bittensor"; PStr "opentensor"].
Proof.
  split; [vm_compute; reflexivity|].
  intros row.
  assert (Hrows : exists r1 r2,
             rows_submitted
               (calls (db (snd (store_repositories_bulk Sample.names
                                  Sample.accepting_world)))) = [r1; r2]
             /\ ((r1 = [PStr "entrius/gittensor-db"; PStr "gittensor-db"; PStr "entrius"]
                  /\ r2 = [PStr "opentensor/bittensor"; PStr "bittensor"; PStr "opentensor"])
                 \/ (r2 = [PStr "entrius/gittensor-db"; PStr "gittensor-db"; PStr "entrius"]
                     /\ r1 = [PStr "opentensor/bittensor"; PStr "bittensor";
                              PStr "opentensor"]))).
  { eexists _, _. split; [vm_compute; reflexivity|]. first [left; split; reflexivity
                                                           |right; split; reflexivity]. }
  destruct Hrows as (r1 & r2 & -> & Hcases).
  rewrite !elem_of_cons, elem_of_nil.
  destruct Hcases as [[-> ->]|[-> ->]]; tauto.
Qed.

(** ** The bulk stores on any connection *)

Lemma execute_values_run {E : Driver} (q : string) (rows : list (list sql_param))
    (w : World E) :
  execute_values q rows w
  = match run_execute_values E (working (db w)) q rows with
    | Returned st => (Returned tt, with_calls st [call_execute_values q rows] w)
    | Raised e =>
        (Raised e,
         with_calls (failed_execute_values E (working (db w)) q rows)
           [call_execute_values q rows] w)
    end.
Proof.
  unfold_layer. unfold with_calls, with_db. cbn.
  destruct (run_execute_values E (working (db w)) q rows); reflexivity.
Qed.

(** The try block the five bulk stores share. *)
Lemma store_values_write {E : Driver} (statement what : string)
    (values : list (list sql_param)) (w : World E) :
  PyStrReplace.replace "VALUES %s" "VALUES %s" statement = statement ->
  bulk_write statement what values w (store_values statement what values w).
Proof.
  intros Hsame. unfold bulk_write, store_values. rewrite Hsame. split.
  - assert (Hrun : forall err st,
               match run_execute_values E (working (db w)) statement values with
               | Returned st' => err = None /\ st = st'
               | Raised e =>
                   err = Some e
                   /\ st = failed_execute_values E (working (db w)) statement values
               end ->
               guarded_write w err st [call_execute_values statement values]
                 (Z.of_nat (length values)) 0 []
                 (fun e => "Error in bulk " +:+ what +:+ " storage: " +:+ exn_message e)
                 (try_except
                    (get_cursor
                       (bind (execute_values statement values)
                          (fun _ => bind db_commit
                                      (fun _ => ret (Z.of_nat (length values))))))
                    (fun e =>
                       bind db_rollback
                         (fun _ =>
                            bind (logger_error
                                    ("Error in bulk " +:+ what +:+ " storage: "
                                     +:+ exn_message e))
                              (fun _ => ret 0)))
                    w)).
    { intros err st Hx.
      apply (guarded_write_run (execute_values statement values)
               (ret (Z.of_nat (length values)))).
      - rewrite execute_values_run. cbn [with_calls with_db db working calls].
        destruct (run_execute_values E (working (db w)) statement values) as [st'|e];
          destruct Hx as [-> ->].
        + exists tt. unfold with_calls, with_db. cbn. rewrite <- app_assoc. reflexivity.
        + exists [call_execute_values statement values]. split.
          * unfold with_calls, with_db. cbn. rewrite <- app_assoc. reflexivity.
          * intros [H|[]]. discriminate H.
      - intros [H|[]]. discriminate H.
      - intros w0. unfold ret. rewrite with_log_nil. reflexivity. }
    destruct (run_execute_values E (working (db w)) statement values) as [st|e];
      apply Hrun; split; reflexivity.
  - unfold_layer. cbn.
    repeat (match goal with
            | |- context [match ?x with Some _ => _ | None => _ end] => destruct x
            | |- context [match ?x with Returned _ => _ | Raised _ => _ end] => destruct x
            end; cbn);
      solve_submitted.
Qed.



Lemma grows_refl t k : Upsert.grows t t k.
Proof. exists []. rewrite app_nil_r. cbn. repeat split; lia. Qed.

Lemma grows_trans t t1 t2 k1 k2 :
  Upsert.grows t t1 k1 -> Upsert.grows t1 t2 k2 -> Upsert.grows t t2 (k1 + k2).
Proof.
  intros (a1 & H1 & L1 & U1) (a2 & H2 & L2 & U2). exists (a1 ++ a2)%list.
  rewrite H2, H1, <- app_assoc, length_app. repeat split; lia.
Qed.

Lemma insert_row_grows tg row t : Upsert.grows t (Upsert.insert_row tg row t) 1.
Proof.
  unfold Upsert.insert_row.
  destruct (existsb (Upsert.conflicts tg row) (Upsert.rows t)).
  - destruct (Upsert.on_conflict tg).
    + apply grows_refl.
    + exists []. cbn. rewrite app_nil_r. repeat split; lia.
  - exists [(Upsert.into tg, row)]. cbn. repeat split; lia.
Qed.

Lemma insert_rows_grows tg page :
  forall t, Upsert.grows t (fold_left (fun t row => Upsert.insert_row tg row t) page t) (length page).
Proof.
  induction page as [|row page IH]; intros t; cbn [fold_left length].
  - apply grows_refl.
  - change (S (length page)) with (1 + length page)%nat.
    eapply grows_trans; [apply insert_row_grows|apply IH].
Qed.

Lemma insert_page_grows tg page t t' :
  Upsert.insert_page tg page t = Returned t' -> Upsert.grows t t' (length page).
Proof.
  unfold Upsert.insert_page. destruct (Upsert.on_conflict tg).
  - intros H. inversion H. apply insert_rows_grows.
  - destruct (Upsert.has_duplicate_keys tg page); [discriminate|].
    intros H. inversion H. apply insert_rows_grows.
Qed.

Lemma insert_pages_grows tg ps :
  forall t t', Upsert.insert_pages tg ps t = Returned t' -> Upsert.grows t t' (length (concat ps)).
Proof.
  induction ps as [|page ps IH]; intros t t'; cbn [Upsert.insert_pages concat].
  - intros H. inversion H. apply grows_refl.
  - destruct (Upsert.insert_page tg page t) as [t1|e] eqn:Hp; [|discriminate].
    intros H. rewrite length_app.
    eapply grows_trans; [exact (insert_page_grows _ _ _ _ Hp)|exact (IH _ _ H)].
Qed.

Lemma concat_pages_from {A} size (l : list A) :
  forall current room, concat (Upsert.pages_from size current room l) = (current ++ l)%list.
Proof.
  induction l as [|x l IH]; intros current room; cbn [Upsert.pages_from].
  - destruct current; cbn; rewrite ?app_nil_r; reflexivity.
  - destruct room; cbn [concat]; rewrite IH; [reflexivity|].
    rewrite <- app_assoc. reflexivity.
Qed.

Lemma execute_values_grows t statement rows t' :
  Upsert.execute_values t statement rows = Returned t' -> Upsert.grows t t' (length rows).
Proof.
  unfold Upsert.execute_values. destruct (Upsert.target_of statement) as [tg|]; [|discriminate].
  destruct (forallb (forallb Upsert.adaptable) rows); [|discriminate].
  intros H. apply insert_pages_grows in H. unfold Upsert.pages in H.
  rewrite concat_pages_from in H. exact H.
Qed.

(** On the engine of the bulk statements, whatever a bulk write returns
    bounds the rows it affected. *)
Lemma bulk_write_grows statement what rows (w : World Upsert.engine) result n w' :
  rows <> [] ->
  committed (db w) = working (db w) ->
  bulk_write statement what rows w result ->
  result = (Returned n, w') ->
  Upsert.grows (committed (db w)) (committed (db w')) (Z.to_nat n).
Proof.
  intros Hne Hclean [Hw _] ->.
  assert (Hlen : Z.of_nat (length rows) <> 0) by (destruct rows; [contradiction|cbn; lia]).
  cbn [run_execute_values Upsert.engine healthy driver_engine] in Hw.
  destruct (Upsert.execute_values (working (db w)) statement rows) as [st|e] eqn:Hx;
    apply guarded_write_plain in Hw; try exact Hlen;
    destruct Hw as (r & w0 & Heq & _ & Hiff & Hd & _ & _ & Hc & _);
    inversion Heq; subst r w0; clear Heq.
  - destruct (Z.eq_dec n (Z.of_nat (length rows))) as [->|Hn].
    + destruct (Hd eq_refl) as (Hco & _). rewrite Hco, Hclean, Nat2Z.id.
      apply execute_values_grows with (statement := statement). exact Hx.
    + rewrite Hc; [apply grows_refl|reflexivity|congruence].
  - rewrite Hc; [apply grows_refl|reflexivity|].
    intros H. apply Hiff in H. destruct H as (_ & H & _). discriminate H.
Qed.

Lemma bulk_write_plain {E : Driver} statement what rows (w : World E) result :
  rows <> [] ->
  bulk_write statement what rows w result ->
  exists (r : outcome Z) (w' : World E),
    result = (r, w')
    /\ objects w' = objects w
    /\ (r = Returned (Z.of_nat (length rows)) <->
        run_cursor E (working (db w)) = None
        /\ exists st,
             run_execute_values E (working (db w)) statement rows = Returned st
             /\ run_commit E st = None /\ run_close E st = None)
    /\ (r = Returned (Z.of_nat (length rows)) ->
        run_execute_values E (working (db w)) statement rows
        = Returned (committed (db w'))
        /\ working (db w') = committed (db w')
        /\ log w' = log w
        /\ rows_submitted (calls (db w')) = (rows_submitted (calls (db w)) ++ rows)%list)
    /\ (r = Returned 0 ->
        working (db w') = committed (db w')
        /\ exists e,
             log w'
             = (log w ++ [error_record ("Error in bulk " +:+ what +:+ " storage: "
                                        +:+ exn_message e)])%list)
    /\ ((forall s, run_close E s = None) ->
        r <> Returned (Z.of_nat (length rows)) -> committed (db w') = committed (db w))
    /\ (forall e, r = Raised e -> exists s, run_rollback E s = Some e)
    /\ ((forall s, run_rollback E s = None) ->
        r = Returned (Z.of_nat (length rows)) \/ r = Returned 0).
Proof.
  intros Hne [Hw Hsub].
  assert (Hlen : Z.of_nat (length rows) <> 0) by (destruct rows; [contradiction|cbn; lia]).
  destruct (run_execute_values E (working (db w)) statement rows) as [st|e] eqn:Hx;
    apply guarded_write_plain in Hw; try exact Hlen;
    destruct Hw as (r & w' & -> & Hobj & Hiff & Hd & Hf & _ & Hc & He & Hr);
    exists r, w'; (split; [reflexivity|]); (split; [exact Hobj|]); cbn [snd] in Hsub.
  - split.
    { rewrite Hiff. split.
      - intros (H1 & _ & H3 & H4). split; [exact H1|]. exists st. auto.
      - intros (H1 & st' & Heq & H3 & H4). inversion Heq; subst st'. auto. }
    split.
    { intros H. destruct (Hd H) as (Hco & Hwo & Hl & _). apply Hiff in H.
      destruct H as (Hcur & _). rewrite Hcur in Hsub.
      split; [congruence|]. split; [congruence|].
      split; [rewrite Hl, app_nil_r; reflexivity|exact Hsub]. }
    split.
    { intros H. destruct (Hf H) as (Hp & e & [Hl|Hl]); (split; [exact Hp|exists e; exact Hl]). }
    auto.
  - split.
    { rewrite Hiff. split.
      - intros (_ & H & _). discriminate H.
      - intros (_ & st' & Heq & _). discriminate Heq. }
    split.
    { intros H. apply Hiff in H. destruct H as (_ & H & _). discriminate H. }
    split.
    { intros H. destruct (Hf H) as (Hp & e' & [Hl|Hl]); (split; [exact Hp|exists e'; exact Hl]). }
    auto.
Qed.

(** C4, as the code has it. A bulk store of an empty input, and a store of
    repository names none of which is well formed, returns 0 and leaves the
    world, the call trace of the connection included, exactly as it was.
    Otherwise the rows built from the input are handed to storage in one
    guarded write: the integer returned is the number of rows submitted
    exactly when the cursor opens, storage takes the rows, the commit goes
    through and the cursor closes; when one of them raises and the rollback
    goes through, the error is logged, nothing is left pending and the
    integer is 0; when the rollback raises, its exception reaches the
    caller. The rows are one per miner, issue, file change and pull
    request, and one per well-formed name. On the engine of the bulk
    statements the integer returned bounds the rows affected, and the rows
    added come after the rows stored before, which stay. *)
Theorem bulk_store_returns_rows_submitted_on_success :
  forall (D : Driver) (w : World D) (miners : list Miner) (prs : list loc)
         (issues : list Issue) (fcs : list FileChange) (names : gset string),
    Forall (fun l => is_Some (objects w !! l)) prs ->
    (store_miners_bulk [] w = (Returned 0, w)
     /\ store_pull_requests_bulk [] w = (Returned 0, w)
     /\ store_issues_bulk [] w = (Returned 0, w)
     /\ store_file_changes_bulk [] w = (Returned 0, w)
     /\ store_repositories_bulk ∅ w = (Returned 0, w)
     /\ (repository_rows names = [] -> store_repositories_bulk names w = (Returned 0, w)))
    /\ (miners <> [] ->
        bulk_write BULK_UPSERT_MINERS "miner" (miner_rows miners) w
          (store_miners_bulk miners w))
    /\ (issues <> [] ->
        bulk_write BULK_UPSERT_ISSUES "issue" (issue_rows issues) w
          (store_issues_bulk issues w))
    /\ (fcs <> [] ->
        bulk_write BULK_UPSERT_FILE_CHANGES "file change" (file_change_rows fcs) w
          (store_file_changes_bulk fcs w))
    /\ (repository_rows names <> [] ->
        bulk_write BULK_UPSERT_REPOSITORIES "repository" (repository_rows names) w
          (store_repositories_bulk names w))
    /\ (prs <> [] ->
        exists (values : list (list sql_param)) (h' : gmap loc PullRequest),
          Forall2
            (fun l row =>
               exists pr,
                 objects w !! l = Some pr /\ row = pull_request_params (normalized pr))
            prs values
          /\ bulk_write BULK_UPSERT_PULL_REQUESTS "pull request" values (with_objects h' w)
               (store_pull_requests_bulk prs w))
    /\ (length (miner_rows miners) = length miners
        /\ length (issue_rows issues) = length issues
        /\ length (file_change_rows fcs) = length fcs
        /\ length (repository_rows names)
           = length (List.filter well_formed_name (elements names)))
    /\ (forall (statement what : string) (rows : list (list sql_param)) (w0 : World D)
               (result : outcome Z * World D),
          rows <> [] ->
          bulk_write statement what rows w0 result ->
          exists (r : outcome Z) (w' : World D),
            result = (r, w')
            /\ (r = Returned (Z.of_nat (length rows)) <->
                run_cursor D (working (db w0)) = None
                /\ exists st,
                     run_execute_values D (working (db w0)) statement rows = Returned st
                     /\ run_commit D st = None /\ run_close D st = None)
            /\ (r = Returned (Z.of_nat (length rows)) ->
                run_execute_values D (working (db w0)) statement rows
                = Returned (committed (db w'))
                /\ working (db w') = committed (db w')
                /\ log w' = log w0
                /\ rows_submitted (calls (db w'))
                   = (rows_submitted (calls (db w0)) ++ rows)%list)
            /\ (r = Returned 0 ->
                working (db w') = committed (db w')
                /\ exists e,
                     log w'
                     = (log w0
                          ++ [error_record ("Error in bulk " +:+ what +:+ " storage: "
                                            +:+ exn_message e)])%list)
            /\ (forall e, r = Raised e -> exists s, run_rollback D s = Some e)
            /\ ((forall s, run_rollback D s = None) ->
                r = Returned (Z.of_nat (length rows)) \/ r = Returned 0))
    /\ (forall (t : Upsert.Tables) (objs : gmap loc PullRequest) (n : Z)
               (w' : World Upsert.engine),
          Forall (fun l => is_Some (objs !! l)) prs ->
          store_miners_bulk miners (Upsert.world t objs) = (Returned n, w')
          \/ store_pull_requests_bulk prs (Upsert.world t objs) = (Returned n, w')
          \/ store_issues_bulk issues (Upsert.world t objs) = (Returned n, w')
          \/ store_file_changes_bulk fcs (Upsert.world t objs) = (Returned n, w')
          \/ store_repositories_bulk names (Upsert.world t objs) = (Returned n, w') ->
          Upsert.grows t (committed (db w')) (Z.to_nat n)).
Proof.
  intros D w miners prs issues fcs names Hall.
  destruct values_template_unchanged as (Hm & Hr & Hp & Hi & Hf).
  assert (Hrepos : forall (E : Driver) (w0 : World E),
             repository_rows names <> [] ->
             store_repositories_bulk names w0
             = store_values BULK_UPSERT_REPOSITORIES "repository"
                 (repository_rows names) w0).
  { intros E w0 Hne. unfold store_repositories_bulk.
    destruct (decide (names = ∅)) as [->|_].
    - exfalso. apply Hne. unfold repository_rows. rewrite elements_empty. reflexivity.
    - destruct (repository_rows names); [contradiction|reflexivity]. }
  split.
  { repeat split; try reflexivity.
    intros Hnil. unfold store_repositories_bulk.
    destruct (decide (names = ∅)); [reflexivity|]. rewrite Hnil. reflexivity. }
  split.
  { intros Hne. unfold store_miners_bulk. destruct miners; [contradiction|].
    apply store_values_write, Hm. }
  split.
  { intros Hne. unfold store_issues_bulk. destruct issues; [contradiction|].
    apply store_values_write, Hi. }
  split.
  { intros Hne. unfold store_file_changes_bulk. destruct fcs; [contradiction|].
    apply store_values_write, Hf. }
  split.
  { intros Hne. rewrite (Hrepos D w Hne). apply store_values_write, Hr. }
  split.
  { intros Hne.
    destruct (store_pull_requests_bulk_run prs w Hne Hall) as (values & h' & -> & _ & Hv).
    exists values, h'. split; [exact Hv|]. apply store_values_write, Hp. }
  split.
  { unfold miner_rows, issue_rows, file_change_rows, repository_rows.
    rewrite !length_map. repeat split. apply length_omap_repository_row. }
  split.
  { intros statement what rows w0 result Hne Hw.
    destruct (bulk_write_plain _ _ _ _ _ Hne Hw)
      as (r & w' & Heq & _ & Hiff & Hd & Hz & _ & He & Hroll).
    exists r, w'. split; [exact Heq|]. split; [exact Hiff|]. split; [exact Hd|].
    split; [exact Hz|]. split; [exact He|exact Hroll]. }
  intros t objs n w' Hobjs Hrun.
  assert (Hempty : forall w0 : World Upsert.engine,
             committed (db w0) = t -> (Returned 0, w0) = (Returned n, w') ->
             Upsert.grows t (committed (db w')) (Z.to_nat n)).
  { intros w0 Hco H. inversion H; subst w0. rewrite Hco. apply grows_refl. }
  destruct Hrun as [Hrun|[Hrun|[Hrun|[Hrun|Hrun]]]].
  - destruct miners as [|m ms]; [exact (Hempty (Upsert.world t objs) eq_refl Hrun)|].
    eapply (bulk_write_grows _ _ _ (Upsert.world t objs)); cycle 2;
      [apply (store_values_write BULK_UPSERT_MINERS "miner"), Hm|exact Hrun|discriminate|reflexivity].
  - destruct prs as [|l ls]; [exact (Hempty (Upsert.world t objs) eq_refl Hrun)|].
    destruct (store_pull_requests_bulk_run (l :: ls) (Upsert.world t objs)
                ltac:(discriminate) Hobjs) as (values & h' & Heq & _ & Hv).
    rewrite Heq in Hrun.
    eapply (bulk_write_grows _ _ _ (with_objects h' (Upsert.world t objs)));
      cycle 2;
      [apply store_values_write, Hp|exact Hrun|inversion Hv; discriminate|reflexivity].
  - destruct issues as [|i rest]; [exact (Hempty (Upsert.world t objs) eq_refl Hrun)|].
    eapply (bulk_write_grows _ _ _ (Upsert.world t objs)); cycle 2;
      [apply (store_values_write BULK_UPSERT_ISSUES "issue"), Hi|exact Hrun|discriminate|reflexivity].
  - destruct fcs as [|f rest]; [exact (Hempty (Upsert.world t objs) eq_refl Hrun)|].
    eapply (bulk_write_grows _ _ _ (Upsert.world t objs)); cycle 2;
      [apply (store_values_write BULK_UPSERT_FILE_CHANGES "file change"), Hf|exact Hrun|discriminate|reflexivity].
  - destruct (repository_rows names) as [|row rest] eqn:Hrows.
    + apply (Hempty (Upsert.world t objs) eq_refl). rewrite <- Hrun.
      unfold store_repositories_bulk.
      destruct (decide (names = ∅)); [reflexivity|]. rewrite Hrows. reflexivity.
    + rewrite Hrepos in Hrun by discriminate.
      eapply (bulk_write_grows _ _ _ (Upsert.world t objs)); cycle 2;
        [apply store_values_write, Hr|exact Hrun|discriminate|reflexivity].
Qed.

Lemma bulk_store_returns_rows_submitted_on_success_witness :
  Forall (fun l => is_Some (objects Sample.accepting_world !! l))
    [1%positive; 2%positive; 1%positive]
  /\ exists (values : list (list sql_param)) (h' : gmap loc PullRequest),
       length values = 3%nat
       /\ bulk_write BULK_UPSERT_PULL_REQUESTS "pull request" values
            (with_objects h' Sample.accepting_world)
            (store_pull_requests_bulk [1%positive; 2%positive; 1%positive]
               Sample.accepting_world).
Proof.
  assert (H : Forall (fun l => is_Some (objects Sample.accepting_world !! l))
                [1%positive; 2%positive; 1%positive]).
  { repeat constructor; vm_compute; eauto. }
  split; [exact H|].
  destruct (bulk_store_returns_rows_submitted_on_success Sample.accepting
              Sample.accepting_world [Sample.alice]
              [1%positive; 2%positive; 1%positive] [] [] ∅ H)
    as (_ & _ & _ & _ & _ & Hprs & _).
  destruct Hprs as (values & h' & Hvals & Hout); [discriminate|].
  exists values, h'. split; [|exact Hout].
  symmetry. exact (Forall2_length _ _ _ Hvals).
Defined.

(** The bound is not an equality: a repository stored a second time is
    counted in the integer returned and affects no row. A miner given twice
    in one list makes the statement fail, and the integer is 0. *)
Example stored_again_counts_and_affects_nothing :
  let names : gset string := {[ "entrius/gittensor-db" ]} in
  let fresh := Upsert.world {| Upsert.rows := []; Upsert.affected := 0 |} ∅ in
  let once := store_repositories_bulk names fresh in
  let twice := store_repositories_bulk names (snd once) in
  fst once = Returned 1
  /\ fst twice = Returned 1
  /\ Upsert.affected (committed (db (snd twice))) = 1%nat
  /\ fst (store_miners_bulk [Sample.alice; Sample.alice] fresh) = Returned 0.
Proof. vm_compute. repeat split. Qed.

(* ===================================================================== *)
(** * Further properties of the package *)
(* ===================================================================== *)

(** ** Transactions of several statements *)

Lemma with_calls_nil {E : Driver} (w : World E) :
  with_calls (working (db w)) [] w = w.
Proof.
  unfold with_calls, with_db. destruct w as [[c wk t] o l p s]. cbn.
  rewrite app_nil_r. reflexivity.
Qed.

Lemma with_calls_with_calls {E : Driver} (st1 st2 : store E) t1 t2 (w : World E) :
  with_calls st2 t2 (with_calls st1 t1 w) = with_calls st2 (t1 ++ t2) w.
Proof.
  unfold with_calls, with_db. cbn. rewrite app_assoc. reflexivity.
Qed.

Lemma cursor_execute_one {E : Driver} {A} (g : A -> string * list sql_param) (x : A) :
  executes_one (E := E) (fun x => cursor_execute (fst (g x)) (snd (g x))) x
    (fst (g x)) (snd (g x)).
Proof.
  intros w. unfold_layer. cbn.
  destruct (run_execute E (working (db w)) (fst (g x)) (snd (g x))) as [[st rows]|e].
  - eexists. reflexivity.
  - reflexivity.
Qed.

(** A loop of [cursor.execute] calls stops at the first statement that
    raises, with the statements before it applied to the working state. *)
Lemma for_each_run {E : Driver} {A B} (f : A -> M E B) (g : A -> string * list sql_param)
    (l : list A) :
  Forall (fun x => executes_one f x (fst (g x)) (snd (g x))) l ->
  forall w : World E,
    match run_statements E (working (db w)) (map g l) with
    | (None, st, n) =>
        exists ys, for_each f l w = (Returned ys, with_calls st (executes (map g l)) w)
    | (Some e, st, n) =>
        for_each f l w = (Raised e, with_calls st (executes (take n (map g l))) w)
    end.
Proof.
  induction 1 as [|x l Hx _ IH]; intros w.
  - cbn. exists []. unfold ret. rewrite with_calls_nil. reflexivity.
  - cbn [map run_statements for_each]. specialize (Hx w).
    destruct (g x) as [q p] eqn:Hg. cbn [fst snd] in Hx.
    destruct (run_execute E (working (db w)) q p) as [[st rows]|e] eqn:Hrun.
    + destruct Hx as [y Hx].
      specialize (IH (with_calls st [call_execute q p] w)).
      cbn [with_calls with_db db working] in IH.
      destruct (run_statements E st (map g l)) as [[[e|] st'] n].
      * unfold bind at 1. rewrite Hx. cbn beta iota.
        unfold bind at 1. rewrite IH. cbn beta iota.
        rewrite with_calls_with_calls. reflexivity.
      * destruct IH as [ys IH]. exists (y :: ys).
        unfold bind at 1. rewrite Hx. cbn beta iota.
        unfold bind at 1. rewrite IH. cbn beta iota. unfold ret.
        rewrite with_calls_with_calls. reflexivity.
    + unfold bind at 1. rewrite Hx. reflexivity.
Qed.

(** The calls of a guarded write: the cursor, the calls of the statements
    when the cursor opens, then nothing but commit, close and rollback. *)
Lemma statements_executed_executes l : statements_executed (executes l) = l.
Proof.
  induction l as [|[q p] l IH]; [reflexivity|]. cbn. f_equal. exact IH.
Qed.

Ltac count_statements :=
  unfold statements_executed;
  cbn [with_calls with_db with_log db working committed calls snd];
  rewrite <- ?app_assoc; rewrite ?flat_map_app; cbn; rewrite ?flat_map_app; cbn;
  rewrite ?app_nil_r; reflexivity.

Lemma guarded_write_calls {E : Driver} {A B} (body : M E B) (tail : M E A)
    (handler : exn -> M E A) (done : A) (said : list log_record)
    (w : World E) (r : outcome B) (st : store E) (attempted : list call) :
  body (with_calls (working (db w)) [call_cursor] w)
  = (r, with_calls st (call_cursor :: attempted) w) ->
  (forall w0, tail w0 = (Returned done, with_log (log w0 ++ said) w0)) ->
  (forall e w0,
     statements_executed (calls (db (snd (handler e w0))))
     = statements_executed (calls (db w0))) ->
  statements_executed
    (calls (db (snd (try_except
                       (get_cursor (bind body (fun _ => bind db_commit (fun _ => tail))))
                       handler w))))
  = (statements_executed (calls (db w))
       ++ match run_cursor E (working (db w)) with
          | None => statements_executed attempted
          | Some _ => []
          end)%list.
Proof.
  intros Hbody Htail Hhandler. unfold try_except. rewrite get_cursor_run.
  destruct (run_cursor E (working (db w))) as [e0|].
  - rewrite Hhandler. count_statements.
  - unfold bind at 1. rewrite Hbody. destruct r as [y|e].
    + unfold bind at 1. unfold db_commit. unfold bind at 1. unfold record_call at 1.
      cbn [with_calls with_db db working committed calls].
      destruct (run_commit E st).
      * cbn [with_calls with_db db working committed calls].
        destruct (run_close E st); rewrite Hhandler; count_statements.
      * rewrite Htail.
        cbn [with_calls with_db with_log db working committed calls].
        destruct (run_close E st); rewrite ?Hhandler; count_statements.
    + cbn [with_calls with_db db working committed calls].
      destruct (run_close E st); rewrite Hhandler; count_statements.
Qed.

Lemma handler_executes_nothing {E : Driver} {A} (failed : A) (msg : exn -> string) :
  forall e (w0 : World E),
    statements_executed
      (calls (db (snd (bind db_rollback
                         (fun _ => bind (logger_error (msg e)) (fun _ => ret failed))
                         w0))))
    = statements_executed (calls (db w0)).
Proof.
  intros e w0. rewrite handler_run.
  destruct (run_rollback E (working (db w0))); count_statements.
Qed.

Lemma executes_no_rollback l : ~ In call_rollback (executes l).
Proof.
  unfold executes. rewrite in_map_iff. intros (x & H & _). discriminate H.
Qed.

Lemma run_statements_count (E : Driver) l :
  forall (st st' : store E) k,
    run_statements E st l = (None, st', k) -> k = length l.
Proof.
  induction l as [|[q p] l IH]; intros st st' k H; cbn in H.
  - inversion H. reflexivity.
  - destruct (run_execute E st q p) as [[st1 rows]|e]; [|discriminate H].
    destruct (run_statements E st1 l) as [[r st2] n] eqn:Hl.
    inversion H; subst. cbn. f_equal. eapply IH. exact Hl.
Qed.

(** A loop of statements inside a guarded write. *)
Lemma statements_write {E : Driver} {A B} (f : A -> M E B)
    (g : A -> string * list sql_param) (l : list A) (tail : M E bool)
    (said : list log_record) (msg : exn -> string)
    (w : World E) (err : option exn) (st : store E) (k : nat) :
  Forall (fun x => executes_one f x (fst (g x)) (snd (g x))) l ->
  (forall w0, tail w0 = (Returned true, with_log (log w0 ++ said) w0)) ->
  run_statements E (working (db w)) (map g l) = (err, st, k) ->
  let m :=
    try_except
      (get_cursor (bind (for_each f l) (fun _ => bind db_commit (fun _ => tail))))
      (fun e =>
         bind db_rollback (fun _ => bind (logger_error (msg e)) (fun _ => ret false))) in
  guarded_write w err st (executes (map g l)) true false said msg (m w)
  /\ statements_executed (calls (db (snd (m w))))
     = (statements_executed (calls (db w))
          ++ match run_cursor E (working (db w)) with
             | None => take k (map g l)
             | Some _ => []
             end)%list.
Proof.
  intros Hf Htail Hrun m.
  pose proof (for_each_run f g l Hf (with_calls (working (db w)) [call_cursor] w)) as Hloop.
  cbn [with_calls with_db db working] in Hloop. rewrite Hrun in Hloop.
  destruct err as [e|].
  - rewrite with_calls_with_calls in Hloop. split.
    + apply guarded_write_run.
      * exists (executes (take k (map g l))). split; [exact Hloop|].
        apply executes_no_rollback.
      * apply executes_no_rollback.
      * exact Htail.
    + unfold m.
      rewrite (guarded_write_calls (for_each f l) tail _ true said w (Raised e) st
                 (executes (take k (map g l))) Hloop Htail).
      * rewrite statements_executed_executes. reflexivity.
      * apply handler_executes_nothing.
  - destruct Hloop as [ys Hloop]. rewrite with_calls_with_calls in Hloop. split.
    + apply guarded_write_run.
      * exists ys. exact Hloop.
      * apply executes_no_rollback.
      * exact Htail.
    + unfold m.
      rewrite (guarded_write_calls (for_each f l) tail _ true said w (Returned ys) st
                 (executes (map g l)) Hloop Htail).
      * rewrite statements_executed_executes.
        rewrite (run_statements_count _ _ _ _ _ Hrun), firstn_all. reflexivity.
      * apply handler_executes_nothing.
Qed.

(** ** Storing the file changes of a pull request *)


(** ** Cursors are released *)

Lemma opened_app t1 t2 : opened (t1 ++ t2) = (opened t1 + opened t2)%nat.
Proof. unfold opened. rewrite List.filter_app, length_app. reflexivity. Qed.

Lemma closed_app t1 t2 : closed (t1 ++ t2) = (closed t1 + closed t2)%nat.
Proof. unfold closed. rewrite List.filter_app, length_app. reflexivity. Qed.

Lemma releases_no_call {E : Engine} {A} (m : M E A) :
  (forall w, db (snd (m w)) = db w) -> releases_cursors m.
Proof.
  intros H w. exists []. rewrite H, app_nil_r. split; reflexivity.
Qed.

Lemma releases_ret {E : Engine} {A} (a : A) : releases_cursors (E := E) (ret a).
Proof. apply releases_no_call. reflexivity. Qed.

Lemma releases_bind {E : Engine} {A B} (m : M E A) (k : A -> M E B) :
  releases_cursors m -> (forall a, releases_cursors (k a)) -> releases_cursors (bind m k).
Proof.
  intros Hm Hk w. unfold bind. destruct (Hm w) as (t1 & Ht1 & Hb1).
  destruct (m w) as [[a|e] w1] eqn:Hrun; cbn in Ht1 |- *.
  - destruct (Hk a w1) as (t2 & Ht2 & Hb2). exists (t1 ++ t2)%list.
    rewrite Ht2, Ht1, app_assoc, opened_app, closed_app. split; [reflexivity|lia].
  - exists t1. split; assumption.
Qed.

Lemma releases_try_except {E : Engine} {A} (body : M E A) (handler : exn -> M E A) :
  releases_cursors body -> (forall e, releases_cursors (handler e)) ->
  releases_cursors (try_except body handler).
Proof.
  intros Hm Hk w. unfold try_except. destruct (Hm w) as (t1 & Ht1 & Hb1).
  destruct (body w) as [[a|e] w1] eqn:Hrun; cbn in Ht1 |- *.
  - exists t1. split; assumption.
  - destruct (Hk e w1) as (t2 & Ht2 & Hb2). exists (t1 ++ t2)%list.
    rewrite Ht2, Ht1, app_assoc, opened_app, closed_app. split; [reflexivity|lia].
Qed.

Lemma releases_one_call {E : Engine} {A} (m : M E A) (c : call) :
  (forall w, calls (db (snd (m w))) = (calls (db w) ++ [c])%list) ->
  c <> call_cursor -> c <> call_close ->
  releases_cursors m.
Proof.
  intros H Hc1 Hc2 w. exists [c]. split; [apply H|].
  destruct c; try reflexivity; contradiction.
Qed.

Lemma releases_cursor_execute {E : Engine} q p :
  releases_cursors (E := E) (cursor_execute q p).
Proof.
  apply releases_one_call with (c := call_execute q p); try discriminate.
  intros w. unfold_layer. cbn.
  destruct (run_execute E (working (db w)) q p) as [[st rows]|e]; reflexivity.
Qed.

Lemma releases_execute_values {E : Engine} q rows :
  releases_cursors (E := E) (execute_values q rows).
Proof.
  apply releases_one_call with (c := call_execute_values q rows); try discriminate.
  intros w. unfold_layer. cbn.
  destruct (run_execute_values E (working (db w)) q rows); reflexivity.
Qed.

Lemma releases_db_commit {E : Engine} : releases_cursors (E := E) db_commit.
Proof.
  apply releases_one_call with (c := call_commit); try discriminate.
  intros w. unfold_layer. cbn. destruct (run_commit E (working (db w))); reflexivity.
Qed.

Lemma releases_db_rollback {E : Engine} : releases_cursors (E := E) db_rollback.
Proof.
  apply releases_one_call with (c := call_rollback); try discriminate.
  intros w. reflexivity.
Qed.

Lemma releases_cursor_fetchall {E : Engine} rows :
  releases_cursors (E := E) (cursor_fetchall rows).
Proof.
  apply releases_one_call with (c := call_fetchall); try discriminate.
  intros w. reflexivity.
Qed.

Lemma releases_logger_error {E : Engine} msg : releases_cursors (E := E) (logger_error msg).
Proof. apply releases_no_call. reflexivity. Qed.

Lemma releases_logger_info {E : Engine} msg : releases_cursors (E := E) (logger_info msg).
Proof. apply releases_no_call. reflexivity. Qed.

Lemma releases_deref {E : Engine} l : releases_cursors (E := E) (deref l).
Proof.
  apply releases_no_call. intros w. unfold deref. destruct (objects w !! l); reflexivity.
Qed.

Lemma releases_assign {E : Engine} l pr : releases_cursors (E := E) (assign l pr).
Proof. apply releases_no_call. reflexivity. Qed.

Lemma releases_read_migration_file {E : Engine} filename :
  releases_cursors (E := E) (read_migration_file filename).
Proof.
  apply releases_no_call. intros w. unfold read_migration_file.
  destruct (package_resources w !! filename); [reflexivity|].
  destruct (sql_directory w !! filename); reflexivity.
Qed.

Lemma releases_for_each {E : Engine} {A B} (f : A -> M E B) (l : list A) :
  (forall x, releases_cursors (f x)) -> releases_cursors (for_each f l).
Proof.
  intros Hf. induction l as [|x l IH]; cbn.
  - apply releases_ret.
  - apply releases_bind; [apply Hf|]. intros y.
    apply releases_bind; [exact IH|]. intros ys. apply releases_ret.
Qed.

(** The context manager: one cursor opened, and closed after the body
    whatever the body did. *)
Lemma releases_get_cursor {E : Engine} {A} (body : M E A) :
  releases_cursors body -> releases_cursors (get_cursor body).
Proof.
  intros Hbody w. unfold get_cursor. usable. unfold bind, record_call, try_finally.
  cbn beta iota.
  match goal with |- context [body ?w0] =>
    destruct (Hbody w0) as (t & Ht & Hb); destruct (body w0) as [r w1]
  end.
  cbn in Ht |- *. exists (call_cursor :: t ++ [call_close])%list.
  rewrite Ht. rewrite <- !app_assoc. split; [reflexivity|].
  change (call_cursor :: t ++ [call_close])%list with ([call_cursor] ++ t ++ [call_close])%list.
  rewrite !opened_app, !closed_app. cbn. lia.
Qed.

Create HintDb releases.
#[local] Hint Resolve releases_ret releases_cursor_execute releases_execute_values
  releases_db_commit releases_db_rollback releases_cursor_fetchall releases_logger_error
  releases_logger_info releases_deref releases_assign releases_read_migration_file
  : releases.

Ltac releases :=
  repeat match goal with
    | |- releases_cursors (get_cursor _) => apply releases_get_cursor
    | |- releases_cursors (try_except _ _) => apply releases_try_except; [|intros ?]
    | |- releases_cursors (for_each _ _) => apply releases_for_each; intros ?
    | |- releases_cursors (bind _ _) => apply releases_bind; [|intros ?]
    | |- releases_cursors (normalize_uid _) => unfold normalize_uid
    | |- releases_cursors (if ?b then _ else _) => destruct b
    | |- releases_cursors (match ?l with [] => _ | _ :: _ => _ end) => destruct l
    | |- releases_cursors _ => solve [auto with releases]
    end.

Lemma releases_migrate_from {E : Engine} (files : list string) :
  releases_cursors (E := E) (migrate_from files).
Proof.
  induction files as [|f files IH]; cbn.
  - releases.
  - apply releases_bind.
    + unfold run_migration. releases.
    + intros [|]; [exact IH|releases].
Qed.

(** X2. Whatever storage does, each method of the repositories and of the
    migrator only adds calls to the connection's trace and closes as many
    cursors as it opens, on the paths that return and on those that raise. *)
Theorem every_cursor_is_closed :
  forall (E : Engine) (query : string) (params : list sql_param) (l : loc)
         (prs : list loc) (miners : list Miner) (issues : list Issue)
         (fcs : list FileChange) (names : gset string) (n : Z) (repo hk gid : string)
         (filename : string),
    releases_cursors (E := E) (execute_query query params)
    /\ releases_cursors (E := E) (execute_command query params)
    /\ releases_cursors (E := E) (set_pull_request l)
    /\ releases_cursors (E := E) (get_pull_request_with_file_changes n repo)
    /\ releases_cursors (E := E) (get_pull_requests_by_repository_with_file_changes repo)
    /\ releases_cursors (E := E) (get_pull_requests_by_repository repo)
    /\ releases_cursors (E := E) (get_pull_requests_by_miner n hk gid)
    /\ releases_cursors (E := E) (store_pull_requests_bulk prs)
    /\ releases_cursors (E := E) (store_miners_bulk miners)
    /\ releases_cursors (E := E) (store_issues_bulk issues)
    /\ releases_cursors (E := E) (store_file_changes_bulk fcs)
    /\ releases_cursors (E := E) (store_repositories_bulk names)
    /\ releases_cursors (E := E) (set_file_changes_for_pr n repo fcs)
    /\ (forall fc, releases_cursors (E := E) (set_file_change n repo fc))
    /\ releases_cursors (E := E) (run_migration filename)
    /\ releases_cursors (E := E) migrate.
Proof.
  intros.
  repeat match goal with
         | |- _ /\ _ => split
         | |- forall fc : FileChange, _ => intros fc
         end;
    try (unfold migrate; apply releases_migrate_from);
    unfold execute_query, execute_command, set_pull_request, set_entity, normalize_uid,
      get_pull_request_with_file_changes,
      get_pull_requests_by_repository_with_file_changes, get_pull_requests_by_repository,
      get_pull_requests_by_miner, query_multiple, store_pull_requests_bulk,
      store_miners_bulk, store_issues_bulk, store_file_changes_bulk,
      store_repositories_bulk, set_file_change, set_file_changes_for_pr, run_migration,
      store_values, execute_query, execute_command;
    releases.
Qed.

(** ** Reading *)

Lemma execute_query_run {E : Engine} (query : string) (params : list sql_param)
    (w : World E) :
  execute_query query params w =
  match run_execute E (working (db w)) query params with
  | Returned (st, rows) =>
      (Returned rows,
       after_calls st [call_cursor; call_execute query params; call_fetchall; call_close] w)
  | Raised e =>
      (Raised e,
       after_calls (working (db w)) [call_cursor; call_execute query params; call_close] w)
  end.
Proof.
  unfold_layer. unfold after_calls, with_db. cbn.
  destruct (run_execute E (working (db w)) query params) as [[st rows]|e]; cbn;
    rewrite <- !app_assoc; reflexivity.
Qed.

Lemma execute_query_result {E : Driver} (query : string) (params : list sql_param)
    (w : World E) :
  execute_query query params w =
  match run_cursor E (working (db w)) with
  | Some e => (Raised e, with_calls (working (db w)) [call_cursor] w)
  | None =>
      match run_execute E (working (db w)) query params with
      | Returned (st, rows) =>
          (match run_close E st with None => Returned rows | Some e => Raised e end,
           with_calls st [call_cursor; call_execute query params; call_fetchall; call_close]
             w)
      | Raised e =>
          let st := failed_execute E (working (db w)) query params in
          (Raised (match run_close E st with None => e | Some e' => e' end),
           with_calls st [call_cursor; call_execute query params; call_close] w)
      end
  end.
Proof.
  unfold execute_query. rewrite get_cursor_run.
  destruct (run_cursor E (working (db w))) as [e0|]; [reflexivity|].
  unfold bind at 1. rewrite cursor_execute_run.
  cbn [with_calls with_db db working committed calls].
  destruct (run_execute E (working (db w)) query params) as [[st rows]|e].
  - unfold cursor_fetchall, bind, record_call, ret.
    cbn [with_calls with_db db working committed calls].
    destruct (run_close E st); unfold with_calls, with_db; cbn;
      rewrite <- !app_assoc; reflexivity.
  - cbn [with_calls with_db db working committed calls].
    destruct (run_close E (failed_execute E (working (db w)) query params));
      unfold with_calls, with_db; cbn; rewrite <- !app_assoc; reflexivity.
Qed.

(** X3. A read whose statement raises, raises: when the cursor opens and
    storage refuses the statement, the exception of the statement reaches
    the caller, or the exception of closing the cursor when that raises as
    well. The cursor is closed and nothing else is done: no rollback and no
    commit is issued and nothing is logged; the objects and the committed
    state are as before, and the working state is the one the failing
    statement left, which the next statement on the connection meets. *)
Theorem failed_read_raises_without_rollback :
  forall (D : Driver) (w : World D) (e : exn) (query : string) (params : list sql_param)
         (n uid : Z) (repo hk gid : string),
    run_cursor D (working (db w)) = None ->
    let left (q : string) (p : list sql_param) : store D :=
      failed_execute D (working (db w)) q p in
    let raised (q : string) (p : list sql_param) : exn :=
      match run_close D (left q p) with None => e | Some e' => e' end in
    let failed (q : string) (p : list sql_param) : World D :=
      with_calls (left q p) [call_cursor; call_execute q p; call_close] w in
    (run_execute D (working (db w)) query params = Raised e ->
     execute_query query params w = (Raised (raised query params), failed query params))
    /\ (run_execute D (working (db w)) GET_PULL_REQUEST_WITH_FILE_CHANGES
          [PInt n; PStr repo] = Raised e ->
        get_pull_request_with_file_changes n repo w
        = (Raised (raised GET_PULL_REQUEST_WITH_FILE_CHANGES [PInt n; PStr repo]),
           failed GET_PULL_REQUEST_WITH_FILE_CHANGES [PInt n; PStr repo]))
    /\ (run_execute D (working (db w)) GET_PULL_REQUESTS_BY_REPOSITORY_WITH_FILE_CHANGES
          [PStr repo] = Raised e ->
        get_pull_requests_by_repository_with_file_changes repo w
        = (Raised (raised GET_PULL_REQUESTS_BY_REPOSITORY_WITH_FILE_CHANGES [PStr repo]),
           failed GET_PULL_REQUESTS_BY_REPOSITORY_WITH_FILE_CHANGES [PStr repo]))
    /\ (run_execute D (working (db w)) GET_PULL_REQUESTS_BY_REPOSITORY [PStr repo]
        = Raised e ->
        get_pull_requests_by_repository repo w
        = (Raised (raised GET_PULL_REQUESTS_BY_REPOSITORY [PStr repo]),
           failed GET_PULL_REQUESTS_BY_REPOSITORY [PStr repo]))
    /\ (run_execute D (working (db w)) GET_PULL_REQUESTS_BY_MINER
          [PInt uid; PStr hk; PStr gid] = Raised e ->
        get_pull_requests_by_miner uid hk gid w
        = (Raised (raised GET_PULL_REQUESTS_BY_MINER [PInt uid; PStr hk; PStr gid]),
           failed GET_PULL_REQUESTS_BY_MINER [PInt uid; PStr hk; PStr gid]))
    /\ (forall q p,
          committed (db (failed q p)) = committed (db w)
          /\ working (db (failed q p)) = left q p
          /\ log (failed q p) = log w
          /\ objects (failed q p) = objects w
          /\ calls (db (failed q p))
             = (calls (db w) ++ [call_cursor; call_execute q p; call_close])%list
          /\ Forall (fun c => ends_transaction c = false)
               [call_cursor; call_execute q p; call_close])
    /\ (forall q p, (forall s, run_close D s = None) -> raised q p = e).
Proof.
  intros D w e query params n uid repo hk gid Hcursor left raised failed.
  subst left raised failed. cbn beta.
  repeat match goal with |- _ /\ _ => split end;
    try (intros Hrun;
         unfold get_pull_request_with_file_changes,
           get_pull_requests_by_repository_with_file_changes,
           get_pull_requests_by_repository, get_pull_requests_by_miner, query_multiple;
         try unfold bind at 1;
         rewrite execute_query_result, Hcursor, Hrun; reflexivity).
  - intros q p. repeat split. repeat constructor.
  - intros q p H. rewrite H. reflexivity.
Qed.

Lemma failed_read_raises_without_rollback_witness :
  exists (e : exn) (w' : World SampleEvaluation.down),
    get_pull_requests_by_repository "entrius/gittensor-db" SampleEvaluation.down_world
    = (Raised e, w')
    /\ calls (db w')
       = [call_cursor;
          call_execute GET_PULL_REQUESTS_BY_REPOSITORY [PStr "entrius/gittensor-db"];
          call_close]
    /\ log w' = [].
Proof.
  pose proof (failed_read_raises_without_rollback SampleEvaluation.down
                SampleEvaluation.down_world
                (DatabaseError ("cannot execute: " +:+ GET_PULL_REQUESTS_BY_REPOSITORY))
                GET_PULL_REQUESTS_BY_REPOSITORY [PStr "entrius/gittensor-db"]
                42 7 "entrius/gittensor-db" EmptyString EmptyString eq_refl) as H.
  cbv zeta in H. destruct H as (_ & _ & _ & Hlist & _ & _).
  eexists _, _. split; [apply Hlist; reflexivity|]. split; reflexivity.
Defined.

(** X4. The plain listings return one pull request per row that storage
    answers, in storage's order, without merging rows of the same number and
    without children: no file-change list and no issue list is attached.
    The cursor is closed after the fetch and no transaction is ended. *)
Theorem listing_maps_every_row :
  forall (E : Engine) (w : World E) (repo hk gid : string) (uid : Z)
         (st1 st2 : store E) (rows1 rows2 : list Row),
    run_execute E (working (db w)) GET_PULL_REQUESTS_BY_REPOSITORY [PStr repo]
    = Returned (st1, rows1) ->
    run_execute E (working (db w)) GET_PULL_REQUESTS_BY_MINER [PInt uid; PStr hk; PStr gid]
    = Returned (st2, rows2) ->
    (exists prs,
       get_pull_requests_by_repository repo w
       = (Returned prs,
          after_calls st1
            [call_cursor; call_execute GET_PULL_REQUESTS_BY_REPOSITORY [PStr repo];
             call_fetchall; call_close] w)
       /\ length prs = length rows1
       /\ map number prs = map row_number rows1
       /\ Forall (fun pr => file_changes pr = None /\ issues pr = None) prs)
    /\ (exists prs,
          get_pull_requests_by_miner uid hk gid w
          = (Returned prs,
             after_calls st2
               [call_cursor;
                call_execute GET_PULL_REQUESTS_BY_MINER [PInt uid; PStr hk; PStr gid];
                call_fetchall; call_close] w)
          /\ length prs = length rows2
          /\ map number prs = map row_number rows2
          /\ Forall (fun pr => file_changes pr = None /\ issues pr = None) prs).
Proof.
  intros E w repo hk gid uid st1 st2 rows1 rows2 H1 H2.
  split.
  - exists (map _map_to_pull_request rows1).
    unfold get_pull_requests_by_repository, query_multiple. unfold bind at 1.
    rewrite execute_query_run, H1. split; [reflexivity|].
    split; [apply length_map|]. split; [rewrite map_map; reflexivity|].
    apply Forall_map, Forall_forall. intros row _. split; reflexivity.
  - exists (map _map_to_pull_request rows2).
    unfold get_pull_requests_by_miner, query_multiple. unfold bind at 1.
    rewrite execute_query_run, H2. split; [reflexivity|].
    split; [apply length_map|]. split; [rewrite map_map; reflexivity|].
    apply Forall_map, Forall_forall. intros row _. split; reflexivity.
Qed.

Lemma listing_maps_every_row_witness :
  exists prs,
    fst (get_pull_requests_by_repository "entrius/gittensor-db" Sample.listing_world)
    = Returned prs
    /\ map number prs = [42; 43; 42].
Proof.
  destruct (listing_maps_every_row Sample.listing_engine Sample.listing_world
              "entrius/gittensor-db" "hk" "gid" 7
              [GET_PULL_REQUESTS_BY_REPOSITORY] [GET_PULL_REQUESTS_BY_MINER]
              Sample.listing Sample.listing eq_refl eq_refl)
    as ((prs & Hrun & _ & Hnumbers & _) & _).
  exists prs. rewrite Hrun. split; [reflexivity|exact Hnumbers].
Defined.

(** ** Migration scripts *)

Lemma split_parts_without_separator sep s :
  Forall (fun part => PyStr.contains sep part = false) (PyStr.split sep s).
Proof.
  induction s as [|c s IH]; cbn.
  - constructor; [reflexivity|constructor].
  - destruct (Ascii.eqb c sep) eqn:Hc.
    + constructor; [reflexivity|exact IH].
    + destruct (PyStr.split sep s) as [|p ps].
      * constructor; [cbn; rewrite Hc; reflexivity|constructor].
      * apply Forall_cons in IH as [Hp Hps].
        constructor; [cbn; rewrite Hc; exact Hp|exact Hps].
Qed.

Lemma contains_lstrip c s :
  PyStr.contains c s = false -> PyStr.contains c (PyStr.lstrip s) = false.
Proof.
  induction s as [|d s IH]; cbn; [reflexivity|].
  destruct (Ascii.eqb d c) eqn:Hd; [discriminate|].
  intros H. destruct (PyStr.isspace d); [apply IH, H|].
  cbn. rewrite Hd. exact H.
Qed.

Lemma contains_rstrip c s :
  PyStr.contains c s = false -> PyStr.contains c (PyStr.rstrip s) = false.
Proof.
  induction s as [|d s IH]; cbn; [reflexivity|].
  destruct (Ascii.eqb d c) eqn:Hd; [discriminate|].
  intros H. specialize (IH H). destruct (PyStr.rstrip s) as [|d' t].
  - destruct (PyStr.isspace d); [reflexivity|]. cbn. rewrite Hd. reflexivity.
  - cbn [PyStr.contains]. rewrite Hd. exact IH.
Qed.

Lemma lstrip_starts s : starts_with_space (PyStr.lstrip s) = false.
Proof.
  induction s as [|c s IH]; cbn; [reflexivity|].
  destruct (PyStr.isspace c) eqn:Hc; [exact IH|]. cbn. exact Hc.
Qed.

Lemma rstrip_starts s :
  starts_with_space s = false -> starts_with_space (PyStr.rstrip s) = false.
Proof.
  destruct s as [|c s]; cbn; [reflexivity|].
  intros Hc. destruct (PyStr.rstrip s); [rewrite Hc|]; cbn; [exact Hc|exact Hc].
Qed.

Lemma rstrip_ends s : ends_with_space (PyStr.rstrip s) = false.
Proof.
  induction s as [|c s IH]; cbn; [reflexivity|].
  destruct (PyStr.rstrip s) as [|d t].
  - destruct (PyStr.isspace c) eqn:Hc; [reflexivity|]. cbn. exact Hc.
  - exact IH.
Qed.

Lemma lstrip_blank s :
  blank_script s = true -> PyStr.contains ";" s = false -> PyStr.lstrip s = EmptyString.
Proof.
  induction s as [|c s IH]; cbn; [reflexivity|].
  destruct (Ascii.eqb c ";") eqn:Hc; [intros _; discriminate|].
  destruct (PyStr.isspace c); cbn; [exact IH|discriminate].
Qed.

Lemma split_parts_blank s :
  blank_script s = true ->
  Forall (fun part => blank_script part = true) (PyStr.split ";" s).
Proof.
  induction s as [|c s IH]; cbn.
  - intros _. constructor; [reflexivity|constructor].
  - intros H. apply andb_true_iff in H as [Hc Hs]. specialize (IH Hs).
    destruct (Ascii.eqb c ";") eqn:Hsep.
    + constructor; [reflexivity|exact IH].
    + destruct (PyStr.split ";" s) as [|p ps].
      * constructor; [cbn; rewrite Hsep, Hc; reflexivity|constructor].
      * apply Forall_cons in IH as [Hp Hps].
        constructor; [cbn; rewrite Hsep, Hc, Hp; reflexivity|exact Hps].
Qed.

Lemma statements_of_truthy sql_content :
  Forall (fun statement => PyStr.truthy statement = true) (statements_of sql_content).
Proof.
  unfold statements_of.
  apply Forall_map, Forall_forall. intros part Hpart.
  apply list_elem_of_filter in Hpart as [Htruthy _]. exact Htruthy.
Qed.

(** X5. The statements a script is cut into are clean: none is empty, none
    contains a semicolon (the script is cut at every semicolon, also inside
    a string literal or a function body), and none begins or ends with
    whitespace. A script of nothing but whitespace and semicolons yields no
    statement. *)
Theorem script_statements_are_clean :
  forall sql_content : string,
    Forall
      (fun statement =>
         statement <> EmptyString
         /\ PyStr.truthy statement = true
         /\ PyStr.contains ";" statement = false
         /\ starts_with_space statement = false
         /\ ends_with_space statement = false)
      (statements_of sql_content)
    /\ (blank_script sql_content = true -> statements_of sql_content = []).
Proof.
  intros sql. unfold statements_of. split.
  - apply Forall_map, Forall_forall. intros part Hpart.
    apply list_elem_of_filter in Hpart as [Htruthy Hin].
    pose proof (proj1 (Forall_forall _ _) (split_parts_without_separator ";" sql) _ Hin)
      as Hsep.
    cbn beta. split; [|split; [exact Htruthy|split; [|split]]].
    + intros Heq. rewrite Heq in Htruthy. discriminate.
    + apply contains_rstrip, contains_lstrip, Hsep.
    + apply rstrip_starts, lstrip_starts.
    + apply rstrip_ends.
  - intros Hblank.
    pose proof (split_parts_blank sql Hblank) as Hparts.
    pose proof (split_parts_without_separator ";" sql) as Hsep.
    induction (PyStr.split ";" sql) as [|part parts IH]; [reflexivity|].
    apply Forall_cons in Hparts as [Hb Hbs]. apply Forall_cons in Hsep as [Hs Hss].
    rewrite filter_cons_False.
    + apply IH; assumption.
    + unfold PyStr.strip. rewrite (lstrip_blank _ Hb Hs). discriminate.
Qed.

Lemma statement_runs_one {E : Driver} (statement : string) :
  PyStr.truthy statement = true ->
  executes_one (E := E)
    (fun statement =>
       if PyStr.truthy statement
       then bind (cursor_execute statement []) (fun _ => ret tt)
       else ret tt)
    statement statement [].
Proof.
  intros Ht w. rewrite Ht. unfold bind. rewrite cursor_execute_run.
  destruct (run_execute E (working (db w)) statement []) as [[st rows]|e].
  - eexists. reflexivity.
  - reflexivity.
Qed.

Lemma run_migration_write {E : Driver} (w : World E) (filename sql_content : string)
    (err : option exn) (st : store E) (k : nat) :
  read_migration_file filename w = (Returned sql_content, w) ->
  run_statements E (working (db w)) (script_statements sql_content) = (err, st, k) ->
  guarded_write w err st (executes (script_statements sql_content)) true false
    [{| levelname := INFO; message := "Successfully ran migration: " +:+ filename |}]
    (fun e => "Failed to run migration " +:+ filename +:+ ": " +:+ exn_message e)
    (run_migration filename w)
  /\ statements_executed (calls (db (snd (run_migration filename w))))
     = (statements_executed (calls (db w))
          ++ match run_cursor E (working (db w)) with
             | None => take k (script_statements sql_content)
             | Some _ => []
             end)%list.
Proof.
  intros Hread Hrun.
  set (msg := fun e => "Failed to run migration " +:+ filename +:+ ": " +:+ exn_message e).
  set (g := fun statement : string => (statement, @nil sql_param)).
  assert (Hshape : run_migration filename w
                   = try_except
                       (get_cursor
                          (bind (for_each
                                   (fun statement =>
                                      if PyStr.truthy statement
                                      then bind (cursor_execute statement [])
                                             (fun _ => ret tt)
                                      else ret tt)
                                   (statements_of sql_content))
                             (fun _ => bind db_commit
                                (fun _ =>
                                   bind (logger_info
                                           ("Successfully ran migration: " +:+ filename))
                                     (fun _ => ret true)))))
                       (fun e =>
                          bind db_rollback
                            (fun _ => bind (logger_error (msg e)) (fun _ => ret false)))
                       w).
  { unfold run_migration, try_except. unfold bind at 1. rewrite Hread. reflexivity. }
  rewrite Hshape.
  apply (statements_write _ g (statements_of sql_content)
           (bind (logger_info ("Successfully ran migration: " +:+ filename))
              (fun _ => ret true))
           _ msg w err st k).
  - eapply Forall_impl; [exact (statements_of_truthy sql_content)|].
    intros x Hx. cbn. apply statement_runs_one. exact Hx.
  - intros w0. reflexivity.
  - exact Hrun.
Qed.

(** X6. A script of ASCII text that can be read runs as one transaction, on
    any connection. [run_migration] is a guarded write of the statements of
    the script, in script order: it returns true exactly when the cursor
    opens, every statement executes, the commit goes through and the cursor
    closes; then the statements are committed together and the success is
    logged. When one of these raises it calls rollback; if the rollback goes
    through, one error is logged, the result is false and nothing is left
    pending, and the committed state is as before when the cursor closes.
    No statement after the failing one is attempted. It raises only when
    the rollback itself raises. *)
Theorem run_migration_is_one_transaction :
  forall (D : Driver) (w : World D) (filename sql_content : string),
    read_migration_file filename w = (Returned sql_content, w) ->
    is_ascii sql_content = true ->
    let statements := script_statements sql_content in
    let said := [{| levelname := INFO;
                    message := "Successfully ran migration: " +:+ filename |}] in
    let msg e := "Failed to run migration " +:+ filename +:+ ": " +:+ exn_message e in
    (forall err st k,
       run_statements D (working (db w)) statements = (err, st, k) ->
       guarded_write w err st (executes statements) true false said msg
         (run_migration filename w)
       /\ statements_executed (calls (db (snd (run_migration filename w))))
          = (statements_executed (calls (db w))
               ++ match run_cursor D (working (db w)) with
                  | None => take k statements
                  | Some _ => []
                  end)%list)
    /\ (exists (res : outcome bool) (w' : World D),
          run_migration filename w = (res, w')
          /\ objects w' = objects w
          /\ (res = Returned true ->
              working (db w') = committed (db w')
              /\ log w' = (log w ++ said)%list
              /\ exists k,
                   run_statements D (working (db w)) statements
                   = (None, committed (db w'), k))
          /\ (res = Returned false -> working (db w') = committed (db w'))
          /\ ((forall s, run_close D s = None) ->
              res <> Returned true -> committed (db w') = committed (db w))
          /\ (forall e, res = Raised e -> exists s, run_rollback D s = Some e)
          /\ ((forall s, run_rollback D s = None) -> exists ok, res = Returned ok)).
Proof.
  intros D w filename sql Hread _ statements said msg.
  split; [intros err st k Hrun; exact (run_migration_write w filename sql err st k Hread Hrun)|].
  destruct (run_statements D (working (db w)) statements) as [[err st] k] eqn:Hrun.
  destruct (run_migration_write w filename sql err st k Hread Hrun) as [Hg _].
  apply guarded_write_plain in Hg; [|discriminate].
  destruct Hg as (res & w' & Heq & Hobj & Hiff & Hd & Hf & _ & Hc & He & Hr).
  exists res, w'. split; [exact Heq|]. split; [exact Hobj|].
  split.
  { intros H. destruct (Hd H) as (Hco & Hwo & Hl & _). split; [congruence|].
    split; [exact Hl|].
    exists k. apply Hiff in H. destruct H as (_ & -> & _). rewrite Hco.
    reflexivity. }
  split; [intros H; apply Hf, H|]. split; [exact Hc|]. split; [exact He|].
  intros H. destruct (Hr H) as [->| ->]; eauto.
Qed.

Lemma run_migration_is_one_transaction_witness :
  exists w' : World BrokenMigration.engine,
    run_migration "repositories.sql" BrokenMigration.start = (Returned true, w')
    /\ working (db w') = committed (db w').
Proof.
  pose proof (run_migration_is_one_transaction BrokenMigration.engine BrokenMigration.start
                "repositories.sql"
                "CREATE TABLE IF NOT EXISTS repositories (full_name VARCHAR PRIMARY KEY);
CREATE INDEX IF NOT EXISTS idx_owner ON repositories (full_name);
" eq_refl eq_refl) as H.
  cbv zeta in H. destruct H as (_ & res & w' & Hrun & _ & Hdone & _).
  assert (Hres : res = Returned true).
  { assert (Hfst : fst (run_migration "repositories.sql" BrokenMigration.start) = res)
      by (rewrite Hrun; reflexivity).
    rewrite <- Hfst. vm_compute. reflexivity. }
  subst res. exists w'. split; [exact Hrun|]. apply Hdone. reflexivity.
Defined.



Lemma run_migration_result {E : Driver} (filename : string) (w : World E) :
  exists (res : outcome bool) (w' : World E),
    run_migration filename w = (res, w')
    /\ objects w' = objects w
    /\ (forall ok, res = Returned ok -> working (db w') = committed (db w'))
    /\ (forall e, res = Raised e -> exists s, run_rollback E s = Some e)
    /\ ((forall s, run_rollback E s = None) -> exists ok, res = Returned ok).
Proof.
  destruct (read_migration_file filename w) as [[sql|e] w0] eqn:Hread.
  - assert (w0 = w) as ->.
    { revert Hread. unfold read_migration_file.
      destruct (package_resources w !! filename); [intros H; inversion H; reflexivity|].
      destruct (sql_directory w !! filename); intros H; inversion H; reflexivity. }
    destruct (run_statements E (working (db w)) (script_statements sql))
      as [[err st] k] eqn:Hrun.
    destruct (run_migration_write w filename sql err st k Hread Hrun) as [Hg _].
    apply guarded_write_plain in Hg; [|discriminate].
    destruct Hg as (res & w' & Heq & Hobj & _ & Hd & Hf & _ & _ & He & Hr).
    exists res, w'. split; [exact Heq|]. split; [exact Hobj|].
    split.
    { intros [|] H; [destruct (Hd H) as (? & ? & _); congruence|apply Hf, H]. }
    split; [exact He|]. intros H. destruct (Hr H) as [->| ->]; eauto.
  - assert (w0 = w) as ->.
    { revert Hread. unfold read_migration_file.
      destruct (package_resources w !! filename); [intros H; inversion H; reflexivity|].
      destruct (sql_directory w !! filename); intros H; inversion H; reflexivity. }
    unfold run_migration, try_except. unfold bind at 1. rewrite Hread.
    rewrite handler_run.
    destruct (run_rollback E (working (db w))) as [e'|] eqn:Hroll.
    + eexists _, _. split; [reflexivity|]. split; [reflexivity|].
      split; [discriminate|]. split.
      * intros e0 H. inversion H; subst. eauto.
      * intros H. rewrite H in Hroll. discriminate Hroll.
    + eexists _, _. split; [reflexivity|]. split; [reflexivity|].
      split; [reflexivity|]. split; [discriminate|]. eauto.
Qed.

Lemma migrate_from_result {E : Driver} (files : list string) :
  forall w : World E,
    exists (res : outcome bool) (w' : World E),
      migrate_from files w = (res, w')
      /\ objects w' = objects w
      /\ (files <> [] -> forall ok, res = Returned ok ->
          working (db w') = committed (db w'))
      /\ (res = Returned true <-> exists w'', all_succeed files w w'')
      /\ (res = Returned true ->
          exists w'',
            all_succeed files w w''
            /\ w' = with_log
                      (log w'' ++ [{| levelname := INFO;
                                      message := "All migrations completed successfully" |}])
                      w'')
      /\ (forall e, res = Raised e -> exists s, run_rollback E s = Some e)
      /\ ((forall s, run_rollback E s = None) -> exists ok, res = Returned ok).
Proof.
  induction files as [|f files IH]; intros w.
  - eexists _, _. split; [reflexivity|]. cbn.
    split; [reflexivity|]. split; [intros H; contradiction|].
    split; [split; [intros _; exists w; constructor|reflexivity]|].
    split; [intros _; exists w; split; [constructor|reflexivity]|].
    split; [discriminate|]. eauto.
  - cbn [migrate_from]. unfold bind at 1.
    destruct (run_migration_result f w) as (res1 & w1 & Hrun & Hobj & Hpending & He & Hr).
    rewrite Hrun. destruct res1 as [[|]|e].
    + destruct (IH w1) as (res & w' & Hrest & Hobj' & Hpend' & Hiff & Hlast & He' & Hr').
      exists res, w'. split; [exact Hrest|]. split; [congruence|].
      split; [|split; [|split; [|split]]].
      * intros _ ok Hok. destruct files as [|f' files'].
        -- cbn in Hrest. inversion Hrest; subst. cbn. exact (Hpending true eq_refl).
        -- apply (Hpend' ltac:(discriminate) ok Hok).
      * rewrite Hiff. split.
        -- intros [w'' Hall]. exists w''. econstructor; eassumption.
        -- intros [w'' Hall]. inversion Hall; subst.
           match goal with H : run_migration f w = _ |- _ =>
             rewrite Hrun in H; inversion H; subst end.
           eauto.
      * intros Hok. destruct (Hlast Hok) as (w'' & Hall & Heq).
        exists w''. split; [econstructor; eassumption|exact Heq].
      * exact He'.
      * exact Hr'.
    + eexists _, _. split; [reflexivity|]. cbn.
      split; [exact Hobj|]. split; [intros _ ok _; exact (Hpending false eq_refl)|].
      split.
      { split; [discriminate|]. intros [w'' Hall]. inversion Hall; subst.
        match goal with H : run_migration f w = _ |- _ =>
          rewrite Hrun in H; inversion H end. }
      split; [discriminate|]. split; [discriminate|]. eauto.
    + eexists _, _. split; [reflexivity|]. split; [exact Hobj|].
      split; [intros _ ok H; discriminate H|].
      split.
      { split; [discriminate|]. intros [w'' Hall]. inversion Hall; subst.
        match goal with H : run_migration f w = _ |- _ =>
          rewrite Hrun in H; inversion H end. }
      split; [discriminate|]. split.
      * intros e0 H. inversion H; subst. apply He. reflexivity.
      * intros H. destruct (Hr H) as [ok Hok]. discriminate Hok.
Qed.

(** X8. [migrate], and [create_tables] with it, returns true exactly when
    each of the six scripts, run in order, reports success; then its last
    act is to log the completion. Whenever it returns, nothing is left
    pending on the connection. It raises only when a rollback raises, with
    the exception of that rollback; on a connection whose rollbacks go
    through it always returns. *)
Theorem migrate_succeeds_iff_every_script_does :
  forall (D : Driver) (w : World D),
    exists (res : outcome bool) (w' : World D),
      migrate w = (res, w')
      /\ create_tables w = (res, w')
      /\ objects w' = objects w
      /\ (res = Returned true <-> exists w'', all_succeed get_migration_files w w'')
      /\ (res = Returned true ->
          exists w'',
            all_succeed get_migration_files w w''
            /\ w' = with_log
                      (log w'' ++ [{| levelname := INFO;
                                      message := "All migrations completed successfully" |}])
                      w'')
      /\ (forall ok, res = Returned ok -> working (db w') = committed (db w'))
      /\ (forall e, res = Raised e -> exists s, run_rollback D s = Some e)
      /\ ((forall s, run_rollback D s = None) -> exists ok, res = Returned ok).
Proof.
  intros D w. unfold create_tables, migrate.
  destruct (migrate_from_result get_migration_files w)
    as (res & w' & Hrun & Hobj & Hpend & Hiff & Hlast & He & Hr).
  exists res, w'. split; [exact Hrun|]. split; [exact Hrun|]. split; [exact Hobj|].
  split; [exact Hiff|]. split; [exact Hlast|].
  split; [apply Hpend; discriminate|]. split; [exact He|exact Hr].
Qed.

(** On a connection that is lost while the first script runs, the rollback
    of [run_migration] raises and [migrate] raises with it. *)
Example migrate_raises_when_the_rollback_does :
  fst (migrate LostConnection.world) = Raised LostConnection.connection_closed.
Proof. reflexivity. Qed.

(** ** Repository names *)

Lemma split_append sep a b :
  PyStr.split sep (a +:+ String sep b) = (PyStr.split sep a ++ PyStr.split sep b)%list.
Proof.
  induction a as [|c a IH].
  - change (EmptyString +:+ String sep b) with (String sep b). cbn -[Ascii.eqb].
    rewrite Ascii.eqb_refl. reflexivity.
  - change (String c a +:+ String sep b) with (String c (a +:+ String sep b)).
    cbn -[Ascii.eqb].
    rewrite IH. destruct (Ascii.eqb c sep); [reflexivity|].
    destruct (PyStr.split sep a) as [|p ps] eqn:Hs.
    + exfalso. exact (split_not_nil _ _ Hs).
    + reflexivity.
Qed.

Lemma split_length_one sep s :
  length (PyStr.split sep s) = 1%nat <-> PyStr.contains sep s = false.
Proof.
  split.
  - induction s as [|c s IH]; cbn; [reflexivity|].
    destruct (Ascii.eqb c sep).
    + intros H. exfalso. destruct (PyStr.split sep s) eqn:Hs; [|discriminate].
      exact (split_not_nil _ _ Hs).
    + destruct (PyStr.split sep s) as [|p ps] eqn:Hs.
      * exfalso. exact (split_not_nil _ _ Hs).
      * cbn. intros H. apply IH. exact H.
  - intros H. rewrite (split_without_separator _ _ H). reflexivity.
Qed.

(** X9. The full name of a repository and the split of
    [store_repositories_bulk] are inverse to each other exactly when neither
    the owner nor the name holds a slash: then the row built from the full
    name carries the repository's own name and owner; otherwise the full
    name is not kept at all. *)
Theorem full_name_splits_back :
  forall r : Repository,
    (PyStr.contains "/" (repo_owner r) = false /\ PyStr.contains "/" (repo_name r) = false <->
     is_Some (repository_row (full_name r)))
    /\ (forall row,
          repository_row (full_name r) = Some row ->
          row = [PStr (full_name r); PStr (repo_name r); PStr (repo_owner r)]).
Proof.
  intros [name owner]. unfold full_name. cbn [repo_name repo_owner].
  change (owner +:+ "/" +:+ name) with (owner +:+ String "/" name).
  unfold repository_row. rewrite split_append.
  assert (Hsome : forall x,
             match (PyStr.split "/" owner ++ PyStr.split "/" name)%list with
             | [o; n] => Some [PStr (owner +:+ String "/" name); PStr n; PStr o]
             | _ => None
             end = Some x ->
             PyStr.contains "/" owner = false /\ PyStr.contains "/" name = false).
  { intros x Hx. rewrite <- !split_length_one.
    pose proof (split_not_nil "/" owner) as Ho.
    pose proof (split_not_nil "/" name) as Hn.
    destruct (PyStr.split "/" owner) as [|o1 [|o2 os]]; [contradiction| |].
    - destruct (PyStr.split "/" name) as [|n1 [|n2 ns]]; [contradiction| |];
        cbn in Hx; [auto|discriminate].
    - destruct (PyStr.split "/" name) as [|n1 ns]; [contradiction|].
      cbn in Hx. destruct (os ++ n1 :: ns)%list eqn:Happ; [|discriminate].
      destruct os; discriminate. }
  split.
  - split.
    + intros [Ho Hn].
      rewrite (split_without_separator _ _ Ho), (split_without_separator _ _ Hn).
      cbn. eauto.
    + intros [x Hx]. exact (Hsome x Hx).
  - intros row Hrow. destruct (Hsome row Hrow) as [Ho Hn].
    rewrite (split_without_separator _ _ Ho), (split_without_separator _ _ Hn) in Hrow.
    cbn in Hrow. inversion Hrow. reflexivity.
Qed.

(** ** File extensions *)

Lemma lower_char_idem c : PyStr.lower_char (PyStr.lower_char c) = PyStr.lower_char c.
Proof. destruct c as [[] [] [] [] [] [] [] []]; vm_compute; reflexivity. Qed.

Lemma lower_char_dot c : Ascii.eqb (PyStr.lower_char c) "." = Ascii.eqb c ".".
Proof. destruct c as [[] [] [] [] [] [] [] []]; vm_compute; reflexivity. Qed.

Lemma lower_idem s : PyStr.lower (PyStr.lower s) = PyStr.lower s.
Proof.
  induction s as [|c s IH]; cbn; [reflexivity|]. rewrite lower_char_idem, IH. reflexivity.
Qed.

Lemma contains_dot_lower s : PyStr.contains "." (PyStr.lower s) = PyStr.contains "." s.
Proof.
  induction s as [|c s IH]; cbn -[Ascii.eqb PyStr.lower_char]; [reflexivity|].
  rewrite lower_char_dot, IH. reflexivity.
Qed.

Lemma after_last_dot_without_dot s t :
  after_last_dot s = Some t -> PyStr.contains "." t = false.
Proof.
  revert t. induction s as [|c s IH]; intros t; cbn -[Ascii.eqb]; [discriminate|].
  destruct (after_last_dot s) as [u|] eqn:Hs.
  - intros H. inversion H; subst. apply IH. reflexivity.
  - destruct (Ascii.eqb c "."); [|discriminate].
    intros H. inversion H; subst.
    rewrite contains_after_last_dot, Hs. reflexivity.
Qed.

(** X10. The extension derived from an ASCII file name is in normal form:
    it holds no dot and no capital letter, and it is ASCII again, so
    deriving once more from any file name that ends in a dot and that
    extension gives it back. A file change built without an extension is
    stored, by the bulk store and by [set_file_changes_for_pr], with the
    extension derived from its file name. *)
Theorem derived_extension_is_normal :
  forall (filename : string),
    is_ascii filename = true ->
    PyStr.contains "." (_calculate_file_extension filename) = false
    /\ has_uppercase (_calculate_file_extension filename) = false
    /\ is_ascii (_calculate_file_extension filename) = true
    /\ (forall stem,
          _calculate_file_extension
            (stem +:+ String "." (_calculate_file_extension filename))
          = _calculate_file_extension filename)
    /\ (forall pr_number repo changes adds dels status patch id n r,
          let fc := FileChange_init pr_number repo filename changes adds dels status
                      patch None id in
          extension_or_calculated fc = _calculate_file_extension filename
          /\ file_change_params n r fc !! 8%nat
             = Some (PStr (_calculate_file_extension filename))
          /\ file_change_rows [fc]
             = [[PInt pr_number; PStr repo; PStr filename; PInt changes; PInt adds;
                 PInt dels; PStr status; param_of_opt_str patch;
                 PStr (_calculate_file_extension filename)]]).
Proof.
  intros filename Hascii.
  assert (Hdot : PyStr.contains "." (_calculate_file_extension filename) = false).
  { rewrite calculate_file_extension_spec. unfold lowercase_suffix_after_last_dot.
    destruct (after_last_dot filename) as [t|] eqn:Ht; [|reflexivity].
    rewrite <- lower_lowercase, contains_dot_lower.
    exact (after_last_dot_without_dot _ _ Ht). }
  assert (Hlow : PyStr.lower (_calculate_file_extension filename)
                 = _calculate_file_extension filename).
  { unfold _calculate_file_extension. destruct (PyStr.contains "." filename);
      [apply lower_idem|reflexivity]. }
  assert (Hext : forall fc, fc_filename fc = filename ->
                   fc_file_extension fc = Some (_calculate_file_extension filename) ->
                   extension_or_calculated fc = _calculate_file_extension filename).
  { intros fc Hname Hfe. unfold extension_or_calculated. rewrite Hfe, Hname.
    destruct (PyStr.truthy _); reflexivity. }
  split; [exact Hdot|]. split.
  { rewrite calculate_file_extension_spec. unfold lowercase_suffix_after_last_dot.
    destruct (after_last_dot filename); [apply lowercase_has_no_uppercase|reflexivity]. }
  split.
  { rewrite calculate_file_extension_spec. unfold lowercase_suffix_after_last_dot.
    destruct (after_last_dot filename) as [t|] eqn:Ht; [|reflexivity].
    rewrite lowercase_is_ascii. exact (after_last_dot_is_ascii _ _ Ht Hascii). }
  split.
  - intros stem. rewrite (calculate_file_extension_spec (stem +:+ _)).
    unfold lowercase_suffix_after_last_dot.
    rewrite (after_last_dot_app stem _ Hdot), <- lower_lowercase. exact Hlow.
  - intros.
    assert (Hfc : extension_or_calculated fc = _calculate_file_extension filename)
      by (apply Hext; reflexivity).
    split; [exact Hfc|]. split.
    + unfold file_change_params. rewrite Hfc. reflexivity.
    + unfold file_change_rows. cbn [map]. rewrite Hfc. reflexivity.
Qed.

Lemma derived_extension_is_normal_witness :
  _calculate_file_extension "docs/CHANGES.Rst" = "rst"
  /\ has_uppercase (_calculate_file_extension "docs/CHANGES.Rst") = false
  /\ _calculate_file_extension "notes.rst" = "rst".
Proof.
  destruct (derived_extension_is_normal "docs/CHANGES.Rst" eq_refl)
    as (_ & Hupper & _ & Hagain & _).
  split; [reflexivity|]. split; [exact Hupper|]. exact (Hagain "notes").
Defined.

(** ** Metric totals of an evaluation *)

Lemma size_list_to_set_le (l : list string) :
  (size (list_to_set l : gset string) <= length l)%nat.
Proof.
  induction l as [|x l IH]; cbn.
  - rewrite size_empty. lia.
  - rewrite size_union_alt, size_singleton.
    assert (Hsub : (size (list_to_set l ∖ {[x]} : gset string)
                    <= size (list_to_set l : gset string))%nat).
    { apply subseteq_size. intros y Hy. apply elem_of_difference in Hy. apply Hy. }
    lia.
Qed.

(** X11. [calculate_metric_totals] changes nothing when the evaluation has
    no pull request, so totals set before stay. Otherwise the total of lines
    is the sum of additions and deletions over the pull requests, the set of
    repositories holds exactly their repository names, and the count is the
    size of that set: at least one and at most the number of pull requests.
    The stored count of pull requests, the score and the list itself are
    not touched. *)
Theorem metric_totals_count_distinct_repositories :
  forall (h : gmap loc PullRequest) (e : MinerEvaluation),
    (pull_requests e = [] -> calculate_metric_totals h e = Some e)
    /\ (forall prs,
          pull_requests e <> [] ->
          mapM (fun l => h !! l) (pull_requests e) = Some prs ->
          exists e',
            calculate_metric_totals h e = Some e'
            /\ total_lines_changed e'
               = foldr Z.add 0 (map (fun pr => additions pr + deletions pr) prs)
            /\ (forall name,
                  name ∈ unique_repos_contributed_to e' <->
                  exists pr, pr ∈ prs /\ repository_full_name pr = name)
            /\ unique_repos_count e' = Z.of_nat (size (unique_repos_contributed_to e'))
            /\ 1 <= unique_repos_count e' <= Z.of_nat (length (pull_requests e))
            /\ pull_requests e' = pull_requests e
            /\ total_prs e' = total_prs e
            /\ total_score e' = total_score e
            /\ total_open_prs e' = total_open_prs e).
Proof.
  intros h e. unfold calculate_metric_totals. split.
  - intros ->. reflexivity.
  - intros prs Hne Hprs. destruct (pull_requests e) as [|l ls] eqn:Hlist; [contradiction|].
    rewrite Hprs. eexists. split; [reflexivity|].
    cbn [total_lines_changed unique_repos_contributed_to unique_repos_count
         pull_requests total_score total_open_prs].
    assert (Hlen : length prs = length (l :: ls)).
    { apply mapM_Some in Hprs. symmetry. exact (Forall2_length _ _ _ Hprs). }
    split; [reflexivity|]. split; [|split; [reflexivity|split; [|split; [reflexivity|]]]].
    + intros name. rewrite elem_of_list_to_set, list_elem_of_In, in_map_iff.
      split; intros (pr & H1 & H2).
      * exists pr. split; [apply list_elem_of_In; exact H2|exact H1].
      * exists pr. split; [exact H2|apply list_elem_of_In; exact H1].
    + pose proof (size_list_to_set_le (map repository_full_name prs)) as Hle.
      rewrite length_map, Hlen in Hle. split; [|lia].
      destruct prs as [|pr prs]; [discriminate|]. cbn [map list_to_set].
      rewrite size_union_alt, size_singleton. lia.
    + unfold total_prs. cbn [stored_total_prs pull_requests]. rewrite Hlist.
      repeat split.
Qed.

Lemma metric_totals_count_distinct_repositories_witness :
  exists e' : MinerEvaluation,
    calculate_metric_totals Sample.heap SampleEvaluation.evaluation = Some e'
    /\ total_lines_changed e' = 174
    /\ 1 <= unique_repos_count e' <= 2.
Proof.
  destruct (metric_totals_count_distinct_repositories Sample.heap
              SampleEvaluation.evaluation) as (_ & H).
  destruct (H [Sample.pr42; Sample.pr43]) as (e' & Hrun & Hlines & _ & _ & Hcount & _).
  - discriminate.
  - vm_compute. reflexivity.
  - exists e'. split; [exact Hrun|]. split; [rewrite Hlines; reflexivity|exact Hcount].
Defined.

(** ** Round trips through the relational engine *)

Lemma adapt_record_of pr :
  Pg.adapt_pull_request (pull_request_params (normalized pr)) = Some (record_of pr).
Proof.
  rewrite normalized_as_set_uid.
  destruct pr as [? ? u ? ? ? ? ? ? ? ? ? ? m ? ?]. cbn.
  destruct m; reflexivity.
Qed.

Lemma or_zero_some a : or_zero (Some a) = a.
Proof. unfold or_zero. destruct (Z.eqb a 0) eqn:H; [apply Z.eqb_eq in H; auto|reflexivity]. Qed.

Lemma map_joined_record_of pr repo :
  _map_to_pull_request (Pg.joined (record_of pr) repo None) = unloaded pr.
Proof.
  unfold _map_to_pull_request, unloaded. cbn -[or_zero]. rewrite !or_zero_some. reflexivity.
Qed.

Lemma set_is_not_get :
  String.eqb SET_PULL_REQUEST GET_PULL_REQUEST_WITH_FILE_CHANGES = false.
Proof. vm_compute. reflexivity. Qed.

(** [set_pull_request] on the relational engine: the insert cannot fail. *)
Lemma set_pull_request_pg (w : World Pg.engine) (l : loc) (pr : PullRequest) :
  objects w !! l = Some pr ->
  set_pull_request l w
  = (Returned true,
     with_objects (<[l := normalized pr]> (objects w))
       (with_db
          (@Build_Connection Pg.engine
             (Pg.insert_pull_request (record_of pr) (working (db w)))
             (Pg.insert_pull_request (record_of pr) (working (db w)))
             (calls (db w)
                ++ [call_cursor;
                    call_execute SET_PULL_REQUEST (pull_request_params (normalized pr));
                    call_commit; call_close])%list) w)).
Proof.
  intros Hl. rewrite (set_pull_request_run l pr w Hl). unfold_layer.
  cbn [healthy driver_engine run_cursor run_close run_rollback failed_execute
       failed_execute_values db working committed calls objects log package_resources
       sql_directory
       run_execute run_commit Pg.engine fst snd].
  unfold Pg.execute. rewrite set_is_not_get, String.eqb_refl, adapt_record_of.
  cbn [healthy driver_engine run_cursor run_close run_rollback failed_execute
       failed_execute_values db working committed calls objects log package_resources
       sql_directory fst snd].
  rewrite <- !app_assoc. reflexivity.
Qed.

(** X12. What [set_pull_request] stores, [get_pull_request_with_file_changes]
    reads back. With the repository stored and no row yet under the pull
    request's number and repository, the write returns true and commits,
    and the read that follows returns the pull request with the same
    columns, the uid as a plain int, and no children attached, whatever
    lists the stored object carried. *)
Theorem stored_pull_request_reads_back :
  forall (w : World Pg.engine) (l : loc) (pr : PullRequest) (repo : Pg.repository_record),
    objects w !! l = Some pr ->
    In repo (Pg.repositories (working (db w))) ->
    Pg.r_full_name repo = repository_full_name pr ->
    (forall p, In p (Pg.pull_requests (working (db w))) ->
               Pg.is_pull_request (number pr) (repository_full_name pr) p = false) ->
    (forall f, In f (Pg.file_changes_table (working (db w))) ->
               Pg.is_file_change_of (record_of pr) f = false) ->
    exists w1 w2 : World Pg.engine,
      set_pull_request l w = (Returned true, w1)
      /\ committed (db w1) = working (db w1)
      /\ get_pull_request_with_file_changes (number pr) (repository_full_name pr) w1
         = (Returned (Some (unloaded pr)), w2).
Proof.
  intros w l pr repo Hl Hrepo Hname Hfresh Hnofc.
  rewrite (set_pull_request_pg w l pr Hl). eexists _, _.
  split; [reflexivity|]. split; [reflexivity|].
  rewrite get_pull_request_with_file_changes_run.
  cbn [db working committed calls objects with_objects with_db].
  f_equal. f_equal.
  unfold Pg.select_pull_request_with_file_changes, Pg.insert_pull_request.
  assert (Hex : existsb (Pg.is_pull_request (Pg.p_number (record_of pr))
                           (Pg.p_repository_full_name (record_of pr)))
                  (Pg.pull_requests (working (db w))) = false).
  { apply not_true_iff_false. intros H. apply existsb_exists in H as (p & Hp & Hkey).
    cbn in Hkey. rewrite (Hfresh p Hp) in Hkey. discriminate. }
  rewrite Hex. cbn [Pg.pull_requests Pg.repositories Pg.file_changes_table].
  rewrite List.filter_app, (filter_all_false _ _ Hfresh). cbn [app List.filter].
  assert (Hkey : Pg.is_pull_request (number pr) (repository_full_name pr) (record_of pr)
                 = true).
  { unfold Pg.is_pull_request. cbn. rewrite Z.eqb_refl, String.eqb_refl. reflexivity. }
  rewrite Hkey. cbn [flat_map].
  assert (Hrepo0 : Pg.is_repository_of (record_of pr) repo = true).
  { unfold Pg.is_repository_of. cbn. rewrite Hname. apply String.eqb_refl. }
  destruct (filter_some_true _ _ repo Hrepo Hrepo0) as (repo0 & repos & Hrepos & _).
  rewrite Hrepos. cbn [flat_map].
  unfold Pg.left_join_file_changes at 1.
  cbn [Pg.pull_requests Pg.repositories Pg.file_changes_table].
  rewrite (filter_all_false _ _ Hnofc). cbn [map app].
  cbn [_map_to_pull_request_with_file_changes].
  replace (truthy_opt_str (row_filename (Pg.joined (record_of pr) repo0 None)))
    with false by reflexivity.
  rewrite map_joined_record_of. reflexivity.
Qed.

Lemma stored_pull_request_reads_back_witness :
  exists w1 w2 : World Pg.engine,
    set_pull_request 2%positive Sample.pg_world = (Returned true, w1)
    /\ committed (db w1) = working (db w1)
    /\ get_pull_request_with_file_changes 43 "entrius/gittensor-db" w1
       = (Returned (Some (unloaded Sample.pr43)), w2).
Proof.
  apply (stored_pull_request_reads_back Sample.pg_world 2%positive Sample.pr43
           {| Pg.r_full_name := "entrius/gittensor-db";
              Pg.r_name := "gittensor-db";
              Pg.r_owner := "entrius" |}).
  - vm_compute. reflexivity.
  - left. reflexivity.
  - reflexivity.
  - intros p [<-|[]]. vm_compute. reflexivity.
  - intros f [].
Defined.

(** X13. A pull request already stored is never overwritten:
    [set_pull_request] on a number and repository that have a row returns
    true all the same, and leaves the tables as they were, so the columns of
    the object passed are not written. *)
Theorem stored_pull_request_is_not_overwritten :
  forall (w : World Pg.engine) (l : loc) (pr : PullRequest) (p0 : Pg.pull_request_record),
    objects w !! l = Some pr ->
    In p0 (Pg.pull_requests (working (db w))) ->
    Pg.is_pull_request (number pr) (repository_full_name pr) p0 = true ->
    exists w' : World Pg.engine,
      set_pull_request l w = (Returned true, w')
      /\ working (db w') = working (db w)
      /\ committed (db w') = working (db w)
      /\ log w' = log w.
Proof.
  intros w l pr p0 Hl Hin Hkey.
  rewrite (set_pull_request_pg w l pr Hl). eexists. split; [reflexivity|].
  cbn [db working committed calls objects log with_objects with_db].
  assert (Hsame : Pg.insert_pull_request (record_of pr) (working (db w)) = working (db w)).
  { unfold Pg.insert_pull_request.
    replace (existsb _ _) with true; [reflexivity|].
    symmetry. apply existsb_exists. exists p0. split; [exact Hin|exact Hkey]. }
  rewrite Hsame. repeat split.
Qed.

Lemma stored_pull_request_is_not_overwritten_witness :
  exists w' : World Pg.engine,
    set_pull_request 1%positive Sample.pg_world = (Returned true, w')
    /\ working (db w') = Sample.tables
    /\ committed (db w') = Sample.tables
    /\ log w' = [].
Proof.
  refine (stored_pull_request_is_not_overwritten Sample.pg_world 1%positive Sample.pr42
            _ _ (or_introl eq_refl) _).
  - vm_compute. reflexivity.
  - vm_compute. reflexivity.
Defined.

(** ** File changes stored, then read with their pull request *)

Lemma set_file_changes_for_pr_stored {E : Engine} (w : World E) (n : Z) (r : string)
    (fcs : list FileChange) (st : store E) (k : nat) :
  fcs <> [] ->
  run_statements E (working (db w)) (file_change_statements n r fcs) = (None, st, k) ->
  run_commit E st = None ->
  set_file_changes_for_pr n r fcs w
  = (Returned true,
     with_db (@Build_Connection E st st
                (calls (db w)
                   ++ call_cursor :: executes (file_change_statements n r fcs)
                   ++ [call_commit; call_close])%list) w).
Proof.
  intros Hne Hrun Hcommit. destruct fcs as [|fc fcs]; [contradiction|]. clear Hne.
  unfold set_file_changes_for_pr.
  set (l := fc :: fcs) in *.
  set (g := fun fc : FileChange => (SET_FILE_CHANGES_FOR_PR, file_change_params n r fc)).
  change (file_change_statements n r l) with (map g l) in *.
  unfold try_except, get_cursor. usable. unfold bind at 1. unfold record_call at 1.
  cbn beta iota. unfold try_finally. unfold bind at 1.
  match goal with |- context [for_each ?f l ?w0] =>
    pose proof (for_each_run f g l
                  (proj2 (Forall_forall _ _) (fun x _ => cursor_execute_one g x)) w0) as Hloop
  end.
  cbn [with_db db working] in Hloop. rewrite Hrun in Hloop.
  destruct Hloop as [ys Hloop]. rewrite Hloop. cbn beta iota. unfold_layer. cbn.
  rewrite Hcommit. cbn. rewrite <- !app_assoc. reflexivity.
Qed.

Lemma adapt_file_change_params n r fc :
  PgFiles.adapt_file_change (file_change_params n r fc)
  = Some (file_change_record_of n r fc).
Proof.
  unfold file_change_params, file_change_record_of. cbn.
  destruct (fc_patch fc); reflexivity.
Qed.

(** On tables that hold none of them yet, the inserts of file changes with
    distinct names append their rows in order. *)
Lemma run_file_change_statements n r fcs :
  forall t : Pg.Tables,
    List.NoDup (map fc_filename fcs) ->
    (forall f, In f (Pg.file_changes_table t) ->
               Pg.f_pr_number f = n -> Pg.f_repository_full_name f = r ->
               ~ In (Pg.f_filename f) (map fc_filename fcs)) ->
    run_statements PgFiles.engine t (file_change_statements n r fcs)
    = (None,
       {| Pg.repositories := Pg.repositories t;
          Pg.pull_requests := Pg.pull_requests t;
          Pg.file_changes_table :=
            (Pg.file_changes_table t ++ map (file_change_record_of n r) fcs)%list |},
       length fcs).
Proof.
  induction fcs as [|fc fcs IH]; intros t Hnd Hfresh.
  - cbn. rewrite app_nil_r. destruct t; reflexivity.
  - cbn [file_change_statements map run_statements run_execute PgFiles.engine healthy
         driver_engine failed_execute].
    unfold PgFiles.execute. rewrite String.eqb_refl, adapt_file_change_params.
    unfold PgFiles.insert_file_change.
    assert (Hex : existsb (PgFiles.is_same_file (file_change_record_of n r fc))
                    (Pg.file_changes_table t) = false).
    { apply not_true_iff_false. intros H. apply existsb_exists in H as (f & Hf & Hsame).
      unfold PgFiles.is_same_file in Hsame. cbn in Hsame.
      apply andb_prop in Hsame as [Hsame Hname]. apply andb_prop in Hsame as [Hn Hr].
      apply Z.eqb_eq in Hn. apply String.eqb_eq in Hr. apply String.eqb_eq in Hname.
      apply (Hfresh f Hf Hn Hr). left. symmetry. exact Hname. }
    rewrite Hex. inversion Hnd as [|x l Hnotin Hnd']; subst.
    change (map (fun fc0 => (SET_FILE_CHANGES_FOR_PR, file_change_params n r fc0)) fcs)
      with (file_change_statements n r fcs).
    rewrite IH; [|exact Hnd'|].
    + cbn [Pg.repositories Pg.pull_requests Pg.file_changes_table length].
      rewrite <- app_assoc. reflexivity.
    + cbn [Pg.file_changes_table]. intros f Hf Hn Hr Hin.
      apply in_app_or in Hf as [Hf|[<-|[]]].
      * apply (Hfresh f Hf Hn Hr). right. exact Hin.
      * apply Hnotin. exact Hin.
Qed.

Lemma get_pull_request_with_file_changes_files (w : World PgFiles.engine) (n : Z)
    (r : string) :
  get_pull_request_with_file_changes n r w
  = (Returned
       (_map_to_pull_request_with_file_changes
          (Pg.select_pull_request_with_file_changes (working (db w)) n r)),
     after_calls (working (db w))
       [call_cursor;
        call_execute GET_PULL_REQUEST_WITH_FILE_CHANGES [PInt n; PStr r];
        call_fetchall; call_close] w).
Proof.
  unfold get_pull_request_with_file_changes. unfold bind at 1.
  rewrite execute_query_run. cbn [run_execute PgFiles.engine].
  unfold PgFiles.execute.
  replace (String.eqb GET_PULL_REQUEST_WITH_FILE_CHANGES SET_FILE_CHANGES_FOR_PR)
    with false by (vm_compute; reflexivity).
  unfold Pg.execute. rewrite String.eqb_refl. reflexivity.
Qed.

Lemma file_changes_of_joined_rows p repo n r fcs :
  Pg.p_number p = n -> Pg.p_repository_full_name p = r ->
  Forall (fun fc => PyStr.truthy (fc_filename fc) = true) fcs ->
  file_changes_of_rows
    (map (Pg.joined p repo) (map Some (map (file_change_record_of n r) fcs)))
  = map (stored_file_change n r) fcs.
Proof.
  intros Hn Hr. induction 1 as [|fc fcs Hfc _ IH]; [reflexivity|].
  cbn [map file_changes_of_rows flat_map] in IH |- *.
  unfold file_changes_of_rows in IH. rewrite IH.
  cbn [Pg.joined row_file_change fmap option_fmap option_map Pg.columns_of
       col_filename file_change_record_of Pg.f_filename row_number
       row_repository_full_name col_changes col_file_additions col_file_deletions
       col_status col_patch col_file_extension Pg.f_changes Pg.f_additions
       Pg.f_deletions Pg.f_status Pg.f_patch Pg.f_file_extension].
  rewrite Hfc, Hn, Hr. reflexivity.
Qed.

(** X14. The file changes [set_file_changes_for_pr] stores for a pull
    request are the ones [get_pull_request_with_file_changes] attaches to
    it. For a stored pull request with no file change yet, and a non-empty
    list of file changes with distinct non-empty names, the write returns
    true, and the read that follows returns the pull request with one file
    change per element of the list: it belongs to the pull request the
    write was called for, whatever its own pr_number and repository said,
    its extension is the given one or else the one derived from the name,
    and it has no id. *)
Theorem stored_file_changes_read_back :
  forall (w : World PgFiles.engine) (n : Z) (r : string) (fcs : list FileChange)
         (p : Pg.pull_request_record) (repo : Pg.repository_record),
    fcs <> [] ->
    Forall (fun fc => PyStr.truthy (fc_filename fc) = true) fcs ->
    List.NoDup (map fc_filename fcs) ->
    List.filter (Pg.is_pull_request n r) (Pg.pull_requests (working (db w))) = [p] ->
    List.filter (Pg.is_repository_of p) (Pg.repositories (working (db w))) = [repo] ->
    (forall f, In f (Pg.file_changes_table (working (db w))) ->
               Pg.is_file_change_of p f = false) ->
    exists w1 w2 : World PgFiles.engine,
      set_file_changes_for_pr n r fcs w = (Returned true, w1)
      /\ get_pull_request_with_file_changes n r w1
         = (Returned
              (Some (set_file_changes (map (stored_file_change n r) fcs)
                       (_map_to_pull_request (Pg.joined p repo None)))),
            w2).
Proof.
  intros w n r fcs p repo Hne Htruthy Hnd Hp Hrepo Hnone.
  assert (Hkey : Pg.is_pull_request n r p = true).
  { assert (Hin : In p (List.filter (Pg.is_pull_request n r)
                          (Pg.pull_requests (working (db w)))))
      by (rewrite Hp; left; reflexivity).
    apply List.filter_In in Hin. apply Hin. }
  unfold Pg.is_pull_request in Hkey. apply andb_prop in Hkey as [Hn Hr].
  apply Z.eqb_eq in Hn. apply String.eqb_eq in Hr.
  assert (Hfresh : forall f, In f (Pg.file_changes_table (working (db w))) ->
                    Pg.f_pr_number f = n -> Pg.f_repository_full_name f = r ->
                    ~ In (Pg.f_filename f) (map fc_filename fcs)).
  { intros f Hf Hfn Hfr _. specialize (Hnone f Hf).
    unfold Pg.is_file_change_of in Hnone.
    rewrite Hn, Hr, Hfn, Hfr, Z.eqb_refl, String.eqb_refl in Hnone. discriminate. }
  assert (Hrun := run_file_change_statements n r fcs (working (db w)) Hnd Hfresh).
  rewrite (set_file_changes_for_pr_stored w n r fcs _ _ Hne Hrun eq_refl).
  eexists _, _. split; [reflexivity|].
  rewrite get_pull_request_with_file_changes_files.
  cbn [with_db db working]. f_equal. f_equal.
  unfold Pg.select_pull_request_with_file_changes.
  cbn [Pg.pull_requests Pg.repositories Pg.file_changes_table].
  rewrite Hp. cbn [flat_map]. rewrite Hrepo. cbn [flat_map]. rewrite !app_nil_r.
  unfold Pg.left_join_file_changes. cbn [Pg.file_changes_table].
  rewrite List.filter_app, (filter_all_false _ _ Hnone). cbn [app].
  assert (Hall : List.filter (Pg.is_file_change_of p) (map (file_change_record_of n r) fcs)
                 = map (file_change_record_of n r) fcs).
  { clear - Hn Hr. induction fcs as [|fc fcs IH]; [reflexivity|]. cbn [map List.filter].
    rewrite IH. unfold Pg.is_file_change_of at 1.
    cbn [file_change_record_of Pg.f_pr_number Pg.f_repository_full_name].
    rewrite Hn, Hr, Z.eqb_refl, String.eqb_refl. reflexivity. }
  rewrite Hall.
  destruct fcs as [|fc fcs]; [contradiction|].
  rewrite <- (file_changes_of_joined_rows p repo n r (fc :: fcs) Hn Hr Htruthy).
  cbn [map]. unfold _map_to_pull_request_with_file_changes.
  replace (truthy_opt_str
             (row_filename (Pg.joined p repo (Some (file_change_record_of n r fc)))))
    with true.
  2: { inversion Htruthy as [|x l Hfc _]; subst. symmetry. exact Hfc. }
  reflexivity.
Qed.

Lemma stored_file_changes_read_back_witness :
  exists (w1 w2 : World PgFiles.engine) (pr : PullRequest),
    set_file_changes_for_pr 42 "entrius/gittensor-db" SampleFiles.changes SampleFiles.world
    = (Returned true, w1)
    /\ get_pull_request_with_file_changes 42 "entrius/gittensor-db" w1
       = (Returned (Some pr), w2)
    /\ file_changes pr
       = Some (map (stored_file_change 42 "entrius/gittensor-db") SampleFiles.changes).
Proof.
  destruct (stored_file_changes_read_back SampleFiles.world 42 "entrius/gittensor-db"
              SampleFiles.changes
              {| Pg.p_number := 42;
                 Pg.p_repository_full_name := "entrius/gittensor-db";
                 Pg.p_uid := 7;
                 Pg.p_hotkey := "5F3sa2TJAWMqDhXG6jhV4N8ko9SxwGy8TpaNS1repo5EYjQX";
                 Pg.p_github_id := "1234567";
                 Pg.p_earned_score := 0%float;
                 Pg.p_title := "Add bulk upserts";
                 Pg.p_merged_at := 1717236000;
                 Pg.p_pr_created_at := 1717149600;
                 Pg.p_additions := Some 150;
                 Pg.p_deletions := Some 20;
                 Pg.p_commits := 5;
                 Pg.p_author_login := "octocat";
                 Pg.p_merged_by_login := None |}
              {| Pg.r_full_name := "entrius/gittensor-db";
                 Pg.r_name := "gittensor-db";
                 Pg.r_owner := "entrius" |})
    as (w1 & w2 & Hset & Hget).
  - discriminate.
  - repeat constructor.
  - repeat constructor; cbn; intros H;
      repeat (destruct H as [H|H]; [discriminate H|]); exact H.
  - vm_compute. reflexivity.
  - vm_compute. reflexivity.
  - intros f [].
  - exists w1, w2. eexists. split; [exact Hset|]. split; [exact Hget|]. reflexivity.
Defined.

(** ** Storing the same pull requests again *)

Lemma insert_pull_request_keeps_keys p q t :
  existsb (Pg.is_pull_request (Pg.p_number q) (Pg.p_repository_full_name q))
    (Pg.pull_requests t) = true ->
  existsb (Pg.is_pull_request (Pg.p_number q) (Pg.p_repository_full_name q))
    (Pg.pull_requests (Pg.insert_pull_request p t)) = true.
Proof.
  intros H. unfold Pg.insert_pull_request.
  destruct (existsb (Pg.is_pull_request (Pg.p_number p) (Pg.p_repository_full_name p))
              (Pg.pull_requests t)).
  - exact H.
  - cbn [Pg.pull_requests]. rewrite existsb_app, H. reflexivity.
Qed.

Lemma insert_pull_request_has_key p t :
  existsb (Pg.is_pull_request (Pg.p_number p) (Pg.p_repository_full_name p))
    (Pg.pull_requests (Pg.insert_pull_request p t)) = true.
Proof.
  unfold Pg.insert_pull_request.
  destruct (existsb (Pg.is_pull_request (Pg.p_number p) (Pg.p_repository_full_name p))
              (Pg.pull_requests t)) eqn:Hp; [exact Hp|].
  cbn [Pg.pull_requests]. rewrite existsb_app. cbn [existsb].
  unfold Pg.is_pull_request at 2. rewrite Z.eqb_refl, String.eqb_refl.
  apply orb_true_iff. right. reflexivity.
Qed.

Lemma insert_all_keeps_keys ps q :
  forall t,
    existsb (Pg.is_pull_request (Pg.p_number q) (Pg.p_repository_full_name q))
      (Pg.pull_requests t) = true ->
    existsb (Pg.is_pull_request (Pg.p_number q) (Pg.p_repository_full_name q))
      (Pg.pull_requests (Pg.insert_all Pg.insert_pull_request ps t)) = true.
Proof.
  induction ps as [|p ps IH]; intros t H; [exact H|].
  cbn. apply IH, insert_pull_request_keeps_keys, H.
Qed.

Lemma insert_all_has_keys ps :
  forall t,
    Forall (fun q =>
              existsb (Pg.is_pull_request (Pg.p_number q) (Pg.p_repository_full_name q))
                (Pg.pull_requests (Pg.insert_all Pg.insert_pull_request ps t)) = true)
      ps.
Proof.
  induction ps as [|p ps IH]; intros t; constructor.
  - cbn. apply insert_all_keeps_keys, insert_pull_request_has_key.
  - cbn. apply IH.
Qed.

Lemma insert_all_present ps :
  forall t,
    Forall (fun q =>
              existsb (Pg.is_pull_request (Pg.p_number q) (Pg.p_repository_full_name q))
                (Pg.pull_requests t) = true)
      ps ->
    Pg.insert_all Pg.insert_pull_request ps t = t.
Proof.
  induction ps as [|p ps IH]; intros t H; [reflexivity|].
  inversion H as [|? ? Hp Hps]; subst. cbn.
  unfold Pg.insert_pull_request at 2. rewrite Hp. apply IH, Hps.
Qed.

Lemma insert_all_idem ps t :
  Pg.insert_all Pg.insert_pull_request ps (Pg.insert_all Pg.insert_pull_request ps t)
  = Pg.insert_all Pg.insert_pull_request ps t.
Proof. apply insert_all_present, insert_all_has_keys. Qed.

Lemma pg_pull_requests_stored_once (rows : list (list sql_param)) (t t' : Pg.Tables) :
  Pg.execute_values t BULK_UPSERT_PULL_REQUESTS rows = Returned t' ->
  Pg.execute_values t' BULK_UPSERT_PULL_REQUESTS rows = Returned t'.
Proof.
  unfold Pg.execute_values. rewrite String.eqb_refl.
  destruct (Pg.adapt_all Pg.adapt_pull_request rows) as [ps|]; [|discriminate].
  intros H. inversion H; subst. rewrite insert_all_idem. reflexivity.
Qed.

(** X15. Storing the same pull requests again changes nothing, when storage
    keeps the rows it already holds: if a bulk store of allocated pull
    requests returned their count, storage answers the bulk statement
    with the state it is in when the rows were stored from it, and the
    cursor opens again, then the second call returns the same count, while
    the committed state, the objects and the log are as the first call left
    them. The uids are normalised by the first call, so the second call
    binds the same tuples. *)
Theorem bulk_store_again_adds_nothing :
  forall (D : Driver) (w w1 : World D) (prs : list loc),
    prs <> [] ->
    Forall (fun l => is_Some (objects w !! l)) prs ->
    (forall rows st st',
       run_execute_values D st BULK_UPSERT_PULL_REQUESTS rows = Returned st' ->
       run_execute_values D st' BULK_UPSERT_PULL_REQUESTS rows = Returned st') ->
    store_pull_requests_bulk prs w = (Returned (Z.of_nat (length prs)), w1) ->
    run_cursor D (working (db w1)) = None ->
    exists w2 : World D,
      store_pull_requests_bulk prs w1 = (Returned (Z.of_nat (length prs)), w2)
      /\ working (db w1) = committed (db w1)
      /\ committed (db w2) = committed (db w1)
      /\ working (db w2) = committed (db w1)
      /\ objects w2 = objects w1
      /\ log w2 = log w1.
Proof.
  intros D w w1 prs Hne Hall Hidem Hfirst Hcursor.
  destruct values_template_unchanged as (_ & _ & Hp & _).
  destruct (store_pull_requests_bulk_run prs w Hne Hall) as (values & h' & Hrun & Hobj & Hvals).
  assert (Hlen : length values = length prs)
    by (symmetry; exact (Forall2_length _ _ _ Hvals)).
  assert (Hvne : values <> []).
  { intros ->. destruct prs; [contradiction|discriminate Hlen]. }
  pose proof (store_values_write BULK_UPSERT_PULL_REQUESTS "pull request" values
                (with_objects h' w) Hp) as Hw.
  apply bulk_write_plain in Hw; [|exact Hvne].
  destruct Hw as (r & w1' & Heq & Ho1 & Hiff & Hd & _).
  rewrite <- Hrun, Hfirst in Heq. inversion Heq; subst r w1'. clear Heq.
  rewrite Hlen in Hiff, Hd.
  destruct (proj1 Hiff eq_refl) as (_ & st & Hx & Hcommit & Hclose).
  destruct (Hd eq_refl) as (Hx' & Hp1 & Hl1 & _).
  cbn [db working with_objects] in Hx, Hx'. rewrite Hx in Hx'. inversion Hx' as [Hst].
  assert (Hall1 : Forall (fun l => is_Some (objects w1 !! l)) prs).
  { apply Forall_forall. intros l Hin. rewrite Ho1. cbn [objects with_objects].
    rewrite Hobj. destruct (decide (l ∈ prs)) as [_|Hn]; [|contradiction].
    destruct (proj1 (Forall_forall _ _) Hall l Hin) as [pr ->]. eexists. reflexivity. }
  destruct (store_pull_requests_bulk_run prs w1 Hne Hall1)
    as (values2 & h'' & Hrun2 & Hobj2 & Hvals2).
  assert (Hgen : forall ls vs vs2,
             (forall l, l ∈ ls -> l ∈ prs) ->
             Forall2
               (fun l v =>
                  exists pr, objects w !! l = Some pr
                             /\ v = pull_request_params (normalized pr)) ls vs ->
             Forall2
               (fun l v =>
                  exists pr, objects w1 !! l = Some pr
                             /\ v = pull_request_params (normalized pr)) ls vs2 ->
             vs2 = vs).
  { clear - Hobj Ho1. intros ls vs vs2 Hin H1. revert vs2.
    induction H1 as [|l v ls vs (pr & Hl & ->) _ IH]; intros vs2 H2.
    - inversion H2. reflexivity.
    - inversion H2 as [|? v2 ? vs2' (pr2 & Hl2 & ->) Hrest]; subst.
      f_equal.
      + rewrite Ho1 in Hl2. cbn [objects with_objects] in Hl2. rewrite Hobj in Hl2.
        destruct (decide (l ∈ prs)) as [_|Hn]; [|exfalso; apply Hn, Hin; left].
        rewrite Hl in Hl2. cbn in Hl2. inversion Hl2. rewrite normalized_idem. reflexivity.
      + apply IH; [|exact Hrest]. intros l' Hl'. apply Hin. right. exact Hl'. }
  assert (Hsame : values2 = values) by (apply (Hgen prs); auto).
  subst values2.
  pose proof (store_values_write BULK_UPSERT_PULL_REQUESTS "pull request" values
                (with_objects h'' w1) Hp) as Hw2.
  apply bulk_write_plain in Hw2; [|exact Hvne].
  destruct Hw2 as (r2 & w2 & Heq2 & Ho2 & Hiff2 & Hd2 & _).
  rewrite Hlen in Hiff2, Hd2.
  cbn [db working with_objects] in Hiff2, Hd2.
  assert (Hagain : run_execute_values D (working (db w1)) BULK_UPSERT_PULL_REQUESTS values
                   = Returned (working (db w1))).
  { rewrite Hp1, <- Hst. apply (Hidem values (working (db w))). exact Hx. }
  assert (Hr2 : r2 = Returned (Z.of_nat (length prs))).
  { apply Hiff2. split; [exact Hcursor|]. exists (working (db w1)).
    split; [exact Hagain|]. rewrite Hp1, <- Hst. auto. }
  subst r2. destruct (Hd2 eq_refl) as (Hx2 & Hp2 & Hl2 & _).
  rewrite Hagain in Hx2. inversion Hx2 as [Hst2].
  exists w2. rewrite Hrun2, Heq2.
  split; [reflexivity|]. split; [exact Hp1|].
  split; [rewrite <- Hst2; exact Hp1|]. split; [rewrite Hp2, <- Hst2; exact Hp1|].
  split.
  - rewrite Ho2. cbn [objects with_objects]. apply map_eq. intros l.
    rewrite Hobj2, Ho1. cbn [objects with_objects]. rewrite Hobj.
    destruct (decide (l ∈ prs)); [|reflexivity].
    destruct (objects w !! l); cbn; [rewrite normalized_idem|]; reflexivity.
  - rewrite Hl2. reflexivity.
Qed.

Lemma bulk_store_again_adds_nothing_witness :
  exists w1 w2 : World Pg.engine,
    store_pull_requests_bulk [1%positive; 2%positive] Sample.pg_world = (Returned 2, w1)
    /\ store_pull_requests_bulk [1%positive; 2%positive] w1 = (Returned 2, w2)
    /\ committed (db w2) = committed (db w1).
Proof.
  set (w1 := snd (store_pull_requests_bulk [1%positive; 2%positive] Sample.pg_world)).
  destruct (bulk_store_again_adds_nothing Pg.engine Sample.pg_world w1
              [1%positive; 2%positive])
    as (w2 & H2 & _ & H3 & _).
  - discriminate.
  - repeat constructor; vm_compute; eauto.
  - intros rows st st'. apply pg_pull_requests_stored_once.
  - vm_compute. reflexivity.
  - reflexivity.
  - exists w1, w2. split; [vm_compute; reflexivity|]. split; [exact H2|exact H3].
Defined.
